(** * PulseCheck: the feedback pipeline of [src/index.ts]

    A shallow embedding of the Worker and of the Workflow it starts:
    the JavaScript values the code passes around, the library calls it
    relies on ([JSON.parse], [JSON.stringify], template literals,
    [String.prototype.substring]), the two D1 tables with the three
    SQL statements of the workflow, the four [step.do] callbacks of
    [MyWorkflow.run], and the [POST /api/feedback] branch of [fetch].
    After those come the rest of [fetch] ([Worker.fetch]: the two read
    routes with their four queries, the dashboard page and the 404)
    and the script of the dashboard ([submitFeedback], [loadStats],
    [loadFeedback]) as it runs against the Worker.

    The services behind the bindings are the environment: what the
    model answers and whether the workflow host creates an instance
    are parameters ([Env]); the database is two tables in the state
    ([World]).  Numbers other than safe integers, and numbers or
    arrays bound to SQL, are outside the development ([Unmodelled]). *)

From Stdlib Require Import List ZArith NArith Lia Bool String Ascii Permutation Sorted.
From Stdlib Require Decimal DecimalPos DecimalFacts.
Import ListNotations.

Local Open Scope Z_scope.
Set Warnings "-register-all".

(* ===================================================================== *)
(** * JavaScript strings *)
(* ===================================================================== *)

(** A JavaScript string is a sequence of UTF-16 code units; [length],
    [substring] and indexing all count code units. *)
Abbreviation code_unit := N (only parsing).
Abbreviation jsstring := (list N).

(** ASCII literals of the source, as code units. *)
Definition js (s : string) : jsstring :=
  List.map N_of_ascii (list_ascii_of_string s).

(** A literal in which the apostrophe stands for the double quote
    (code unit 34), for writing JSON texts. *)
Definition json_text (s : string) : jsstring :=
  List.map (fun c => if N.eqb c 39 then 34%N else c) (js s).

Definition jsstring_eqb (a b : jsstring) : bool :=
  if list_eq_dec N.eq_dec a b then true else false.

(** [s.substring(0, n)] for a string receiver and [0 <= n]. *)
Definition substring_0 (n : nat) (s : jsstring) : jsstring := firstn n s.

Fixpoint join (sep : jsstring) (parts : list jsstring) : jsstring :=
  match parts with
  | [] => []
  | [p] => p
  | p :: rest => p ++ sep ++ join sep rest
  end.

Definition digit_unit (d : N) : code_unit := (48 + d)%N.

Fixpoint uint_units (u : Decimal.uint) : jsstring :=
  match u with
  | Decimal.Nil => []
  | Decimal.D0 r => digit_unit 0 :: uint_units r
  | Decimal.D1 r => digit_unit 1 :: uint_units r
  | Decimal.D2 r => digit_unit 2 :: uint_units r
  | Decimal.D3 r => digit_unit 3 :: uint_units r
  | Decimal.D4 r => digit_unit 4 :: uint_units r
  | Decimal.D5 r => digit_unit 5 :: uint_units r
  | Decimal.D6 r => digit_unit 6 :: uint_units r
  | Decimal.D7 r => digit_unit 7 :: uint_units r
  | Decimal.D8 r => digit_unit 8 :: uint_units r
  | Decimal.D9 r => digit_unit 9 :: uint_units r
  end.

(** [Number::toString] and the JSON text of a number, for the integers
    this development represents (see [JNum]). *)
Definition Number_toString (n : Z) : jsstring :=
  match n with
  | Z0 => js "0"
  | Zpos p => uint_units (Pos.to_uint p)
  | Zneg p => js "-" ++ uint_units (Pos.to_uint p)
  end.

(* ===================================================================== *)
(** * JavaScript values *)
(* ===================================================================== *)

(** The values that reach the code: what [JSON.parse] builds, plus
    [undefined] for absent properties.  A number is an integer of
    magnitude at most [2^53 - 1]; other doubles are outside this
    development (see [Unmodelled]).  An object lists its own properties
    in creation order (JavaScript lists integer-like keys first; the
    program never enumerates the properties of a parsed object).
    An object built by [JSON.parse] has [Object.prototype] as its
    prototype and only data properties, none of them callable. *)
Inductive JsVal : Type :=
| JUndefined
| JNull
| JBool (b : bool)
| JNum (n : Z)
| JStr (s : jsstring)
| JArr (elems : list JsVal)
| JObj (props : list (jsstring * JsVal)).

Inductive Error : Type :=
| TypeError
| SyntaxError
| D1_TYPE_ERROR
| ServiceError (detail : jsstring).

(** What evaluating a piece of code yields: a value, a thrown error, or
    [Unmodelled] when the run leaves what this development represents
    (a number that is not a safe integer, a number or an array bound to
    a SQL statement, a route that is not embedded); nothing is claimed
    about such runs. *)
Inductive Outcome (A : Type) : Type :=
| Returns (a : A)
| Throws (e : Error)
| Unmodelled.
Arguments Returns {A} a.
Arguments Throws {A} e.
Arguments Unmodelled {A}.

Fixpoint lookup_prop (k : jsstring) (props : list (jsstring * JsVal)) : option JsVal :=
  match props with
  | [] => None
  | (k', v) :: rest => if jsstring_eqb k k' then Some v else lookup_prop k rest
  end.

(** [CreateDataProperty]: an existing key keeps its place and takes the
    new value, a new key goes last. *)
Fixpoint set_prop (k : jsstring) (v : JsVal) (props : list (jsstring * JsVal))
  : list (jsstring * JsVal) :=
  match props with
  | [] => [(k, v)]
  | (k', v') :: rest =>
      if jsstring_eqb k k' then (k, v) :: rest else (k', v') :: set_prop k v rest
  end.

(** [v.k] for a property name that no prototype defines, as are all
    the names the source reads ([response], [source], [content],
    [sentiment], [category], [urgency]) and all the names the
    statements below ask for: only own properties of objects answer.
    Reading a property of [null] or [undefined] throws. *)
Definition Get (v : JsVal) (k : jsstring) : Outcome JsVal :=
  match v with
  | JUndefined | JNull => Throws TypeError
  | JObj props =>
      match lookup_prop k props with
      | Some x => Returns x
      | None => Returns JUndefined
      end
  | _ => Returns JUndefined
  end.

(** The text that [ToString] gives when it gives one ([stringable]
    below tells when), as template literals, [+] on a string and
    [JSON.parse] apply it. *)
Fixpoint ToString (v : JsVal) : jsstring :=
  match v with
  | JUndefined => js "undefined"
  | JNull => js "null"
  | JBool true => js "true"
  | JBool false => js "false"
  | JNum n => Number_toString n
  | JStr s => s
  | JArr elems =>
      join (js ",")
        (List.map (fun e => match e with
                            | JUndefined | JNull => []
                            | _ => ToString e
                            end) elems)
  | JObj _ => js "[object Object]"
  end.

(** Whether [ToString] gives a text.  On an object it asks for the
    member [toString], then [valueOf]: an object with a member
    [toString] of its own has there a value that cannot be called, and
    [Object.prototype.valueOf] answers the object itself, so the
    conversion ends in a TypeError; without such a member
    [Object.prototype.toString] answers.  An array joins its elements,
    converting each that is neither [null] nor [undefined]. *)
Fixpoint stringable (v : JsVal) : bool :=
  match v with
  | JArr elems =>
      forallb (fun e => match e with
                        | JUndefined | JNull => true
                        | _ => stringable e
                        end) elems
  | JObj props =>
      match lookup_prop (js "toString") props with
      | Some _ => false
      | None => true
      end
  | _ => true
  end.

(** [ToString] as the code performs it: the text, or a TypeError. *)
Definition ToString_or_throw (v : JsVal) : Outcome jsstring :=
  if stringable v then Returns (ToString v) else Throws TypeError.

(** [v === lit] for a string literal [lit]. *)
Definition strict_eq_string (v : JsVal) (lit : jsstring) : bool :=
  match v with
  | JStr s => jsstring_eqb s lit
  | _ => false
  end.

(** [v.substring(0, n)]: only strings have the method. *)
Definition substring_call (v : JsVal) (n : nat) : Outcome JsVal :=
  match v with
  | JStr s => Returns (JStr (substring_0 n s))
  | _ => Throws TypeError
  end.

(* ===================================================================== *)
(** * [JSON.parse] *)
(* ===================================================================== *)

(** Result of reading one JSON production off the front of a text.
    [PFuel] is the recursion bound running out; [JSON_parse_total]
    shows it never reaches the caller. *)
Inductive Parse (A : Type) : Type :=
| POk (a : A) (rest : jsstring)
| PSyntax
| PFuel.
Arguments POk {A} a rest.
Arguments PSyntax {A}.
Arguments PFuel {A}.

Definition is_unit (c : code_unit) (lit : string) : bool :=
  match lit with
  | String a EmptyString => N.eqb c (N_of_ascii a)
  | _ => false
  end.

Definition is_ws (c : code_unit) : bool :=
  N.eqb c 9 || N.eqb c 10 || N.eqb c 13 || N.eqb c 32.

Definition is_digit (c : code_unit) : bool := N.leb 48 c && N.leb c 57.

Fixpoint skip_ws (s : jsstring) : jsstring :=
  match s with
  | c :: r => if is_ws c then skip_ws r else s
  | [] => []
  end.

Fixpoint strip_prefix (lit s : jsstring) : option jsstring :=
  match lit, s with
  | [], _ => Some s
  | l :: lit', c :: s' => if N.eqb l c then strip_prefix lit' s' else None
  | _ :: _, [] => None
  end.

Definition hex_value (c : code_unit) : option N :=
  if is_digit c then Some (c - 48)%N
  else if N.leb 97 c && N.leb c 102 then Some (c - 87)%N
  else if N.leb 65 c && N.leb c 70 then Some (c - 55)%N
  else None.

Definition hex4 (a b c d : code_unit) : option code_unit :=
  match hex_value a, hex_value b, hex_value c, hex_value d with
  | Some x, Some y, Some z, Some w => Some (((x * 16 + y) * 16 + z) * 16 + w)%N
  | _, _, _, _ => None
  end.

(** The single-character escapes of a JSON string. *)
Definition escape_unit (e : code_unit) : option code_unit :=
  if N.eqb e 34 then Some 34%N
  else if is_unit e "\" then Some 92%N
  else if is_unit e "/" then Some 47%N
  else if is_unit e "b" then Some 8%N
  else if is_unit e "f" then Some 12%N
  else if is_unit e "n" then Some 10%N
  else if is_unit e "r" then Some 13%N
  else if is_unit e "t" then Some 9%N
  else None.

Definition cons_unit (c : code_unit) (r : option (jsstring * jsstring))
  : option (jsstring * jsstring) :=
  match r with
  | Some (str, rest) => Some (c :: str, rest)
  | None => None
  end.

(** The characters of a JSON string after its opening quote, up to and
    including the closing quote. *)
Fixpoint lex_string (s : jsstring) : option (jsstring * jsstring) :=
  match s with
  | [] => None
  | c :: r =>
      if N.eqb c 34 then Some ([], r)
      else if N.eqb c 92 then
        match r with
        | [] => None
        | e :: r1 =>
            if is_unit e "u" then
              match r1 with
              | h1 :: h2 :: h3 :: h4 :: r2 =>
                  match hex4 h1 h2 h3 h4 with
                  | Some u => cons_unit u (lex_string r2)
                  | None => None
                  end
              | _ => None
              end
            else
              match escape_unit e with
              | Some u => cons_unit u (lex_string r1)
              | None => None
              end
        end
      else if N.ltb c 32 then None
      else cons_unit c (lex_string r)
  end.

Fixpoint span_digits (s : jsstring) : jsstring * jsstring :=
  match s with
  | c :: r =>
      if is_digit c then let (ds, rest) := span_digits r in (c :: ds, rest)
      else ([], s)
  | [] => ([], [])
  end.

Definition digits_value (ds : jsstring) : Z :=
  fold_left (fun acc d => 10 * acc + Z.of_N (d - 48)) ds 0.

Definition MAX_SAFE_INTEGER : Z := 2 ^ 53 - 1.

(** The fraction part of a numeral, if there is one: a point and at
    least one digit.  The answer tells whether there was one and what
    follows it; [None] is a point without a digit. *)
Definition lex_fraction (s : jsstring) : option (bool * jsstring) :=
  match s with
  | c :: r =>
      if is_unit c "." then
        match span_digits r with
        | ([], _) => None
        | (_ :: _, rest) => Some (true, rest)
        end
      else Some (false, s)
  | [] => Some (false, [])
  end.

(** The exponent part of a numeral, if there is one: [e] or [E], a
    sign or none, and at least one digit. *)
Definition lex_exponent (s : jsstring) : option (bool * jsstring) :=
  match s with
  | c :: r =>
      if is_unit c "e" || is_unit c "E" then
        let digits :=
          match r with
          | sign :: r' => if is_unit sign "+" || is_unit sign "-" then r' else r
          | [] => r
          end in
        match span_digits digits with
        | ([], _) => None
        | (_ :: _, rest) => Some (true, rest)
        end
      else Some (false, s)
  | [] => Some (false, [])
  end.

(** The value of a numeral whose integer part is [ds], followed by
    [rest].  The whole numeral is read, so a malformed one is a syntax
    error.  A numeral with a fraction or an exponent part, a negative
    zero and a magnitude above [2^53 - 1] are doubles outside this
    development: such a numeral is read as [undefined], which no JSON
    text denotes, and [JSON_parse] answers [Unmodelled] when the value
    it has built still holds one. *)
Definition finish_number (neg : bool) (ds rest : jsstring) : Parse JsVal :=
  match lex_fraction rest with
  | None => PSyntax
  | Some (fraction, rest1) =>
      match lex_exponent rest1 with
      | None => PSyntax
      | Some (exponent, rest2) =>
          let v := digits_value ds in
          if fraction || exponent || (neg && Z.eqb v 0) || Z.ltb MAX_SAFE_INTEGER v
          then POk JUndefined rest2
          else POk (JNum (if neg then - v else v)) rest2
      end
  end.

Definition lex_int (neg : bool) (s : jsstring) : Parse JsVal :=
  match s with
  | d :: r =>
      if N.eqb d 48 then finish_number neg [d] r
      else if is_digit d then
        let (ds, rest) := span_digits r in finish_number neg (d :: ds) rest
      else PSyntax
  | [] => PSyntax
  end.

Definition lex_number (s : jsstring) : Parse JsVal :=
  match s with
  | c :: r => if is_unit c "-" then lex_int true r else lex_int false s
  | [] => PSyntax
  end.

Definition lex_literal (lit : string) (v : JsVal) (s : jsstring) : Parse JsVal :=
  match strip_prefix (js lit) s with
  | Some rest => POk v rest
  | None => PSyntax
  end.

(** Recursive descent over the JSON grammar.  [parse_elements] reads the
    elements of an array after its bracket, [parse_members] the members
    of an object after its brace; a repeated key keeps its last value. *)
Fixpoint parse_value (fuel : nat) (s : jsstring) : Parse JsVal :=
  match fuel with
  | O => PFuel
  | S f =>
      match skip_ws s with
      | [] => PSyntax
      | c :: r =>
          if is_unit c "{" then
            match skip_ws r with
            | c' :: r' => if is_unit c' "}" then POk (JObj []) r'
                          else parse_members f [] r
            | [] => PSyntax
            end
          else if is_unit c "[" then
            match skip_ws r with
            | c' :: r' => if is_unit c' "]" then POk (JArr []) r'
                          else parse_elements f [] r
            | [] => PSyntax
            end
          else if N.eqb c 34 then
            match lex_string r with
            | Some (str, rest) => POk (JStr str) rest
            | None => PSyntax
            end
          else if is_unit c "t" then lex_literal "true" (JBool true) (c :: r)
          else if is_unit c "f" then lex_literal "false" (JBool false) (c :: r)
          else if is_unit c "n" then lex_literal "null" JNull (c :: r)
          else lex_number (c :: r)
      end
  end
with parse_elements (fuel : nat) (acc : list JsVal) (s : jsstring) : Parse JsVal :=
  match fuel with
  | O => PFuel
  | S f =>
      match parse_value f s with
      | POk v r =>
          match skip_ws r with
          | c :: r' =>
              if is_unit c "," then parse_elements f (v :: acc) r'
              else if is_unit c "]" then POk (JArr (rev (v :: acc))) r'
              else PSyntax
          | [] => PSyntax
          end
      | other => other
      end
  end
with parse_members (fuel : nat) (acc : list (jsstring * JsVal)) (s : jsstring)
  : Parse JsVal :=
  match fuel with
  | O => PFuel
  | S f =>
      match skip_ws s with
      | q :: r =>
          if N.eqb q 34 then
            match lex_string r with
            | Some (k, r1) =>
                match skip_ws r1 with
                | c :: r2 =>
                    if is_unit c ":" then
                      match parse_value f r2 with
                      | POk v r3 =>
                          match skip_ws r3 with
                          | c' :: r4 =>
                              if is_unit c' "," then parse_members f (set_prop k v acc) r4
                              else if is_unit c' "}" then POk (JObj (set_prop k v acc)) r4
                              else PSyntax
                          | [] => PSyntax
                          end
                      | other => other
                      end
                    else PSyntax
                | [] => PSyntax
                end
            | None => PSyntax
            end
          else PSyntax
      | [] => PSyntax
      end
  end.

(** A value that holds no [undefined]: every numeral that went into it
    is a number of this development. *)
Fixpoint represented (v : JsVal) : bool :=
  match v with
  | JUndefined => false
  | JNull | JBool _ | JNum _ | JStr _ => true
  | JArr elems => forallb represented elems
  | JObj props => forallb (fun kv => represented (snd kv)) props
  end.

(** [JSON.parse(text)] for a string [text]: one value, then only white
    space.  A [SyntaxError] is the only error it throws, and it throws
    it for every text that is not JSON; a text that is JSON and whose
    value holds a number outside this development is [Unmodelled]. *)
Definition JSON_parse (text : jsstring) : Outcome JsVal :=
  match parse_value (S (2 * List.length text)) text with
  | POk v rest =>
      match skip_ws rest with
      | [] => if represented v then Returns v else Unmodelled
      | _ :: _ => Throws SyntaxError
      end
  | PSyntax => Throws SyntaxError
  | PFuel => Unmodelled
  end.

(* ===================================================================== *)
(** * [JSON.stringify] *)
(* ===================================================================== *)

Definition hex_digit (n : N) : code_unit :=
  if N.ltb n 10 then (48 + n)%N else (87 + n)%N.

Definition unicode_escape (c : code_unit) : jsstring :=
  js "\u" ++ [hex_digit (c / 4096 mod 16); hex_digit (c / 256 mod 16);
              hex_digit (c / 16 mod 16); hex_digit (c mod 16)]%N.

Definition is_high_surrogate (c : code_unit) : bool := N.leb 55296 c && N.leb c 56319.
Definition is_low_surrogate (c : code_unit) : bool := N.leb 56320 c && N.leb c 57343.

(** The body of [QuoteJSONString]: short escapes, [\u00xx] for the other
    control characters, [\udxxx] for a surrogate without its partner. *)
Fixpoint quote_units (s : jsstring) : jsstring :=
  match s with
  | [] => []
  | c :: r =>
      if N.eqb c 34 then [92; 34]%N ++ quote_units r
      else if N.eqb c 92 then js "\\" ++ quote_units r
      else if N.eqb c 8 then js "\b" ++ quote_units r
      else if N.eqb c 9 then js "\t" ++ quote_units r
      else if N.eqb c 10 then js "\n" ++ quote_units r
      else if N.eqb c 12 then js "\f" ++ quote_units r
      else if N.eqb c 13 then js "\r" ++ quote_units r
      else if N.ltb c 32 then unicode_escape c ++ quote_units r
      else if is_high_surrogate c then
        match r with
        | c2 :: r2 =>
            if is_low_surrogate c2 then c :: c2 :: quote_units r2
            else unicode_escape c ++ quote_units r
        | [] => unicode_escape c
        end
      else if is_low_surrogate c then unicode_escape c ++ quote_units r
      else c :: quote_units r
  end.

Definition QuoteJSONString (s : jsstring) : jsstring :=
  [34%N] ++ quote_units s ++ [34%N].

(** [JSON.stringify(v)] without indentation; [None] is the [undefined]
    it returns for [undefined].  Inside an array [undefined] prints as
    [null]; inside an object the property is left out. *)
Fixpoint JSON_stringify (v : JsVal) : option jsstring :=
  match v with
  | JUndefined => None
  | JNull => Some (js "null")
  | JBool true => Some (js "true")
  | JBool false => Some (js "false")
  | JNum n => Some (Number_toString n)
  | JStr s => Some (QuoteJSONString s)
  | JArr elems =>
      Some (js "[" ++
            join (js ",")
              (List.map (fun e => match JSON_stringify e with
                                  | Some t => t
                                  | None => js "null"
                                  end) elems) ++
            js "]")
  | JObj props =>
      Some (js "{" ++
            join (js ",")
              ((fix members (ps : list (jsstring * JsVal)) : list jsstring :=
                  match ps with
                  | [] => []
                  | (k, x) :: rest =>
                      match JSON_stringify x with
                      | Some t => (QuoteJSONString k ++ js ":" ++ t) :: members rest
                      | None => members rest
                      end
                  end) props) ++
            js "}")
  end.

(** The value of the expression [JSON.stringify(v)]. *)
Definition JSON_stringify_value (v : JsVal) : JsVal :=
  match JSON_stringify v with
  | Some t => JStr t
  | None => JUndefined
  end.

(* ===================================================================== *)
(** * The D1 database *)
(* ===================================================================== *)

(** The store is taken to be up: a statement fails only when [.bind()]
    refuses a value.  [schema.sql] is not among the sources; the
    columns are those the README lists and the statements name. *)

(** What [.bind()] hands to SQLite, as far as this development goes:
    NULL or a text. *)
Inductive SqlValue : Type :=
| SqlNull
| SqlText (s : jsstring).

(** [.bind(v)]: a string goes through, [null] becomes NULL, [undefined]
    and plain objects are refused with a D1_TYPE_ERROR.  Numbers and
    booleans bind as SQLite numbers and arrays of bytes as BLOBs; what
    a TEXT column makes of those is outside this development. *)
Definition d1_bind (v : JsVal) : Outcome SqlValue :=
  match v with
  | JUndefined => Throws D1_TYPE_ERROR
  | JNull => Returns SqlNull
  | JStr s => Returns (SqlText s)
  | JBool _ | JNum _ | JArr _ => Unmodelled
  | JObj _ => Throws D1_TYPE_ERROR
  end.

(** A value as a TEXT column stores it, and as [column = ?] compares it
    against a TEXT column: NULL ([None]) or the text itself. *)
Definition text_affinity (v : SqlValue) : option jsstring :=
  match v with
  | SqlNull => None
  | SqlText s => Some s
  end.

(** SQL [a = b] on TEXT, as a WHERE clause reads it: NULL equals nothing. *)
Definition sql_text_eq (a b : option jsstring) : bool :=
  match a, b with
  | Some x, Some y => jsstring_eqb x y
  | _, _ => false
  end.

(** The rowid an INSERT without an id receives: one more than the
    largest in the table, 1 in an empty table.  (Under AUTOINCREMENT
    the largest rowid ever used counts instead; the two agree unless
    rows are deleted from outside.) *)
Definition next_rowid (ids : list Z) : Z :=
  match ids with
  | [] => 1
  | i :: rest => 1 + fold_right Z.max i rest
  end.

(** Table [feedback]: [id INTEGER PRIMARY KEY] and five TEXT columns.
    ([created_at] is filled by the store and read by no statement of
    the workflow; it is left out.) *)
Module feedback.
Record row : Type := {
  id : Z;
  source : option jsstring;
  content : option jsstring;
  sentiment : option jsstring;
  category : option jsstring;
  urgency : option jsstring
}.
End feedback.

(** Table [aggregated_stats]: [id INTEGER PRIMARY KEY], [stat_type]
    and [stat_value] TEXT ([updated_at] left out likewise). *)
Module aggregated_stats.
Record row : Type := {
  id : Z;
  stat_type : option jsstring;
  stat_value : option jsstring
}.
End aggregated_stats.

Record D1Database : Type := {
  feedback_table : list feedback.row;
  aggregated_stats_table : list aggregated_stats.row
}.

(** [INSERT INTO feedback (source, content, sentiment, category, urgency)
     VALUES (?, ?, ?, ?, ?)] *)
Definition insert_feedback (p1 p2 p3 p4 p5 : SqlValue) (rows : list feedback.row)
  : list feedback.row :=
  rows ++ [ {| feedback.id := next_rowid (List.map feedback.id rows);
               feedback.source := text_affinity p1;
               feedback.content := text_affinity p2;
               feedback.sentiment := text_affinity p3;
               feedback.category := text_affinity p4;
               feedback.urgency := text_affinity p5 |} ].

(** [SELECT COUNT( * ) as count FROM feedback WHERE category = ?] *)
Definition count_by_category (p : SqlValue) (rows : list feedback.row) : Z :=
  Z.of_nat
    (List.length
       (filter (fun r => sql_text_eq (feedback.category r) (text_affinity p)) rows)).

(** [.first()] of that query: the one result row, as an object. *)
Definition count_by_category_first (p : SqlValue) (rows : list feedback.row) : JsVal :=
  JObj [(js "count", JNum (count_by_category p rows))].

Definition has_stat_type (k : option jsstring) (r : aggregated_stats.row) : bool :=
  sql_text_eq (aggregated_stats.stat_type r) k.

(** [(SELECT id FROM aggregated_stats WHERE stat_type = ?)] as a scalar:
    the id of the first matching row in rowid order, NULL ([None])
    without a match. *)
Fixpoint select_stat_id (k : option jsstring) (rows : list aggregated_stats.row)
  : option Z :=
  match rows with
  | [] => None
  | r :: rest =>
      if has_stat_type k r then
        match select_stat_id k rest with
        | Some m => Some (Z.min (aggregated_stats.id r) m)
        | None => Some (aggregated_stats.id r)
        end
      else select_stat_id k rest
  end.

(** [INSERT OR REPLACE INTO aggregated_stats (id, stat_type, stat_value)
     VALUES ((SELECT id FROM aggregated_stats WHERE stat_type = ?), ?, ?)]

    REPLACE deletes the rows the new one conflicts with: the row with
    its id, and, when [stat_type_unique] (the schema declares the
    column UNIQUE), the rows with its [stat_type].  The new row then
    takes its place in rowid order. *)
Definition insert_or_replace_stat (stat_type_unique : bool) (p1 p2 p3 : SqlValue)
  (rows : list aggregated_stats.row) : list aggregated_stats.row :=
  let rid :=
    match select_stat_id (text_affinity p1) rows with
    | Some i => i
    | None => next_rowid (List.map aggregated_stats.id rows)
    end in
  let new := {| aggregated_stats.id := rid;
                aggregated_stats.stat_type := text_affinity p2;
                aggregated_stats.stat_value := text_affinity p3 |} in
  let conflicts r :=
    Z.eqb (aggregated_stats.id r) rid
    || (stat_type_unique && has_stat_type (text_affinity p2) r) in
  let kept := filter (fun r => negb (conflicts r)) rows in
  filter (fun r => Z.ltb (aggregated_stats.id r) rid) kept
  ++ [new]
  ++ filter (fun r => Z.ltb rid (aggregated_stats.id r)) kept.

(* ===================================================================== *)
(** * The world around the code *)
(* ===================================================================== *)

(** An instance of the workflow, as [MY_WORKFLOW.create] registers it. *)
Record WorkflowInstance : Type := {
  instance_id : jsstring;
  instance_params : JsVal
}.

(** The state the code reads and writes: the database behind [env.DB],
    the instances behind [env.MY_WORKFLOW], and the names of the steps
    the host has been asked to run, oldest first. *)
Record World : Type := {
  DB : D1Database;
  instances : list WorkflowInstance;
  step_log : list jsstring
}.

(** The bindings whose behaviour the code does not fix: the model
    behind [env.AI], the host behind [env.MY_WORKFLOW], which either
    throw ([inl]) or return ([inr]), and the one fact of [schema.sql]
    that the statements depend on. *)
Record Env : Type := {
  AI_run : jsstring -> JsVal -> Error + JsVal;
  MY_WORKFLOW_create : list WorkflowInstance -> JsVal -> Error + jsstring;
  stat_type_unique : bool
}.

(** World [w] with its database replaced. *)
Definition with_DB (w : World) (d : D1Database) : World :=
  {| DB := d; instances := instances w; step_log := step_log w |}.

(** The world as a callback finds it once the host has noted its step. *)
Definition noted (name : string) (w : World) : World :=
  {| DB := DB w; instances := instances w; step_log := step_log w ++ [js name] |}.

(** The world once an instance with this id and these params is registered. *)
Definition with_instance (w : World) (new_id : jsstring) (params : JsVal) : World :=
  {| DB := DB w;
     instances := instances w ++ [ {| instance_id := new_id; instance_params := params |} ];
     step_log := step_log w |}.

(** Code that runs against the world. *)
Definition M (A : Type) : Type := World -> Outcome A * World.

Definition ret {A} (a : A) : M A := fun w => (Returns a, w).

Definition bind {A B} (m : M A) (k : A -> M B) : M B :=
  fun w =>
    match m w with
    | (Returns a, w') => k a w'
    | (Throws e, w') => (Throws e, w')
    | (Unmodelled, w') => (Unmodelled, w')
    end.

Notation "x <- m ;; k" := (bind m (fun x => k))
  (at level 61, m at next level, right associativity).

Definition lift {A} (o : Outcome A) : M A := fun w => (o, w).

Definition external {A} (r : Error + A) : M A :=
  lift (match r with inl e => Throws e | inr a => Returns a end).

(** [try { body } catch { handler }]. *)
Definition try_catch {A} (body : M A) (handler : M A) : M A :=
  fun w =>
    match body w with
    | (Throws _, w') => handler w'
    | other => other
    end.

Definition update_DB (f : D1Database -> D1Database) : M unit :=
  fun w => (Returns tt, with_DB w (f (DB w))).

Definition read_DB : M D1Database := fun w => (Returns (DB w), w).

(* ===================================================================== *)
(** * [MyWorkflow.run] *)
(* ===================================================================== *)

(** [step.do(name, callback)]: the host notes the step and runs the
    callback; what the callback returns or throws is what the step
    returns or throws.  (A step that throws is retried by the host and
    fails the run when the retries are used up; the bindings here
    answer alike on every attempt, so one attempt decides.) *)
Definition step_do {A} (name : string) (callback : M A) : M A :=
  fun w => callback (noted name w).

Definition SYSTEM_PROMPT : jsstring :=
  js "You are a feedback analyzer. Analyze the following feedback and respond with JSON only containing: sentiment (positive/neutral/negative), category (bug/feature/question/complaint), urgency (low/medium/high), and a brief reason.".

Definition MODEL : jsstring := js "@cf/meta/llama-3-8b-instruct".

(** The object of the [catch] branch of step 1. *)
Definition fallback_analysis : JsVal :=
  JObj [ (js "sentiment", JStr (js "neutral"));
         (js "category", JStr (js "unknown"));
         (js "urgency", JStr (js "low"));
         (js "reason", JStr (js "Could not parse AI response")) ].

Definition analysis_messages (source content : JsVal) : JsVal :=
  JArr [ JObj [ (js "role", JStr (js "system"));
                (js "content", JStr SYSTEM_PROMPT) ];
         JObj [ (js "role", JStr (js "user"));
                (js "content",
                 JStr (js "Source: " ++ ToString source ++ [10%N] ++
                       js "Feedback: " ++ ToString content)) ] ].

(** The second argument of [AI.run]: [{ messages }]. *)
Definition analysis_inputs (source content : JsVal) : JsVal :=
  JObj [(js "messages", analysis_messages source content)].

(** [JSON.parse(x)]: the argument is first turned into a string. *)
Definition JSON_parse_value (x : JsVal) : Outcome JsVal :=
  match ToString_or_throw x with
  | Returns text => JSON_parse text
  | Throws e => Throws e
  | Unmodelled => Unmodelled
  end.

(** Step 1, [analyze-feedback] (lines 9-38): the messages are built
    first, which converts [source] and [content] to text (line 17);
    the call to the model is made outside the [try]; reading
    [response.response] and parsing it are inside. *)
Definition analyze_feedback (env : Env) (source content : JsVal) : M JsVal :=
  _ <- lift (ToString_or_throw source) ;;
  _ <- lift (ToString_or_throw content) ;;
  response <- external (AI_run env MODEL (analysis_inputs source content)) ;;
  try_catch
    (text <- lift (Get response (js "response")) ;;
     result <- lift (JSON_parse_value text) ;;
     ret result)
    (ret fallback_analysis).

(** Step 2, [store-feedback] (lines 41-47). *)
Definition store_feedback (source content analysis : JsVal) : M unit :=
  sentiment <- lift (Get analysis (js "sentiment")) ;;
  category <- lift (Get analysis (js "category")) ;;
  urgency <- lift (Get analysis (js "urgency")) ;;
  p1 <- lift (d1_bind source) ;;
  p2 <- lift (d1_bind content) ;;
  p3 <- lift (d1_bind sentiment) ;;
  p4 <- lift (d1_bind category) ;;
  p5 <- lift (d1_bind urgency) ;;
  update_DB (fun d =>
    {| feedback_table := insert_feedback p1 p2 p3 p4 p5 (feedback_table d);
       aggregated_stats_table := aggregated_stats_table d |}).

(** The template literal [`category_${analysis.category}`], when the
    category converts to text. *)
Definition stat_key (category : JsVal) : jsstring :=
  js "category_" ++ ToString category.

(** Step 3, [update-stats] (lines 50-64). *)
Definition update_stats (env : Env) (analysis : JsVal) : M unit :=
  category <- lift (Get analysis (js "category")) ;;
  p <- lift (d1_bind category) ;;
  d <- read_DB ;;
  let categoryCount := count_by_category_first p (feedback_table d) in
  category1 <- lift (Get analysis (js "category")) ;;
  _ <- lift (ToString_or_throw category1) ;;
  category2 <- lift (Get analysis (js "category")) ;;
  _ <- lift (ToString_or_throw category2) ;;
  q1 <- lift (d1_bind (JStr (stat_key category1))) ;;
  q2 <- lift (d1_bind (JStr (stat_key category2))) ;;
  q3 <- lift (d1_bind (JSON_stringify_value categoryCount)) ;;
  update_DB (fun d =>
    {| feedback_table := feedback_table d;
       aggregated_stats_table :=
         insert_or_replace_stat (stat_type_unique env) q1 q2 q3
           (aggregated_stats_table d) |}).

(** U+1F6A8, the sign that opens the alert message, as its surrogate pair. *)
Definition ROTATING_LIGHT : jsstring := [55357%N; 57000%N].

(** Step 4, [check-urgency] (lines 67-76). *)
Definition check_urgency (source content analysis : JsVal) : M JsVal :=
  urgency <- lift (Get analysis (js "urgency")) ;;
  if strict_eq_string urgency (js "high") then
    category <- lift (Get analysis (js "category")) ;;
    _ <- lift (ToString_or_throw category) ;;
    _ <- lift (ToString_or_throw source) ;;
    excerpt <- lift (substring_call content 100) ;;
    ret (JObj [ (js "alert", JBool true);
                (js "message",
                 JStr (ROTATING_LIGHT ++ js " High urgency " ++ ToString category ++
                       js " detected from " ++ ToString source));
                (js "content", excerpt) ])
  else ret (JObj [ (js "alert", JBool false) ]).

(** [run(event, step)] (lines 5-83), on [event.payload]. *)
Definition run (env : Env) (payload : JsVal) : M JsVal :=
  source <- lift (Get payload (js "source")) ;;
  content <- lift (Get payload (js "content")) ;;
  analysis <- step_do "analyze-feedback" (analyze_feedback env source content) ;;
  _ <- step_do "store-feedback" (store_feedback source content analysis) ;;
  _ <- step_do "update-stats" (update_stats env analysis) ;;
  alert <- step_do "check-urgency" (check_urgency source content analysis) ;;
  ret (JObj [ (js "success", JBool true);
              (js "analysis", analysis);
              (js "alert", alert) ]).

(* ===================================================================== *)
(** * The Worker's [fetch] *)
(* ===================================================================== *)

Record Request : Type := {
  method : jsstring;
  pathname : jsstring;        (* [new URL(request.url).pathname] *)
  body_text : jsstring        (* the body, decoded *)
}.

Record Response : Type := {
  status : Z;
  headers : list (jsstring * jsstring);
  body : option jsstring
}.

Definition corsHeaders : list (jsstring * jsstring) :=
  [ (js "Access-Control-Allow-Origin", js "*");
    (js "Access-Control-Allow-Methods", js "GET, POST, OPTIONS");
    (js "Access-Control-Allow-Headers", js "Content-Type") ].

(** [Response.json(data, { status, headers })]. *)
Definition Response_json (data : JsVal) (st : Z) (hs : list (jsstring * jsstring))
  : Response :=
  {| status := st;
     headers := hs ++ [(js "content-type", js "application/json")];
     body := JSON_stringify data |}.

(** [await request.json()]. *)
Definition request_json (req : Request) : Outcome JsVal := JSON_parse (body_text req).

(** [env.MY_WORKFLOW.create({ params })], then [.id] of the instance. *)
Definition create_instance (env : Env) (params : JsVal) : M jsstring :=
  fun w =>
    match MY_WORKFLOW_create env (instances w) (JObj [(js "params", params)]) with
    | inl e => (Throws e, w)
    | inr new_id => (Returns new_id, with_instance w new_id params)
    end.

Definition invalid_request_body : Response :=
  Response_json (JObj [(js "error", JStr (js "Invalid request body"))]) 400 corsHeaders.

Definition feedback_accepted (workflowId : jsstring) : Response :=
  Response_json (JObj [ (js "success", JBool true);
                        (js "workflowId", JStr workflowId) ]) 200 corsHeaders.

(** The branch of [POST /api/feedback] (lines 116-132). *)
Definition submit_feedback (env : Env) (req : Request) : M Response :=
  try_catch
    (payload <- lift (request_json req) ;;
     new_id <- create_instance env payload ;;
     ret (feedback_accepted new_id))
    (ret invalid_request_body).

Definition is_submit (req : Request) : bool :=
  jsstring_eqb (pathname req) (js "/api/feedback")
  && jsstring_eqb (method req) (js "POST").

(** [fetch(request, env)] up to its second route (lines 100-133).  The
    read-only routes below it, the dashboard and the 404 are not part
    of this development. *)
Definition fetch (env : Env) (req : Request) : M Response :=
  if jsstring_eqb (method req) (js "OPTIONS") then
    ret {| status := 200; headers := corsHeaders; body := None |}
  else if is_submit req then submit_feedback env req
  else lift Unmodelled.

(* ===================================================================== *)
(** * Notions the statements and proofs use *)
(* ===================================================================== *)

(** A production read off [s] is fine when the bound did not run out
    and what is left is shorter than [s]. *)
Definition consumes (p : Parse JsVal) (s : jsstring) : Prop :=
  p <> PFuel /\ forall v rest, p = POk v rest -> (List.length rest < List.length s)%nat.

(** Field [k] of [v] is populated: present, and neither [null] nor
    [undefined]. *)
Definition populated (v : JsVal) (k : string) : Prop :=
  exists x, Get v (js k) = Returns x /\ x <> JUndefined /\ x <> JNull.

Definition fully_populated (v : JsVal) : Prop :=
  populated v "sentiment" /\ populated v "category" /\
  populated v "urgency" /\ populated v "reason".

(** What the [try] block of step 1 computes from the model's reply. *)
Definition parsed_reply (response : JsVal) : Outcome JsVal :=
  match Get response (js "response") with
  | Returns text => JSON_parse_value text
  | Throws e => Throws e
  | Unmodelled => Unmodelled
  end.

(** [m] names [part]: the text occurs in it. *)
Definition names (m part : jsstring) : Prop := exists a b, m = a ++ part ++ b.

(** The names of the four steps, in the order of the source. *)
Definition four_steps : list jsstring :=
  [js "analyze-feedback"; js "store-feedback"; js "update-stats"; js "check-urgency"].

Definition feedback_of (w : World) : list feedback.row := feedback_table (DB w).
Definition stats_of (w : World) : list aggregated_stats.row :=
  aggregated_stats_table (DB w).

(** The integrity of table [aggregated_stats]: ids are a primary key,
    and no two rows carry the same [stat_type]. *)
Definition stats_well_formed (rows : list aggregated_stats.row) : Prop :=
  NoDup (List.map aggregated_stats.id rows) /\
  forall k, (List.length (filter (has_stat_type (Some k)) rows) <= 1)%nat.

(** The statement of step 3 with its three parameters as step 3 binds
    them: the key twice, then the value. *)
Definition upsert_stat (uniq : bool) (key value : jsstring)
  (rows : list aggregated_stats.row) : list aggregated_stats.row :=
  insert_or_replace_stat uniq (SqlText key) (SqlText key) (SqlText value) rows.

(** The rowid that statement writes to. *)
Definition upsert_rowid (key : jsstring) (rows : list aggregated_stats.row) : Z :=
  match select_stat_id (Some key) rows with
  | Some i => i
  | None => next_rowid (List.map aggregated_stats.id rows)
  end.

(** The JSON text of the row [{count: n}]. *)
Definition count_text (n : Z) : jsstring :=
  json_text "{'count':" ++ Number_toString n ++ js "}".

(** The row step 3 writes, the rows REPLACE deletes for it, and the
    rows it leaves. *)
Definition upsert_row (key value : jsstring) (rows : list aggregated_stats.row)
  : aggregated_stats.row :=
  {| aggregated_stats.id := upsert_rowid key rows;
     aggregated_stats.stat_type := Some key;
     aggregated_stats.stat_value := Some value |}.

Definition upsert_conflict (uniq : bool) (key : jsstring)
  (rows : list aggregated_stats.row) (r : aggregated_stats.row) : bool :=
  Z.eqb (aggregated_stats.id r) (upsert_rowid key rows)
  || (uniq && has_stat_type (Some key) r).

Definition upsert_kept (uniq : bool) (key : jsstring)
  (rows : list aggregated_stats.row) : list aggregated_stats.row :=
  filter (fun r => negb (upsert_conflict uniq key rows r)) rows.

Definition below (i : Z) (r : aggregated_stats.row) : bool := Z.ltb (aggregated_stats.id r) i.
Definition above (i : Z) (r : aggregated_stats.row) : bool := Z.ltb i (aggregated_stats.id r).

(** A piece of code that asks the host for no step. *)
Definition keeps_log {A} (m : M A) : Prop :=
  forall w, step_log (snd (m w)) = step_log w.

(* ===================================================================== *)
(** * Sample inputs *)
(* ===================================================================== *)

Definition empty_world : World :=
  {| DB := {| feedback_table := []; aggregated_stats_table := [] |};
     instances := [];
     step_log := [] |}.

(** A reply of the model whose [response] is [text]. *)
Definition reply (text : jsstring) : JsVal := JObj [(js "response", JStr text)].

(** A host that names its instances [run-0], [run-1], ... *)
Definition numbering_host (existing : list WorkflowInstance) (options : JsVal)
  : Error + jsstring :=
  inr (js "run-" ++ Number_toString (Z.of_nat (List.length existing))).

(** Bindings whose model answers [text] to every prompt. *)
Definition env_replying (text : jsstring) : Env :=
  {| AI_run := fun _ _ => inr (reply text);
     MY_WORKFLOW_create := numbering_host;
     stat_type_unique := false |}.

(** Bindings whose model call throws. *)
Definition env_model_down : Env :=
  {| AI_run := fun _ _ => inl (ServiceError (js "model unavailable"));
     MY_WORKFLOW_create := numbering_host;
     stat_type_unique := false |}.

(** Bindings whose workflow host refuses to create an instance. *)
Definition env_host_down : Env :=
  {| AI_run := fun _ _ => inr (reply (js "{}"));
     MY_WORKFLOW_create := fun _ _ => inl (ServiceError (js "workflow unavailable"));
     stat_type_unique := false |}.

Definition item (source content : jsstring) : JsVal :=
  JObj [(js "source", JStr source); (js "content", JStr content)].

(** The reply of the end-to-end scenario of the specification. *)
Definition urgent_bug_text : jsstring :=
  json_text "{'sentiment':'negative','category':'bug','urgency':'high','reason':'test'}".

Definition urgent_bug : JsVal :=
  JObj [ (js "sentiment", JStr (js "negative"));
         (js "category", JStr (js "bug"));
         (js "urgency", JStr (js "high"));
         (js "reason", JStr (js "test")) ].

(** 150 times the letter x, the content of the end-to-end scenario. *)
Definition x150 : jsstring := repeat 120%N 150.

(** The five records of the seed script of the repository. *)
Definition seed_row (source content sentiment category urgency : string)
  (rows : list feedback.row) : list feedback.row :=
  insert_feedback (SqlText (js source)) (SqlText (js content)) (SqlText (js sentiment))
    (SqlText (js category)) (SqlText (js urgency)) rows.

Definition seeded_feedback : list feedback.row :=
  seed_row "Email" "Documentation could be clearer on authentication" "neutral" "question" "medium"
    (seed_row "Twitter" "Getting 500 errors when uploading files" "negative" "bug" "high"
       (seed_row "Support Ticket" "I love the new API features!" "positive" "feature" "low"
          (seed_row "GitHub" "Can we add dark mode support?" "neutral" "feature" "medium"
             (seed_row "Discord" "The new dashboard is loading really slow" "negative" "bug" "high"
                [])))).

Definition seeded_world : World :=
  {| DB := {| feedback_table := seeded_feedback; aggregated_stats_table := [] |};
     instances := [];
     step_log := [] |}.

(** The run of the end-to-end scenario, on the seeded store. *)
Definition scenario_run : Outcome JsVal * World :=
  run (env_replying urgent_bug_text) (item (js "Discord") x150) seeded_world.

Definition scenario_result : JsVal :=
  JObj [ (js "success", JBool true);
         (js "analysis", urgent_bug);
         (js "alert",
          JObj [ (js "alert", JBool true);
                 (js "message",
                  JStr (ROTATING_LIGHT ++ js " High urgency bug detected from Discord"));
                 (js "content", JStr (repeat 120%N 100)) ]) ].

(** A [POST /api/feedback] request with the given body. *)
Definition post_feedback (body : jsstring) : Request :=
  {| method := js "POST"; pathname := js "/api/feedback"; body_text := body |}.

(* ===================================================================== *)
(** * The statements of the specification, in its own words *)
(* ===================================================================== *)

(** "The external generation call throws, or its textual response is
    malformed or missing fields." *)
Definition generation_failed (env : Env) (source content : JsVal) : Prop :=
  match AI_run env MODEL (analysis_inputs source content) with
  | inl _ => True
  | inr response =>
      match parsed_reply response with
      | Returns v => ~ fully_populated v
      | Throws _ => True
      | Unmodelled => False
      end
  end.

(** "classify never fails the pipeline": on any such failure the step
    returns the default. *)
Definition classify_never_fails (env : Env) (source content : JsVal) (w : World) : Prop :=
  generation_failed env source content ->
  fst (analyze_feedback env source content w) = Returns fallback_analysis.

(** "The returned Classification has all four fields populated,
    regardless of what the generation capability returns." *)
Definition classification_always_populated (env : Env) (source content : JsVal)
  (w : World) : Prop :=
  forall response, AI_run env MODEL (analysis_inputs source content) = inr response ->
  exists a, fst (analyze_feedback env source content w) = Returns a /\ fully_populated a.

(** The default as the specification spells it. *)
Definition default_as_specified : JsVal :=
  JObj [ (js "sentiment", JStr (js "neutral"));
         (js "category", JStr (js "unknown"));
         (js "urgency", JStr (js "low"));
         (js "reason", JStr (js "could not parse AI response")) ].

(** "If the generation capability returns text that does not parse, the
    resulting Classification equals exactly" that default. *)
Definition unparsed_gives_specified_default (env : Env) (source content : JsVal)
  (w : World) : Prop :=
  forall text e,
    AI_run env MODEL (analysis_inputs source content) = inr (reply text) ->
    JSON_parse text = Throws e ->
    fst (analyze_feedback env source content w) = Returns default_as_specified.

(** "Urgency Gate": for urgency "high" the payload has [alert = true],
    a message naming category and source, and an [excerpt] of the first
    100 characters of the content; otherwise it is [{alert: false}]. *)
Definition urgency_gate_as_specified (source content : jsstring) (analysis : JsVal)
  (w : World) : Prop :=
  forall u category,
    Get analysis (js "urgency") = Returns u ->
    Get analysis (js "category") = Returns category ->
    exists payload,
      fst (check_urgency (JStr source) (JStr content) analysis w) = Returns payload /\
      (u = JStr (js "high") ->
         Get payload (js "alert") = Returns (JBool true) /\
         (exists m, Get payload (js "message") = Returns (JStr m) /\
                    names m (ToString category) /\ names m source) /\
         Get payload (js "excerpt") = Returns (JStr (firstn 100 content))) /\
      (u <> JStr (js "high") -> payload = JObj [(js "alert", JBool false)]).

(** "run(item) -> {success: true, classification, alert}". *)
Definition run_as_specified (env : Env) (payload : JsVal) (w : World) : Prop :=
  forall result w',
    run env payload w = (Returns result, w') ->
    step_log w' = step_log w ++ four_steps /\
    exists classification alert,
      result = JObj [ (js "success", JBool true);
                      (js "classification", classification);
                      (js "alert", alert) ].

(** "400 {error: "Invalid request body"} on unparseable body, no record
    created; for a parseable body {success: true, workflowId}". *)
Definition submission_as_specified (env : Env) (req : Request) (w : World) : Prop :=
  (forall e, request_json req = Throws e ->
             fetch env req w = (Returns invalid_request_body, w)) /\
  (forall payload, request_json req = Returns payload ->
             exists workflowId,
               fst (fetch env req w) = Returns (feedback_accepted workflowId)).

(* ===================================================================== *)
(** * The read routes of [fetch] *)
(* ===================================================================== *)

(** The code points of a text: a high surrogate followed by a low one
    is the code point of the pair, and every other unit, a surrogate
    without its partner too, is a code point by itself.  (A number
    above [0xFFFF] is no UTF-16 unit; it is placed above every code
    point, so that different lists have different code points.) *)
Fixpoint code_points (s : jsstring) : list N :=
  match s with
  | [] => []
  | c :: r =>
      if is_high_surrogate c then
        match r with
        | c2 :: r2 =>
            if is_low_surrogate c2
            then (65536 + (c - 55296) * 1024 + (c2 - 56320))%N :: code_points r2
            else c :: code_points r
        | [] => [c]
        end
      else (if N.ltb c 65536 then c else c + 1048576)%N :: code_points r
  end.

(** The units of a code point, which [code_points] reads back. *)
Definition units_of_code_point (cp : N) : jsstring :=
  if N.ltb cp 65536 then [cp]
  else if N.ltb cp 1114112
       then [55296 + (cp - 65536) / 1024; 56320 + (cp - 65536) mod 1024]%N
       else [cp - 1048576]%N.

(** Two lists of numbers, item by item, a prefix first. *)
Fixpoint units_compare (a b : list N) : comparison :=
  match a, b with
  | [], [] => Eq
  | [], _ :: _ => Lt
  | _ :: _, [] => Gt
  | x :: a', y :: b' =>
      match N.compare x y with
      | Eq => units_compare a' b'
      | c => c
      end
  end.

(** The order of two texts under SQLite's BINARY collation: the store
    keeps a text in UTF-8 and compares the bytes, and the order of the
    bytes of two texts in UTF-8 is the order of their code points.  It
    is not the order of their UTF-16 units: a unit from [0xE000] on
    comes before a surrogate pair. *)
Definition jsstring_compare (a b : jsstring) : comparison :=
  units_compare (code_points a) (code_points b).

Definition jsstring_leb (a b : jsstring) : bool :=
  match jsstring_compare a b with
  | Gt => false
  | _ => true
  end.

(** The order of two column values: NULL sorts before every text. *)
Definition column_compare (a b : option jsstring) : comparison :=
  match a, b with
  | None, None => Eq
  | None, Some _ => Lt
  | Some _, None => Gt
  | Some x, Some y => jsstring_compare x y
  end.

(** A column value as D1 hands it to JavaScript: [null] for NULL, and a
    text as it was bound when that was well-formed UTF-16 (the store
    keeps UTF-8; what comes back for a surrogate without its partner
    is outside this development, see [well_formed_utf16]). *)
Definition column_value (c : option jsstring) : JsVal :=
  match c with
  | Some s => JStr s
  | None => JNull
  end.

(** A row of [SELECT * FROM feedback] as an object, its columns in the
    order of the table.  [created_at] is the column that [feedback.row]
    leaves out: the text the store filed for the row with this id. *)
Definition feedback_object (created_at : Z -> jsstring) (r : feedback.row) : JsVal :=
  JObj [ (js "id", JNum (feedback.id r));
         (js "source", column_value (feedback.source r));
         (js "content", column_value (feedback.content r));
         (js "sentiment", column_value (feedback.sentiment r));
         (js "category", column_value (feedback.category r));
         (js "urgency", column_value (feedback.urgency r));
         (js "created_at", JStr (created_at (feedback.id r))) ].

(** One row into rows already in [ORDER BY created_at DESC]: before the
    first row that is not newer. *)
Fixpoint insert_by_created_at (created_at : Z -> jsstring) (r : feedback.row)
  (sorted : list feedback.row) : list feedback.row :=
  match sorted with
  | [] => [r]
  | x :: rest =>
      if jsstring_leb (created_at (feedback.id x)) (created_at (feedback.id r))
      then r :: x :: rest
      else x :: insert_by_created_at created_at r rest
  end.

(** [ORDER BY created_at DESC].  Rows filed at the same time stay in
    rowid order; the store may list them otherwise, and no statement
    below depends on it. *)
Fixpoint order_by_created_at_desc (created_at : Z -> jsstring)
  (rows : list feedback.row) : list feedback.row :=
  match rows with
  | [] => []
  | r :: rest =>
      insert_by_created_at created_at r (order_by_created_at_desc created_at rest)
  end.

(** [SELECT * FROM feedback ORDER BY created_at DESC LIMIT 50] *)
Definition select_recent_feedback (created_at : Z -> jsstring)
  (rows : list feedback.row) : list feedback.row :=
  firstn 50 (order_by_created_at_desc created_at rows).

(** One key into the keys of the groups, which are kept in order and
    without repetition. *)
Fixpoint insert_group (k : option jsstring) (keys : list (option jsstring))
  : list (option jsstring) :=
  match keys with
  | [] => [k]
  | x :: rest =>
      match column_compare k x with
      | Lt => k :: x :: rest
      | Eq => x :: rest
      | Gt => x :: insert_group k rest
      end
  end.

(** The values of a column that [GROUP BY] tells apart (NULL is one of
    them), in the order SQLite's sorter leaves them: NULL first, then
    the texts in the order of the collation. *)
Fixpoint group_keys (column : feedback.row -> option jsstring)
  (rows : list feedback.row) : list (option jsstring) :=
  match rows with
  | [] => []
  | r :: rest => insert_group (column r) (group_keys column rest)
  end.

Definition column_eqb (a b : option jsstring) : bool :=
  match column_compare a b with
  | Eq => true
  | _ => false
  end.

(** The rows of one group. *)
Definition group_size (column : feedback.row -> option jsstring)
  (rows : list feedback.row) (k : option jsstring) : Z :=
  Z.of_nat (List.length (filter (fun r => column_eqb (column r) k) rows)).

(** [SELECT <column>, COUNT( * ) as count FROM feedback GROUP BY <column>] *)
Definition group_by_count (name : string) (column : feedback.row -> option jsstring)
  (rows : list feedback.row) : list JsVal :=
  List.map (fun k => JObj [ (js name, column_value k);
                            (js "count", JNum (group_size column rows k)) ])
    (group_keys column rows).

(** The object that [GET /api/stats] answers with (lines 158-162). *)
Definition stats_object (rows : list feedback.row) : JsVal :=
  JObj [ (js "categories", JArr (group_by_count "category" feedback.category rows));
         (js "sentiments", JArr (group_by_count "sentiment" feedback.sentiment rows));
         (js "urgency", JArr (group_by_count "urgency" feedback.urgency rows)) ].

(** A literal in which the caret stands for the double quote, for the
    HTML of the dashboard (which has apostrophes of its own). *)
Definition html_text (s : string) : jsstring :=
  List.map (fun c => if N.eqb c 94 then 34%N else c) (js s).

Definition getDashboardHTML : jsstring :=
  html_text "
<!DOCTYPE html>
<html>
<head>
  <meta charset=^UTF-8^>
  <title>Feedback Pipeline Dashboard</title>
  <style>
    body { 
      font-family: -apple-system, BlinkMacSystemFont, 'Segoe UI', Arial, sans-serif; 
      max-width: 1200px; 
      margin: 0 auto; 
      padding: 20px;
      background: #f5f5f5;
    }
    h1 { color: #333; }
    .container { 
      display: grid; 
      grid-template-columns: 1fr 1fr; 
      gap: 20px; 
      margin-top: 20px; 
    }
    .card { 
      background: white;
      border: 1px solid #ddd; 
      padding: 20px; 
      border-radius: 8px;
      box-shadow: 0 2px 4px rgba(0,0,0,0.1);
    }
    input, textarea, select { 
      width: 100%; 
      padding: 10px; 
      margin: 5px 0; 
      box-sizing: border-box;
      border: 1px solid #ddd;
      border-radius: 4px;
      font-family: inherit;
    }
    button { 
      background: #f6821f; 
      color: white; 
      padding: 12px 24px; 
      border: none; 
      border-radius: 4px; 
      cursor: pointer;
      font-size: 16px;
      margin-top: 10px;
    }
    button:hover { 
      background: #e07317; 
    }
    .feedback-item { 
      border-bottom: 1px solid #eee; 
      padding: 12px 0; 
    }
    .feedback-item:last-child {
      border-bottom: none;
    }
    .stat { 
      display: flex; 
      justify-content: space-between; 
      padding: 8px 0;
      border-bottom: 1px solid #f0f0f0;
    }
    .stat:last-child {
      border-bottom: none;
    }
    .badge {
      display: inline-block;
      padding: 3px 8px;
      border-radius: 3px;
      font-size: 12px;
      font-weight: bold;
    }
    .badge-high { background: #fee; color: #c00; }
    .badge-medium { background: #ffeaa7; color: #d63031; }
    .badge-low { background: #dfe6e9; color: #2d3436; }
    .badge-positive { background: #d4edda; color: #155724; }
    .badge-negative { background: #f8d7da; color: #721c24; }
    .badge-neutral { background: #e2e3e5; color: #383d41; }
    #submit-status {
      margin-top: 10px;
      padding: 8px;
      border-radius: 4px;
    }
    .success { background: #d4edda; color: #155724; }
    .error { background: #f8d7da; color: #721c24; }
    h2 { margin-top: 0; color: #444; }
    h3 { 
      color: #666; 
      font-size: 14px; 
      text-transform: uppercase;
      margin: 15px 0 8px 0;
      font-weight: 600;
    }
  </style>
</head>
<body>
  <h1>"
  ++ [55357; 56522]%N
  ++ html_text " Feedback Pipeline Dashboard</h1>
  <p style=^color: #666;^>Resources used - Cloudflare Workers + Workflows + AI + D1</p>
  
  <div class=^container^>
    <div class=^card^>
      <h2>Submit Feedback</h2>
      <label><strong>Source:</strong></label>
      <select id=^source^>
        <option>Discord</option>
        <option>GitHub</option>
        <option>Support Ticket</option>
        <option>Twitter</option>
        <option>Email</option>
        <option>Community Forum</option>
      </select>
      
      <label><strong>Feedback Content:</strong></label>
      <textarea id=^content^ rows=^5^ placeholder=^Enter customer feedback here...^></textarea>
      
      <button onclick=^submitFeedback()^>Submit & Analyze with AI!</button>
      <div id=^submit-status^></div>
    </div>
    
    <div class=^card^>
      <h2>"
  ++ [55357; 56520]%N
  ++ html_text " Statistics</h2>
      <div id=^stats^>Loading...</div>
    </div>
  </div>
  
  <div class=^card^ style=^margin-top: 20px;^>
    <h2>"
  ++ [55357; 56492]%N
  ++ html_text " Recent Feedback</h2>
    <div id=^feedback-list^>Loading...</div>
  </div>

  <script>
    async function submitFeedback() {
      const source = document.getElementById('source').value;
      const content = document.getElementById('content').value;
      
      if (!content.trim()) {
        alert('Please enter feedback content');
        return;
      }
      
      const statusDiv = document.getElementById('submit-status');
      statusDiv.textContent = '"
  ++ [9203]%N
  ++ html_text " Submitting and analyzing with AI...';
      statusDiv.className = '';
      
      try {
        const response = await fetch('/api/feedback', {
          method: 'POST',
          headers: { 'Content-Type': 'application/json' },
          body: JSON.stringify({ source, content })
        });
        
        const result = await response.json();
        statusDiv.textContent = '"
  ++ [9989]%N
  ++ html_text " Submitted! Workflow ID: ' + result.workflowId;
        statusDiv.className = 'success';
        document.getElementById('content').value = '';
        
        // Refresh data after 2 seconds to allow workflow to complete
        setTimeout(() => {
          loadFeedback();
          loadStats();
        }, 2000);
      } catch (error) {
        statusDiv.textContent = '"
  ++ [10060]%N
  ++ html_text " Error: ' + error.message;
        statusDiv.className = 'error';
      }
    }
    
    async function loadStats() {
      try {
        const response = await fetch('/api/stats');
        const stats = await response.json();
        
        let html = '';
        
        if (stats.categories && stats.categories.length > 0) {
          html += '<h3>By Category</h3>';
          stats.categories.forEach(c => {
            html += `<div class=^stat^><span>${c.category || 'unknown'}</span><strong>${c.count}</strong></div>`;
          });
        }
        
        if (stats.sentiments && stats.sentiments.length > 0) {
          html += '<h3>By Sentiment</h3>';
          stats.sentiments.forEach(s => {
            html += `<div class=^stat^><span>${s.sentiment || 'unknown'}</span><strong>${s.count}</strong></div>`;
          });
        }
        
        if (stats.urgency && stats.urgency.length > 0) {
          html += '<h3>By Urgency</h3>';
          stats.urgency.forEach(u => {
            html += `<div class=^stat^><span>${u.urgency || 'unknown'}</span><strong>${u.count}</strong></div>`;
          });
        }
        
        if (!html) {
          html = '<p style=^color: #999;^>No statistics yet. Submit some feedback to get started!</p>';
        }
        
        document.getElementById('stats').innerHTML = html;
      } catch (error) {
        document.getElementById('stats').innerHTML = '<p style=^color: #c00;^>Error loading stats</p>';
      }
    }
    
    async function loadFeedback() {
      try {
        const response = await fetch('/api/feedback');
        const feedback = await response.json();
        
        if (!feedback || feedback.length === 0) {
          document.getElementById('feedback-list').innerHTML = '<p style=^color: #999;^>No feedback yet. Submit your first piece of feedback above!</p>';
          return;
        }
        
        let html = '';
        feedback.forEach(f => {
          const urgencyClass = f.urgency === 'high' ? 'badge-high' : f.urgency === 'medium' ? 'badge-medium' : 'badge-low';
          const sentimentClass = f.sentiment === 'positive' ? 'badge-positive' : f.sentiment === 'negative' ? 'badge-negative' : 'badge-neutral';
          
          html += `
            <div class=^feedback-item^>
              <div style=^margin-bottom: 8px;^>
                <strong>${f.source}</strong> 
                <span class=^badge ${urgencyClass}^>${f.urgency || 'unknown'}</span>
                <span class=^badge ${sentimentClass}^>${f.sentiment || 'unknown'}</span>
                <em style=^color: #666;^>"
  ++ [183]%N
  ++ html_text " ${f.category || 'unknown'}</em>
              </div>
              <div style=^color: #444;^>${f.content.substring(0, 200)}${f.content.length > 200 ? '...' : ''}</div>
              <div style=^font-size: 12px; color: #999; margin-top: 4px;^>${new Date(f.created_at).toLocaleString()}</div>
            </div>
          `;
        });
        
        document.getElementById('feedback-list').innerHTML = html;
      } catch (error) {
        document.getElementById('feedback-list').innerHTML = '<p style=^color: #c00;^>Error loading feedback</p>';
      }
    }
    
    // Load data on page load
    loadStats();
    loadFeedback();
    
    // Refresh every 10 seconds
    setInterval(() => {
      loadStats();
      loadFeedback();
    }, 10000);
  </script>
</body>
</html>
  ".

(** [new Response(text, { status, headers })] for a string body: the
    constructor adds the content type of a text when the headers bring
    none. *)
Definition Response_text (text : jsstring) (st : Z) (hs : list (jsstring * jsstring))
  : Response :=
  {| status := st;
     headers := hs ++ [(js "content-type", js "text/plain;charset=UTF-8")];
     body := Some text |}.

Definition is_route (req : Request) (path verb : string) : bool :=
  jsstring_eqb (pathname req) (js path) && jsstring_eqb (method req) (js verb).

Module Worker.

(** [fetch(request, env)] with all its routes (lines 100-174).
    [created_at] is the column the store fills in on its own. *)
Definition fetch (env : Env) (created_at : Z -> jsstring) (req : Request) : M Response :=
  if jsstring_eqb (method req) (js "OPTIONS") then
    ret {| status := 200; headers := corsHeaders; body := None |}
  else if is_route req "/api/feedback" "POST" then submit_feedback env req
  else if is_route req "/api/feedback" "GET" then
    d <- read_DB ;;
    ret (Response_json
           (JArr (List.map (feedback_object created_at)
                    (select_recent_feedback created_at (feedback_table d))))
           200 corsHeaders)
  else if is_route req "/api/stats" "GET" then
    d <- read_DB ;;
    ret (Response_json (stats_object (feedback_table d)) 200 corsHeaders)
  else if is_route req "/" "GET" then
    ret {| status := 200;
           headers := (js "Content-Type", js "text/html") :: corsHeaders;
           body := Some getDashboardHTML |}
  else ret (Response_text (js "Not Found") 404 corsHeaders).

End Worker.

(* ===================================================================== *)
(** * The script of the dashboard *)
(* ===================================================================== *)

(** [ToBoolean], which decides [!v], [v || w] and [v && w]. *)
Definition ToBoolean (v : JsVal) : bool :=
  match v with
  | JUndefined | JNull => false
  | JBool b => b
  | JNum n => negb (Z.eqb n 0)
  | JStr [] => false
  | JStr (_ :: _) => true
  | JArr _ | JObj _ => true
  end.

(** [v || lit] for a string literal [lit]. *)
Definition or_else (v : JsVal) (lit : string) : JsVal :=
  if ToBoolean v then v else JStr (js lit).

(** [v.length]: the own property of strings and arrays; of an object,
    a property like any other. *)
Definition length_of (v : JsVal) : Outcome JsVal :=
  match v with
  | JUndefined | JNull => Throws TypeError
  | JStr s => Returns (JNum (Z.of_nat (List.length s)))
  | JArr elems => Returns (JNum (Z.of_nat (List.length elems)))
  | JObj props =>
      match lookup_prop (js "length") props with
      | Some x => Returns x
      | None => Returns JUndefined
      end
  | JBool _ | JNum _ => Returns JUndefined
  end.

(** [v > n] for a number literal [n].  [undefined] is not a number and
    compares false; a string, an array or an object would first be
    converted to a number, which this development does not represent. *)
Definition greater_than (v : JsVal) (n : Z) : Outcome bool :=
  match v with
  | JNum m => Returns (Z.ltb n m)
  | JUndefined => Returns false
  | JNull => Returns (Z.ltb n 0)
  | JBool b => Returns (Z.ltb n (if b then 1 else 0))
  | JStr _ | JArr _ | JObj _ => Unmodelled
  end.

(** [v === n] for a number literal [n]. *)
Definition strict_eq_number (v : JsVal) (n : Z) : bool :=
  match v with
  | JNum m => Z.eqb m n
  | _ => false
  end.

(** White space and line terminators, as [trim] strips them. *)
Definition is_space (c : code_unit) : bool :=
  (N.leb 9 c && N.leb c 13) || N.eqb c 32 || N.eqb c 160 || N.eqb c 5760
  || (N.leb 8192 c && N.leb c 8202) || N.eqb c 8232 || N.eqb c 8233
  || N.eqb c 8239 || N.eqb c 8287 || N.eqb c 12288 || N.eqb c 65279.

Fixpoint trim_start (s : jsstring) : jsstring :=
  match s with
  | c :: r => if is_space c then trim_start r else s
  | [] => []
  end.

(** [s.trim()]. *)
Definition trim (s : jsstring) : jsstring :=
  List.rev (trim_start (List.rev (trim_start s))).

(** Sequencing of evaluations that may throw. *)
Definition and_then {A B} (o : Outcome A) (k : A -> Outcome B) : Outcome B :=
  match o with
  | Returns a => k a
  | Throws e => Throws e
  | Unmodelled => Unmodelled
  end.

Notation "x <~ o ;; k" := (and_then o (fun x => k))
  (at level 61, o at next level, right associativity).

(** [try { body } catch { handler }] around an evaluation. *)
Definition caught {A} (body : Outcome A) (handler : Error -> A) : Outcome A :=
  match body with
  | Throws e => Returns (handler e)
  | other => other
  end.

(** [elems.forEach(f => { html += piece(f) })]: the pieces in order,
    up to the first that throws.  Only arrays have the method. *)
Fixpoint pieces (piece : JsVal -> Outcome jsstring) (elems : list JsVal)
  : Outcome jsstring :=
  match elems with
  | [] => Returns []
  | f :: rest =>
      h <~ piece f ;;
      t <~ pieces piece rest ;;
      Returns (h ++ t)
  end.

Definition forEach (v : JsVal) (piece : JsVal -> Outcome jsstring) : Outcome jsstring :=
  match v with
  | JArr elems => pieces piece elems
  | _ => Throws TypeError
  end.

(** What the browser's [fetch] gives the script: a response, or a
    rejection. *)
Definition Network : Type := Request -> Outcome Response.

(** [await response.json()]: the body, parsed; no body is an empty text. *)
Definition response_json (r : Response) : Outcome JsVal :=
  JSON_parse (match body r with Some text => text | None => [] end).

Definition get_request (path : string) : Request :=
  {| method := js "GET"; pathname := js path; body_text := [] |}.



Definition NO_STATISTICS : jsstring :=
  html_text "<p style=^color: #999;^>No statistics yet. Submit some feedback to get started!</p>".

Definition ERROR_LOADING_STATS : jsstring :=
  html_text "<p style=^color: #c00;^>Error loading stats</p>".


(** [f.urgency === 'high' ? 'badge-high'
      : f.urgency === 'medium' ? 'badge-medium' : 'badge-low'] *)
Definition urgencyClass (urgency : JsVal) : jsstring :=
  if strict_eq_string urgency (js "high") then js "badge-high"
  else if strict_eq_string urgency (js "medium") then js "badge-medium"
  else js "badge-low".

Definition sentimentClass (sentiment : JsVal) : jsstring :=
  if strict_eq_string sentiment (js "positive") then js "badge-positive"
  else if strict_eq_string sentiment (js "negative") then js "badge-negative"
  else js "badge-neutral".

(** [${f.content.substring(0, 200)}${f.content.length > 200 ? '...' : ''}] *)
Definition shortened (content : JsVal) : Outcome jsstring :=
  head <~ substring_call content 200 ;;
  n <~ length_of content ;;
  long <~ greater_than n 200 ;;
  Returns (ToString head ++ (if long : bool then js "..." else [])).

(** The literal parts of the template of [loadFeedback] (lines 393-404). *)
Definition ITEM_1 : jsstring := html_text "
            <div class=^feedback-item^>
              <div style=^margin-bottom: 8px;^>
                <strong>".
Definition ITEM_2 : jsstring := html_text "</strong> 
                <span class=^badge ".
Definition ITEM_3 : jsstring := html_text "^>".
Definition ITEM_4 : jsstring := html_text "</span>
                <span class=^badge ".
Definition ITEM_5 : jsstring := html_text "</span>
                <em style=^color: #666;^>" ++ [183%N] ++ js " ".
Definition ITEM_6 : jsstring := html_text "</em>
              </div>
              <div style=^color: #444;^>".
Definition ITEM_7 : jsstring := html_text "</div>
              <div style=^font-size: 12px; color: #999; margin-top: 4px;^>".
Definition ITEM_8 : jsstring := html_text "</div>
            </div>
          ".

(** One item of [loadFeedback] (lines 389-405).  [toLocaleString] is
    [new Date(v).toLocaleString()], which depends on the browser's
    locale and time zone; [new Date(v)] first turns [v] into a
    primitive, which throws where [ToString] does. *)
Definition feedback_item (toLocaleString : JsVal -> jsstring) (f : JsVal)
  : Outcome jsstring :=
  urgency <~ Get f (js "urgency") ;;
  sentiment <~ Get f (js "sentiment") ;;
  source <~ Get f (js "source") ;;
  source_text <~ ToString_or_throw source ;;
  urgency_text <~ ToString_or_throw (or_else urgency "unknown") ;;
  sentiment_text <~ ToString_or_throw (or_else sentiment "unknown") ;;
  category <~ Get f (js "category") ;;
  category_text <~ ToString_or_throw (or_else category "unknown") ;;
  content <~ Get f (js "content") ;;
  text <~ shortened content ;;
  created_at <~ Get f (js "created_at") ;;
  _ <~ ToString_or_throw created_at ;;
  Returns (ITEM_1 ++ source_text
           ++ ITEM_2 ++ urgencyClass urgency
           ++ ITEM_3 ++ urgency_text
           ++ ITEM_4 ++ sentimentClass sentiment
           ++ ITEM_3 ++ sentiment_text
           ++ ITEM_5 ++ category_text
           ++ ITEM_6 ++ text
           ++ ITEM_7 ++ toLocaleString created_at
           ++ ITEM_8).

Definition NO_FEEDBACK : jsstring :=
  html_text "<p style=^color: #999;^>No feedback yet. Submit your first piece of feedback above!</p>".

Definition ERROR_LOADING_FEEDBACK : jsstring :=
  html_text "<p style=^color: #c00;^>Error loading feedback</p>".

(** [loadFeedback()] (lines 379-411): what it writes into
    [#feedback-list]. *)
Definition loadFeedback (toLocaleString : JsVal -> jsstring) (net : Network)
  : Outcome jsstring :=
  caught
    (response <~ net (get_request "/api/feedback") ;;
     feedback <~ response_json response ;;
     if negb (ToBoolean feedback) then Returns NO_FEEDBACK
     else
       n <~ length_of feedback ;;
       if strict_eq_number n 0 then Returns NO_FEEDBACK
       else forEach feedback (feedback_item toLocaleString))
    (fun _ => ERROR_LOADING_FEEDBACK).

(** The parts of the page that [submitFeedback] reads and writes: the
    two fields, the status line with its class, the alerts shown, the
    requests sent, and the reloads set on a timer. *)
Record Page : Type := {
  source_value : jsstring;
  content_value : jsstring;
  status_text : jsstring;
  status_class : jsstring;
  alerts : list jsstring;
  sent : list Request;
  reloads_due : nat
}.

Definition CHECK_MARK : jsstring := [9989%N].
Definition CROSS_MARK : jsstring := [10060%N].

(** The request of [submitFeedback]: [POST /api/feedback] with the body
    [JSON.stringify({ source, content })]. *)
Definition submission (source content : jsstring) : Request :=
  {| method := js "POST";
     pathname := js "/api/feedback";
     body_text :=
       match JSON_stringify (JObj [ (js "source", JStr source);
                                    (js "content", JStr content) ]) with
       | Some text => text
       | None => []
       end |}.

(** [submitFeedback()] (lines 308-339), from the click to the page it
    leaves (the notice it shows while the request is under way is
    overwritten either way).  [message] is [error.message], which the
    engine words. *)
Definition submitFeedback (message : Error -> jsstring) (net : Network) (page : Page)
  : Outcome Page :=
  let source := source_value page in
  let content := content_value page in
  if negb (ToBoolean (JStr (trim content))) then
    Returns {| source_value := source; content_value := content;
               status_text := status_text page; status_class := status_class page;
               alerts := alerts page ++ [js "Please enter feedback content"];
               sent := sent page; reloads_due := reloads_due page |}
  else
    caught
      (response <~ net (submission source content) ;;
       result <~ response_json response ;;
       workflowId <~ Get result (js "workflowId") ;;
       workflowId_text <~ ToString_or_throw workflowId ;;
       Returns {| source_value := source; content_value := [];
                  status_text := CHECK_MARK ++ js " Submitted! Workflow ID: "
                                 ++ workflowId_text;
                  status_class := js "success";
                  alerts := alerts page;
                  sent := sent page ++ [submission source content];
                  reloads_due := S (reloads_due page) |})
      (fun e => {| source_value := source; content_value := content;
                   status_text := CROSS_MARK ++ js " Error: " ++ message e;
                   status_class := js "error";
                   alerts := alerts page;
                   sent := sent page ++ [submission source content];
                   reloads_due := reloads_due page |}).

(** The network as the dashboard finds it when the Worker serves it in
    world [w]. *)
Definition served (env : Env) (created_at : Z -> jsstring) (w : World) : Network :=
  fun req => fst (Worker.fetch env created_at req w).

(* ===================================================================== *)
(** * Notions for the read routes and the dashboard *)
(* ===================================================================== *)

(** Row [b] was not filed after row [a]. *)
Definition not_newer (created_at : Z -> jsstring) (a b : feedback.row) : Prop :=
  jsstring_leb (created_at (feedback.id b)) (created_at (feedback.id a)) = true.


(** A value that [.bind()] accepts as a text column: a string or [null]. *)
Definition text_or_null (v : JsVal) : Prop := v = JNull \/ exists s, v = JStr s.

(** A sample of the column [created_at]: the records were filed one
    second apart, in rowid order. *)
Definition filed_at (i : Z) : jsstring := js "2025-01-01 00:00:0" ++ Number_toString i.

(** The same request under another path or method. *)
Definition request (verb path : string) : Request :=
  {| method := js verb; pathname := js path; body_text := [] |}.




(** The world a run leaves once steps 2 and 3 have gone through,
    having bound [p1] to [p5] in step 2 and written under [key] in
    step 3; step 4 writes nothing, whether it returns or throws. *)
Definition completed (uniq : bool) (w : World) (p1 p2 p3 p4 p5 : SqlValue)
  (key : jsstring) : World :=
  let rows := insert_feedback p1 p2 p3 p4 p5 (feedback_of w) in
  {| DB := {| feedback_table := rows;
              aggregated_stats_table :=
                upsert_stat uniq key (count_text (count_by_category p4 rows)) (stats_of w) |};
     instances := instances w;
     step_log := step_log w ++ four_steps |}.

(** The values that [JSON.stringify] writes in full and [JSON.parse]
    reads back: no [undefined] inside, numbers that are safe integers,
    and no key twice in an object. *)
Fixpoint distinct (keys : list jsstring) : bool :=
  match keys with
  | [] => true
  | k :: rest => negb (existsb (jsstring_eqb k) rest) && distinct rest
  end.

Fixpoint plain_json (v : JsVal) : bool :=
  match v with
  | JUndefined => false
  | JNull | JBool _ | JStr _ => true
  | JNum n => Z.leb (Z.abs n) MAX_SAFE_INTEGER
  | JArr elems => forallb plain_json elems
  | JObj props =>
      distinct (List.map fst props) && forallb (fun kv => plain_json (snd kv)) props
  end.

(** What may follow a value in a JSON text: the end, a comma, or a
    closing bracket or brace. *)
Definition delimited (rest : jsstring) : Prop :=
  match rest with
  | [] => True
  | c :: _ => c = 44%N \/ c = 93%N \/ c = 125%N
  end.

(** The text of a value inside an array or an object, and of a member
    of an object. *)
Definition value_text (v : JsVal) : jsstring :=
  match JSON_stringify v with Some t => t | None => js "null" end.

Definition member_text (kv : jsstring * JsVal) : jsstring :=
  QuoteJSONString (fst kv) ++ js ":" ++ value_text (snd kv).

(** A value's text, followed by a delimiter, reads back as the value. *)
Definition reads_back (v : JsVal) : Prop :=
  plain_json v = true ->
  forall rest fuel, delimited rest ->
    (2 * List.length (value_text v ++ rest) < fuel)%nat ->
    parse_value fuel (value_text v ++ rest) = POk v rest.

(** The first unit of a value's text opens a value. *)
Definition opens_value (c : N) : Prop :=
  is_ws c = false /\ is_unit c "]" = false /\ is_unit c "}" = false.



(** A record that has a content: the column is not NULL. *)
Definition has_content (r : feedback.row) : bool :=
  match feedback.content r with
  | Some _ => true
  | None => false
  end.

(** The store after a submission with [content: null] that the model
    called urgent: the run has stored the record and then failed. *)
Definition null_content_world : World :=
  snd (run (env_replying urgent_bug_text)
         (JObj [(js "source", JStr (js "Discord")); (js "content", JNull)]) seeded_world).

(** [part] occurs in [text] at its very start, or somewhere. *)
Definition starts_with (part text : jsstring) : bool :=
  match strip_prefix part text with
  | Some _ => true
  | None => false
  end.

Fixpoint occurs (part text : jsstring) : bool :=
  starts_with part text
  || match text with
     | [] => false
     | _ :: rest => occurs part rest
     end.

(** A text that is well-formed UTF-16: every surrogate has its partner.
    The store keeps texts in UTF-8, and only such a text comes back
    from it unit for unit. *)
Fixpoint well_formed_utf16 (s : jsstring) : bool :=
  match s with
  | [] => true
  | c :: r =>
      if is_high_surrogate c then
        match r with
        | c2 :: r2 => is_low_surrogate c2 && well_formed_utf16 r2
        | [] => false
        end
      else negb (is_low_surrogate c) && well_formed_utf16 r
  end.

(** Field [k] of [v], when it is a string, is well-formed UTF-16. *)
Definition well_formed_field (v : JsVal) (k : string) : Prop :=
  forall s, Get v (js k) = Returns (JStr s) -> well_formed_utf16 s = true.

(* ===================================================================== *)
(** * [JSON.parse] always answers *)
(* ===================================================================== *)

Section ParserTermination.

Lemma skip_ws_length (s : jsstring) :
  (List.length (skip_ws s) <= List.length s)%nat.
Proof.
  induction s as [|c r IH]; simpl; [lia|].
  destruct (is_ws c); simpl; lia.
Qed.

Lemma skip_ws_cons (s : jsstring) c r :
  skip_ws s = c :: r -> (List.length r < List.length s)%nat.
Proof.
  intros E. pose proof (skip_ws_length s) as H. rewrite E in H. simpl in H. lia.
Qed.

Lemma lex_string_length (s : jsstring) :
  forall str rest, lex_string s = Some (str, rest) ->
                   (List.length rest < List.length s)%nat.
Proof.
  induction s as [s IH] using (well_founded_induction
                                 (Wf_nat.well_founded_ltof _ (@List.length code_unit))).
  unfold Wf_nat.ltof in IH.
  intros str rest E. destruct s as [|c r]; cbn [lex_string] in E; [discriminate|].
  destruct (N.eqb c 34).
  { inversion E; subst. simpl. lia. }
  assert (Hcons : forall u t, cons_unit u (lex_string t) = Some (str, rest) ->
                              (List.length t < List.length (c :: r))%nat ->
                              (List.length rest < List.length (c :: r))%nat).
  { intros u t Hc Ht. unfold cons_unit in Hc.
    destruct (lex_string t) as [[str' rest']|] eqn:Et; [|discriminate].
    inversion Hc; subst. specialize (IH t Ht _ _ Et). lia. }
  destruct (N.eqb c 92).
  - destruct r as [|e r1]; [discriminate|].
    destruct (is_unit e "u").
    + destruct r1 as [|h1 [|h2 [|h3 [|h4 r2]]]]; try discriminate.
      destruct (hex4 h1 h2 h3 h4); [|discriminate].
      eapply Hcons; [eassumption|simpl; lia].
    + destruct (escape_unit e); [|discriminate].
      eapply Hcons; [eassumption|simpl; lia].
  - destruct (N.ltb c 32); [discriminate|].
    eapply Hcons; [eassumption|simpl; lia].
Qed.

Lemma strip_prefix_length (lit s : jsstring) :
  forall rest, strip_prefix lit s = Some rest ->
               (List.length rest + List.length lit = List.length s)%nat.
Proof.
  revert s. induction lit as [|l lit IH]; intros s rest E; simpl in E.
  - inversion E; subst. simpl. lia.
  - destruct s as [|c s']; [discriminate|].
    destruct (N.eqb l c); [|discriminate].
    apply IH in E. simpl. lia.
Qed.

Lemma span_digits_length (s : jsstring) :
  (List.length (snd (span_digits s)) <= List.length s)%nat.
Proof.
  induction s as [|c r IH]; simpl; [lia|].
  destruct (is_digit c); simpl; [|lia].
  destruct (span_digits r); simpl in *. lia.
Qed.

Lemma consumes_syntax s : consumes PSyntax s.
Proof. split; [discriminate|intros; discriminate]. Qed.

Lemma consumes_ok v rest s :
  (List.length rest < List.length s)%nat -> consumes (POk v rest) s.
Proof. intros H. split; [discriminate|]. intros ? ? E. inversion E; subst. exact H. Qed.

Lemma consumes_weaken p s s' :
  consumes p s -> (List.length s <= List.length s')%nat -> consumes p s'.
Proof. intros [H1 H2] L. split; [exact H1|]. intros v r E. specialize (H2 v r E). lia. Qed.

Lemma lex_fraction_length (s rest : jsstring) (present : bool) :
  lex_fraction s = Some (present, rest) -> (List.length rest <= List.length s)%nat.
Proof.
  unfold lex_fraction. destruct s as [|c r]; [intros E; inversion E; simpl; lia|].
  destruct (is_unit c ".").
  - pose proof (span_digits_length r) as L.
    destruct (span_digits r) as [[|d ds] rest']; [discriminate|].
    intros E; inversion E; subst. simpl in *. lia.
  - intros E; inversion E; subst. lia.
Qed.

Lemma lex_exponent_length (s rest : jsstring) (present : bool) :
  lex_exponent s = Some (present, rest) -> (List.length rest <= List.length s)%nat.
Proof.
  unfold lex_exponent. destruct s as [|c r]; [intros E; inversion E; simpl; lia|].
  destruct (is_unit c "e" || is_unit c "E").
  - set (digits := match r with
                   | sign :: r' => if is_unit sign "+" || is_unit sign "-" then r' else r
                   | [] => r
                   end).
    assert (Ld : (List.length digits <= List.length r)%nat).
    { unfold digits. destruct r as [|sign r']; [lia|].
      destruct (is_unit sign "+" || is_unit sign "-"); simpl; lia. }
    pose proof (span_digits_length digits) as L.
    destruct (span_digits digits) as [[|d ds] rest']; [discriminate|].
    intros E; inversion E; subst. simpl in *. lia.
  - intros E; inversion E; subst. lia.
Qed.

Lemma finish_number_consumes neg ds rest s :
  (List.length rest < List.length s)%nat -> consumes (finish_number neg ds rest) s.
Proof.
  intros H. unfold finish_number.
  destruct (lex_fraction rest) as [[fraction rest1]|] eqn:Ef; [|apply consumes_syntax].
  apply lex_fraction_length in Ef.
  destruct (lex_exponent rest1) as [[exponent rest2]|] eqn:Ee; [|apply consumes_syntax].
  apply lex_exponent_length in Ee.
  destruct (_ || _); apply consumes_ok; lia.
Qed.

Lemma lex_int_consumes neg t s :
  (List.length t <= List.length s)%nat -> t <> [] -> consumes (lex_int neg t) s.
Proof.
  intros L Hne. unfold lex_int. destruct t as [|d r]; [congruence|].
  simpl in L. destruct (N.eqb d 48).
  - apply finish_number_consumes. lia.
  - destruct (is_digit d); [|apply consumes_syntax].
    pose proof (span_digits_length r) as Hs.
    destruct (span_digits r) as [ds rest]. simpl in Hs.
    apply finish_number_consumes. lia.
Qed.

Lemma lex_number_consumes c r : consumes (lex_number (c :: r)) (c :: r).
Proof.
  unfold lex_number. destruct (is_unit c "-").
  - destruct r as [|d r'].
    + simpl. apply consumes_syntax.
    + apply lex_int_consumes; [simpl; lia|discriminate].
  - apply lex_int_consumes; [lia|discriminate].
Qed.

Lemma lex_literal_consumes lit v s :
  lit <> EmptyString -> consumes (lex_literal lit v s) s.
Proof.
  intros Hne. unfold lex_literal.
  destruct (strip_prefix (js lit) s) as [rest|] eqn:E; [|apply consumes_syntax].
  apply strip_prefix_length in E. apply consumes_ok.
  destruct lit as [|a lit']; [congruence|]. unfold js in E. simpl in E. lia.
Qed.

Ltac trivial_consumes :=
  solve [ apply consumes_syntax
        | apply consumes_ok; simpl in *; lia ].

(** With a bound above twice the length of the text, the descent
    never runs out: every call either consumes input or is followed
    by one that does. *)
Lemma parse_fuel (f : nat) :
  (forall s, (2 * List.length s < f)%nat -> consumes (parse_value f s) s) /\
  (forall acc s, (2 * List.length s + 1 < f)%nat ->
                 consumes (parse_elements f acc s) s) /\
  (forall acc s, (2 * List.length s + 1 < f)%nat ->
                 consumes (parse_members f acc s) s).
Proof.
  induction f as [|f (IHv & IHe & IHm)].
  { repeat split; intros; lia. }
  split; [|split].
  - intros s Hf. cbn [parse_value].
    destruct (skip_ws s) as [|c r] eqn:Es; [apply consumes_syntax|].
    pose proof (skip_ws_cons _ _ _ Es) as Lr.
    pose proof (skip_ws_length s) as Ls. rewrite Es in Ls.
    destruct (is_unit c "{").
    { destruct (skip_ws r) as [|c' r'] eqn:Er; [apply consumes_syntax|].
      pose proof (skip_ws_cons _ _ _ Er) as Lr'.
      destruct (is_unit c' "}"); [trivial_consumes|].
      eapply consumes_weaken; [apply IHm|]; lia. }
    destruct (is_unit c "[").
    { destruct (skip_ws r) as [|c' r'] eqn:Er; [apply consumes_syntax|].
      pose proof (skip_ws_cons _ _ _ Er) as Lr'.
      destruct (is_unit c' "]"); [trivial_consumes|].
      eapply consumes_weaken; [apply IHe|]; lia. }
    destruct (N.eqb c 34).
    { destruct (lex_string r) as [[str rest]|] eqn:El; [|apply consumes_syntax].
      apply lex_string_length in El. trivial_consumes. }
    destruct (is_unit c "t").
    { eapply consumes_weaken; [apply lex_literal_consumes; discriminate|exact Ls]. }
    destruct (is_unit c "f").
    { eapply consumes_weaken; [apply lex_literal_consumes; discriminate|exact Ls]. }
    destruct (is_unit c "n").
    { eapply consumes_weaken; [apply lex_literal_consumes; discriminate|exact Ls]. }
    eapply consumes_weaken; [apply lex_number_consumes|exact Ls].
  - intros acc s Hf. cbn [parse_elements].
    destruct (IHv s ltac:(lia)) as [Hnf Hlen].
    destruct (parse_value f s) as [v r| |] eqn:Ev;
      [|apply consumes_syntax|congruence].
    specialize (Hlen v r eq_refl).
    destruct (skip_ws r) as [|c r'] eqn:Er; [apply consumes_syntax|].
    pose proof (skip_ws_cons _ _ _ Er) as Lr'.
    destruct (is_unit c ",").
    { eapply consumes_weaken; [apply IHe|]; lia. }
    destruct (is_unit c "]"); trivial_consumes.
  - intros acc s Hf. cbn [parse_members].
    destruct (skip_ws s) as [|q r] eqn:Es; [apply consumes_syntax|].
    pose proof (skip_ws_cons _ _ _ Es) as Lr.
    destruct (N.eqb q 34); [|apply consumes_syntax].
    destruct (lex_string r) as [[k r1]|] eqn:El; [|apply consumes_syntax].
    apply lex_string_length in El.
    destruct (skip_ws r1) as [|c r2] eqn:Er1; [apply consumes_syntax|].
    pose proof (skip_ws_cons _ _ _ Er1) as Lr2.
    destruct (is_unit c ":"); [|apply consumes_syntax].
    destruct (IHv r2 ltac:(lia)) as [Hnf Hlen].
    destruct (parse_value f r2) as [v r3| |] eqn:Ev;
      [|apply consumes_syntax|congruence].
    specialize (Hlen v r3 eq_refl).
    destruct (skip_ws r3) as [|c' r4] eqn:Er3; [apply consumes_syntax|].
    pose proof (skip_ws_cons _ _ _ Er3) as Lr4.
    destruct (is_unit c' ",").
    { eapply consumes_weaken; [apply IHm|]; lia. }
    destruct (is_unit c' "}"); trivial_consumes.
Qed.

(** The bound [JSON_parse] starts from is enough for every text. *)
Lemma JSON_parse_total (text : jsstring) :
  parse_value (S (2 * List.length text)) text <> PFuel.
Proof. apply (parse_fuel (S (2 * List.length text))). lia. Qed.

(** [JSON.parse] throws nothing but a [SyntaxError]. *)
Lemma JSON_parse_throws (text : jsstring) (e : Error) :
  JSON_parse text = Throws e -> e = SyntaxError.
Proof.
  unfold JSON_parse.
  destruct (parse_value _ text) as [v rest| |]; try discriminate.
  - destruct (skip_ws rest); [destruct (represented v); discriminate|].
    intros E; inversion E; reflexivity.
  - intros E; inversion E; reflexivity.
Qed.

(** [JSON.parse] leaves this development only on a text that is JSON
    and whose value holds a number it does not represent. *)
Lemma JSON_parse_unmodelled_numeral (text : jsstring) :
  JSON_parse text = Unmodelled ->
  exists v rest,
    parse_value (S (2 * List.length text)) text = POk v rest /\
    skip_ws rest = [] /\ represented v = false.
Proof.
  pose proof (JSON_parse_total text) as Hfuel. unfold JSON_parse.
  destruct (parse_value _ text) as [v rest| |]; try discriminate; try congruence.
  destruct (skip_ws rest) eqn:Er; [|discriminate].
  destruct (represented v) eqn:Ev; [discriminate|].
  intros _. exists v, rest. auto.
Qed.

End ParserTermination.

(* ===================================================================== *)
(** * [JSON.parse] and [JSON.stringify] on a few texts *)
(* ===================================================================== *)

Example JSON_parse_object :
  JSON_parse (json_text "{'a': [1, true, null, 'x\n'], 'b': {}, 'a': -7 }")
  = Returns (JObj [(js "a", JNum (-7)); (js "b", JObj [])]).
Proof. vm_compute. reflexivity. Qed.

Example JSON_parse_scenario : JSON_parse urgent_bug_text = Returns urgent_bug.
Proof. vm_compute. reflexivity. Qed.

Example JSON_parse_values :
  JSON_parse (js "42") = Returns (JNum 42) /\
  JSON_parse (js " null ") = Returns JNull /\
  JSON_parse (js "{}") = Returns (JObj []) /\
  JSON_parse (json_text "'A\'b'") = Returns (JStr (json_text "A'b")) /\
  JSON_parse (json_text "[[],[{}],'']") = Returns (JArr [JArr []; JArr [JObj []]; JStr []]).
Proof. repeat split; vm_compute; reflexivity. Qed.

Example JSON_parse_syntax_errors :
  Forall (fun text => JSON_parse text = Throws SyntaxError)
    [ js "not json"; js "undefined"; js ""; js "[1,2,]"; json_text "{'a':1,}"; js "01";
      js "tru"; js "-"; js "[object Object]"; json_text "{a:1}"; json_text "'open";
      js "1 2" ].
Proof. repeat constructor. Qed.

(** A numeral is read to its end: one that stops short is a syntax
    error, and so is whatever is wrong after a number that this
    development does not represent. *)
Example JSON_parse_numerals :
  Forall (fun text => JSON_parse text = Throws SyntaxError)
    [ js "1."; js "1.e3"; js "1e"; js "2e+"; js ".5"; js "+1"; js "1.5x"; js "[1.5,]";
      json_text "{'a':1e3" ] /\
  Forall (fun text => JSON_parse text = Unmodelled)
    [ js "1.0"; js "1E+2"; js "-1.5e-7"; json_text "{'a':[0.5]}" ] /\
  JSON_parse (json_text "{'a':1.5,'a':2}") = Returns (JObj [(js "a", JNum 2)]).
Proof. repeat split; repeat constructor. Qed.

Example JSON_parse_unmodelled :
  JSON_parse (js "1.5") = Unmodelled /\ JSON_parse (js "[1e3]") = Unmodelled /\
  JSON_parse (js "-0") = Unmodelled /\ JSON_parse (js "9007199254740992") = Unmodelled.
Proof. repeat split; vm_compute; reflexivity. Qed.

Example JSON_stringify_values :
  JSON_stringify (JObj [(js "count", JNum 3)]) = Some (json_text "{'count':3}") /\
  JSON_stringify (JObj [ (js "a", JArr [JUndefined; JStr (json_text "x'y"); JNum (-10)]);
                         (js "u", JUndefined); (js "b", JBool true) ])
  = Some (json_text "{'a':[null,'x\'y',-10],'b':true}") /\
  JSON_stringify (JStr [1; 55357; 56488; 55357; 65]%N)
  = Some (json_text "'\u0001" ++ [55357; 56488]%N ++ json_text "\ud83dA'") /\
  JSON_stringify JUndefined = None.
Proof. repeat split; vm_compute; reflexivity. Qed.

(* ===================================================================== *)
(** * Step 1: the classifier *)
(* ===================================================================== *)

Section Classifier.

Variable env : Env.
Variables source content : JsVal.
Variable w : World.

(** All the ways step 1 can end. *)
Lemma analyze_feedback_cases :
  analyze_feedback env source content w =
  if stringable source && stringable content then
    match AI_run env MODEL (analysis_inputs source content) with
    | inl e => (Throws e, w)
    | inr response =>
        match parsed_reply response with
        | Returns v => (Returns v, w)
        | Throws _ => (Returns fallback_analysis, w)
        | Unmodelled => (Unmodelled, w)
        end
    end
  else (Throws TypeError, w).
Proof.
  unfold analyze_feedback, analysis_inputs, external, try_catch, bind, lift, ret,
    parsed_reply, ToString_or_throw.
  destruct (stringable source); [|reflexivity].
  destruct (stringable content); [|reflexivity]. cbn [andb].
  destruct (AI_run env MODEL _) as [e|response]; [reflexivity|].
  destruct (Get response (js "response")) as [text|e|]; try reflexivity.
  destruct (JSON_parse_value text); reflexivity.
Qed.

End Classifier.

(** A source with a member [toString] of its own stops step 1 at the
    template literal, before the model is asked; a reply that stops in
    the middle of a numeral is not JSON and gives the default. *)
Example analyze_feedback_edges :
  analyze_feedback (env_replying (js "not json"))
    (JObj [(js "toString", JNum 1)]) (JStr (js "x")) empty_world
  = (Throws TypeError, empty_world) /\
  analyze_feedback (env_replying (js "not json"))
    (JStr (js "x")) (JArr [JObj [(js "toString", JNum 1)]]) empty_world
  = (Throws TypeError, empty_world) /\
  analyze_feedback (env_replying (js "1.")) (JStr (js "Discord")) (JStr (js "slow"))
    empty_world
  = (Returns fallback_analysis, empty_world) /\
  analyze_feedback (env_replying (js "{}")) (JObj [(js "valueOf", JNum 1)]) JNull
    empty_world
  = (Returns (JObj []), empty_world).
Proof. repeat split. Qed.

Lemma fallback_fully_populated : fully_populated fallback_analysis.
Proof.
  repeat split; eexists; (split; [vm_compute; reflexivity|split; discriminate]).
Qed.

(** C1, as amended.  For a source and a content that convert to text
    (every string does; so do [null], [undefined], numbers, booleans,
    and objects without a member [toString] of their own), a thrown
    error of the generation call leaves step 1 as it is; once the call
    has returned, the step does not throw: it returns the default when
    the reply cannot be read or parsed, and the parsed value otherwise.
    For a source or a content that does not convert to text, the step
    throws a TypeError before the model is called. *)
Theorem analyze_feedback_error_handling (env : Env) (source content : JsVal) (w : World) :
  (stringable source = true -> stringable content = true ->
   (forall e, AI_run env MODEL (analysis_inputs source content) = inl e ->
              analyze_feedback env source content w = (Throws e, w)) /\
   (forall response,
       AI_run env MODEL (analysis_inputs source content) = inr response ->
       (forall e, fst (analyze_feedback env source content w) <> Throws e) /\
       (forall e, parsed_reply response = Throws e ->
                  analyze_feedback env source content w = (Returns fallback_analysis, w)) /\
       (forall v, parsed_reply response = Returns v ->
                  analyze_feedback env source content w = (Returns v, w)))) /\
  (stringable source = false \/ stringable content = false ->
   analyze_feedback env source content w = (Throws TypeError, w)).
Proof.
  rewrite analyze_feedback_cases. split.
  - intros -> ->. cbn [andb]. split.
    + intros e ->. reflexivity.
    + intros response ->. repeat split.
      * intros e. destruct (parsed_reply response); discriminate.
      * intros e ->. reflexivity.
      * intros v ->. reflexivity.
  - intros [-> | ->]; [reflexivity|]. rewrite andb_false_r. reflexivity.
Qed.

Lemma analyze_feedback_error_handling_witness :
  analyze_feedback env_model_down (JStr (js "Discord")) (JStr (js "slow")) empty_world
  = (Throws (ServiceError (js "model unavailable")), empty_world)
  /\ analyze_feedback (env_replying (js "not json")) (JStr (js "Discord"))
       (JStr (js "slow")) empty_world
     = (Returns fallback_analysis, empty_world).
Proof.
  split.
  - apply (proj1 (proj1 (analyze_feedback_error_handling env_model_down
                           (JStr (js "Discord")) (JStr (js "slow")) empty_world)
                    eq_refl eq_refl)).
    reflexivity.
  - apply (proj1 (proj2 (proj2 (proj1 (analyze_feedback_error_handling
                                         (env_replying (js "not json"))
                                         (JStr (js "Discord")) (JStr (js "slow"))
                                         empty_world)
                                  eq_refl eq_refl)
                                (reply (js "not json")) eq_refl))
             SyntaxError).
    vm_compute. reflexivity.
Defined.

(** C1 as stated fails: with the model call throwing, step 1 throws;
    with a reply that parses but has no fields, step 1 returns the
    reply, not the default. *)
Lemma classify_never_fails_counterexample :
  ~ classify_never_fails env_model_down (JStr (js "Discord")) (JStr (js "slow")) empty_world
  /\ ~ classify_never_fails (env_replying (js "{}")) (JStr (js "Discord"))
         (JStr (js "slow")) empty_world.
Proof.
  split; intros H.
  - assert (G : generation_failed env_model_down (JStr (js "Discord")) (JStr (js "slow")))
      by exact I.
    specialize (H G). vm_compute in H. discriminate.
  - assert (G : generation_failed (env_replying (js "{}")) (JStr (js "Discord"))
                  (JStr (js "slow"))).
    { unfold generation_failed. 
      change (AI_run (env_replying (js "{}")) MODEL _) with (@inr Error _ (reply (js "{}"))).
      cbv iota.
      replace (parsed_reply (reply (js "{}"))) with (Returns (JObj []))
        by (vm_compute; reflexivity).
      intros ((x & Hx & Hu & _) & _). vm_compute in Hx. inversion Hx. congruence. }
    specialize (H G). vm_compute in H. discriminate.
Qed.

(** C2, as amended.  Whatever step 1 returns is either the default,
    whose four fields are all populated, or the value the reply parsed
    to, unchanged; so the fields are populated when the reply does not
    parse and exactly as populated as the reply when it does. *)
Theorem analyze_feedback_result (env : Env) (source content : JsVal) (w : World) (a : JsVal) :
  fst (analyze_feedback env source content w) = Returns a ->
  exists response,
    AI_run env MODEL (analysis_inputs source content) = inr response /\
    ((exists e, parsed_reply response = Throws e) /\ a = fallback_analysis /\ fully_populated a
     \/ parsed_reply response = Returns a).
Proof.
  rewrite analyze_feedback_cases.
  destruct (stringable source && stringable content); [|discriminate].
  destruct (AI_run env MODEL _) as [e|response]; [discriminate|].
  intros H. exists response. split; [reflexivity|].
  destruct (parsed_reply response) as [v|e|] eqn:E; simpl in H.
  - right. congruence.
  - left. inversion H; subst. split; [eauto|]. split; [reflexivity|].
    apply fallback_fully_populated.
  - discriminate.
Qed.

Lemma analyze_feedback_result_witness :
  exists response,
    AI_run (env_replying urgent_bug_text) MODEL
      (analysis_inputs (JStr (js "Discord")) (JStr (js "slow"))) = inr response /\
    ((exists e, parsed_reply response = Throws e) /\ urgent_bug = fallback_analysis
       /\ fully_populated urgent_bug
     \/ parsed_reply response = Returns urgent_bug).
Proof.
  apply (analyze_feedback_result (env_replying urgent_bug_text) (JStr (js "Discord"))
           (JStr (js "slow")) empty_world urgent_bug).
  vm_compute. reflexivity.
Defined.

(** C2 as stated fails: the reply [{}] parses, and the classification
    is then the empty object, with no field populated. *)
Lemma classification_always_populated_counterexample :
  ~ classification_always_populated (env_replying (js "{}")) (JStr (js "Discord"))
      (JStr (js "slow")) empty_world.
Proof.
  intros H. destruct (H (reply (js "{}")) eq_refl) as (a & Ha & ((x & Hx & Hu & _) & _)).
  vm_compute in Ha. inversion Ha; subst a.
  vm_compute in Hx. inversion Hx. congruence.
Qed.

(** C4, as amended.  For a source and a content that convert to text
    (every string does), when the text of the reply is not JSON, the
    classification is exactly the object of the [catch] branch, whose
    [reason] reads "Could not parse AI response". *)
Theorem unparsed_reply_default (env : Env) (source content : JsVal) (w : World)
  (response : JsVal) (text : jsstring) (e : Error) :
  stringable source = true -> stringable content = true ->
  AI_run env MODEL (analysis_inputs source content) = inr response ->
  Get response (js "response") = Returns (JStr text) ->
  JSON_parse text = Throws e ->
  analyze_feedback env source content w =
  (Returns (JObj [ (js "sentiment", JStr (js "neutral"));
                   (js "category", JStr (js "unknown"));
                   (js "urgency", JStr (js "low"));
                   (js "reason", JStr (js "Could not parse AI response")) ]), w).
Proof.
  intros Hs Hc Hcall Htext Hparse. rewrite analyze_feedback_cases, Hs, Hc, Hcall.
  unfold parsed_reply. rewrite Htext.
  unfold JSON_parse_value. cbn [ToString_or_throw stringable ToString andb].
  rewrite Hparse. reflexivity.
Qed.

Lemma unparsed_reply_default_witness :
  analyze_feedback (env_replying (js "not json")) (JStr (js "Discord")) (JStr (js "slow"))
    empty_world =
  (Returns (JObj [ (js "sentiment", JStr (js "neutral"));
                   (js "category", JStr (js "unknown"));
                   (js "urgency", JStr (js "low"));
                   (js "reason", JStr (js "Could not parse AI response")) ]), empty_world).
Proof.
  apply (unparsed_reply_default (env_replying (js "not json")) (JStr (js "Discord"))
           (JStr (js "slow")) empty_world (reply (js "not json")) (js "not json")
           SyntaxError).
  - reflexivity.
  - reflexivity.
  - reflexivity.
  - reflexivity.
  - vm_compute. reflexivity.
Defined.

(** C4 as stated fails: the [reason] of the default starts with a
    capital letter. *)
Lemma unparsed_gives_specified_default_counterexample :
  ~ unparsed_gives_specified_default (env_replying (js "not json")) (JStr (js "Discord"))
      (JStr (js "slow")) empty_world.
Proof.
  intros H. specialize (H (js "not json") SyntaxError eq_refl).
  assert (P : JSON_parse (js "not json") = Throws SyntaxError) by (vm_compute; reflexivity).
  specialize (H P). vm_compute in H. discriminate.
Qed.

(* ===================================================================== *)
(** * Step 4: the urgency gate *)
(* ===================================================================== *)

Lemma jsstring_eqb_eq (a b : jsstring) : jsstring_eqb a b = true <-> a = b.
Proof.
  unfold jsstring_eqb. destruct (list_eq_dec N.eq_dec a b); split; congruence.
Qed.

Lemma jsstring_eqb_refl (a : jsstring) : jsstring_eqb a a = true.
Proof. apply jsstring_eqb_eq. reflexivity. Qed.

Lemma strict_eq_string_spec (v : JsVal) (lit : jsstring) :
  strict_eq_string v lit = true <-> v = JStr lit.
Proof.
  destruct v; simpl; try (split; [discriminate|congruence]).
  rewrite jsstring_eqb_eq. split; congruence.
Qed.

(** C3, as amended.  On a source and a content that are strings the
    gate leaves the world alone, and it never fails when it is reached
    in a run.  For urgency "high" and a category that converts to text
    (in a run it is a string or [null], step 2 having bound it) it
    returns [alert: true], a message that names category and source,
    and, under the name [content], the first 100 code units of the
    content (all of it when it has at most 100); a category that does
    not convert to text makes it throw a TypeError.  For any other
    urgency it returns exactly [{alert: false}], which has no
    [message], [content] or [excerpt]. *)
Theorem urgency_gate (source content : jsstring) (analysis : JsVal) (w : World)
  (u category : JsVal) :
  Get analysis (js "urgency") = Returns u ->
  Get analysis (js "category") = Returns category ->
  (u = JStr (js "high") -> stringable category = true ->
     check_urgency (JStr source) (JStr content) analysis w =
     (Returns (JObj [ (js "alert", JBool true);
                      (js "message",
                       JStr (ROTATING_LIGHT ++ js " High urgency " ++ ToString category ++
                             js " detected from " ++ source));
                      (js "content", JStr (firstn 100 content)) ]), w)
     /\ names (ROTATING_LIGHT ++ js " High urgency " ++ ToString category ++
               js " detected from " ++ source) (ToString category)
     /\ names (ROTATING_LIGHT ++ js " High urgency " ++ ToString category ++
               js " detected from " ++ source) source
     /\ ((List.length content <= 100)%nat -> firstn 100 content = content)
     /\ List.length (firstn 100 content) = Nat.min 100 (List.length content)) /\
  (u = JStr (js "high") -> stringable category = false ->
     check_urgency (JStr source) (JStr content) analysis w = (Throws TypeError, w)) /\
  (u <> JStr (js "high") ->
     check_urgency (JStr source) (JStr content) analysis w =
     (Returns (JObj [ (js "alert", JBool false) ]), w)
     /\ Get (JObj [ (js "alert", JBool false) ]) (js "message") = Returns JUndefined
     /\ Get (JObj [ (js "alert", JBool false) ]) (js "content") = Returns JUndefined
     /\ Get (JObj [ (js "alert", JBool false) ]) (js "excerpt") = Returns JUndefined) /\
  (forall p, d1_bind category = Returns p -> stringable category = true).
Proof.
  intros Hu Hc. unfold check_urgency, bind, lift, ret, ToString_or_throw. rewrite Hu.
  split; [|split; [|split]].
  - intros -> Hcat. replace (strict_eq_string (JStr (js "high")) (js "high")) with true
      by (symmetry; apply strict_eq_string_spec; reflexivity).
    rewrite Hc, Hcat. cbn [stringable substring_call substring_0]. split; [reflexivity|].
    split; [|split; [|split]].
    + exists (ROTATING_LIGHT ++ js " High urgency "), (js " detected from " ++ source).
      rewrite <- !app_assoc. reflexivity.
    + exists (ROTATING_LIGHT ++ js " High urgency " ++ ToString category ++
              js " detected from "), [].
      rewrite app_nil_r, <- !app_assoc. reflexivity.
    + intros L. apply firstn_all2. exact L.
    + apply length_firstn.
  - intros -> Hcat. replace (strict_eq_string (JStr (js "high")) (js "high")) with true
      by (symmetry; apply strict_eq_string_spec; reflexivity).
    rewrite Hc, Hcat. reflexivity.
  - intros Hne. destruct (strict_eq_string u (js "high")) eqn:E.
    + apply strict_eq_string_spec in E. contradiction.
    + repeat split; reflexivity.
  - intros p Hp. destruct category; simpl in Hp; try discriminate; reflexivity.
Qed.

Lemma urgency_gate_witness :
  check_urgency (JStr (js "Discord")) (JStr x150) urgent_bug empty_world =
  (Returns (JObj [ (js "alert", JBool true);
                   (js "message",
                    JStr (ROTATING_LIGHT ++ js " High urgency " ++ js "bug" ++
                          js " detected from " ++ js "Discord"));
                   (js "content", JStr (repeat 120%N 100)) ]), empty_world).
Proof.
  apply (proj1 (urgency_gate (js "Discord") x150 urgent_bug empty_world
                  (JStr (js "high")) (JStr (js "bug")) eq_refl eq_refl)).
  - reflexivity.
  - reflexivity.
Defined.

(** C3 as stated fails: in the scenario of the specification the
    payload carries the excerpt under [content]; it has no [excerpt]. *)
Lemma urgency_gate_as_specified_counterexample :
  ~ urgency_gate_as_specified (js "Discord") x150 urgent_bug empty_world.
Proof.
  intros H.
  destruct (H (JStr (js "high")) (JStr (js "bug")) eq_refl eq_refl)
    as (payload & Hp & Hhigh & _).
  vm_compute in Hp. inversion Hp; subst payload. clear Hp.
  destruct (Hhigh eq_refl) as (_ & _ & Hex).
  vm_compute in Hex. discriminate.
Qed.

(* ===================================================================== *)
(** * The two tables *)
(* ===================================================================== *)

Section ListFacts.

Context {A : Type}.

Lemma filter_all (p : A -> bool) (l : list A) :
  (forall x, In x l -> p x = true) -> filter p l = l.
Proof.
  induction l as [|a l IH]; intros H; simpl; [reflexivity|].
  rewrite (H a (or_introl eq_refl)). f_equal. apply IH. intros x Hx. apply H. right. exact Hx.
Qed.

Lemma filter_none (p : A -> bool) (l : list A) :
  (forall x, In x l -> p x = false) -> filter p l = [].
Proof.
  induction l as [|a l IH]; intros H; simpl; [reflexivity|].
  rewrite (H a (or_introl eq_refl)). apply IH. intros x Hx. apply H. right. exact Hx.
Qed.


Lemma filter_filter_le (p q : A -> bool) (l : list A) :
  (List.length (filter p (filter q l)) <= List.length (filter p l))%nat.
Proof.
  induction l as [|a l IH]; simpl; [lia|].
  destruct (q a); simpl; destruct (p a); simpl; lia.
Qed.

Lemma in_short_list (l : list A) (a b : A) :
  (List.length l <= 1)%nat -> In a l -> In b l -> a = b.
Proof.
  destruct l as [|x [|y l]]; simpl; intros L Ha Hb; try lia.
  destruct Ha as [<-|[]]. destruct Hb as [<-|[]]. reflexivity.
Qed.

Lemma NoDup_map_eq {B : Type} (f : A -> B) (l : list A) (a b : A) :
  NoDup (List.map f l) -> In a l -> In b l -> f a = f b -> a = b.
Proof.
  induction l as [|x l IH]; simpl; intros N Ha Hb E; [contradiction|].
  inversion N as [|? ? Hx N']; subst.
  destruct Ha as [<-|Ha], Hb as [<-|Hb]; try reflexivity.
  - exfalso. apply Hx. rewrite E. apply in_map. exact Hb.
  - exfalso. apply Hx. rewrite <- E. apply in_map. exact Ha.
  - apply IH; assumption.
Qed.

Lemma NoDup_map_filter {B : Type} (f : A -> B) (p : A -> bool) (l : list A) :
  NoDup (List.map f l) -> NoDup (List.map f (filter p l)).
Proof.
  induction l as [|x l IH]; simpl; intros N; [constructor|].
  inversion N as [|? ? Hx N']; subst.
  destruct (p x); simpl; [|apply IH; exact N'].
  constructor; [|apply IH; exact N'].
  intros Hin. apply Hx. apply in_map_iff in Hin. destruct Hin as (y & Hy & Hin).
  apply filter_In in Hin. rewrite <- Hy. apply in_map. tauto.
Qed.

End ListFacts.

Lemma fold_max_ge (rest : list Z) (i x : Z) :
  x = i \/ In x rest -> x <= fold_right Z.max i rest.
Proof.
  induction rest as [|y rest IH]; simpl; intros H.
  - destruct H as [->|[]]. lia.
  - assert (x = y \/ x <= fold_right Z.max i rest) as [->|L]; [|lia|lia].
    destruct H as [->|[->|H]]; [right; apply IH; left; reflexivity|left; reflexivity|].
    right. apply IH. right. exact H.
Qed.

(** The rowid a new row receives is above every rowid in the table. *)
Lemma next_rowid_above (ids : list Z) (i : Z) : In i ids -> i < next_rowid ids.
Proof.
  destruct ids as [|j rest]; intros H; [contradiction|].
  assert (L : i <= fold_right Z.max j rest).
  { apply fold_max_ge. destruct H as [->|H]; [left; reflexivity|right; exact H]. }
  unfold next_rowid. lia.
Qed.

Section SelectStatId.

Variable k : option jsstring.

Lemma select_stat_id_none (rows : list aggregated_stats.row) :
  select_stat_id k rows = None ->
  forall r, In r rows -> has_stat_type k r = false.
Proof.
  induction rows as [|x rows IH]; simpl; intros E r Hr; [contradiction|].
  destruct (has_stat_type k x) eqn:Hx.
  - destruct (select_stat_id k rows); discriminate.
  - destruct Hr as [<-|Hr]; [exact Hx|apply IH; assumption].
Qed.

Lemma select_stat_id_some (rows : list aggregated_stats.row) (m : Z) :
  select_stat_id k rows = Some m ->
  (exists r, In r rows /\ has_stat_type k r = true /\ aggregated_stats.id r = m) /\
  (forall r, In r rows -> has_stat_type k r = true -> m <= aggregated_stats.id r).
Proof.
  revert m. induction rows as [|x rows IH]; simpl; intros m E; [discriminate|].
  destruct (has_stat_type k x) eqn:Hx.
  - destruct (select_stat_id k rows) as [m'|] eqn:Es.
    + destruct (IH m' eq_refl) as ((r & Hr & Hk & Hid) & Hmin).
      inversion E; subst m. split.
      * destruct (Z.min_spec (aggregated_stats.id x) m') as [[_ ->]|[_ ->]].
        -- exists x. auto.
        -- exists r. auto.
      * intros r' [<-|Hr'] Hk'; [lia|]. specialize (Hmin r' Hr' Hk'). lia.
    + inversion E; subst m. split.
      * exists x. auto.
      * intros r' [<-|Hr'] Hk'; [lia|].
        rewrite (select_stat_id_none rows Es r' Hr') in Hk'. discriminate.
  - destruct (IH m E) as ((r & Hr & Hk & Hid) & Hmin). split.
    + exists r. auto.
    + intros r' [<-|Hr'] Hk'; [congruence|]. apply Hmin; assumption.
Qed.

Lemma select_stat_id_least (rows : list aggregated_stats.row) (m : Z) :
  (exists r, In r rows /\ has_stat_type k r = true /\ aggregated_stats.id r = m) ->
  (forall r, In r rows -> has_stat_type k r = true -> m <= aggregated_stats.id r) ->
  select_stat_id k rows = Some m.
Proof.
  intros (r & Hr & Hk & Hid) Hmin.
  destruct (select_stat_id k rows) as [m'|] eqn:Es.
  - destruct (select_stat_id_some rows m' Es) as ((r' & Hr' & Hk' & Hid') & Hmin').
    specialize (Hmin r' Hr' Hk'). specialize (Hmin' r Hr Hk). f_equal. lia.
  - rewrite (select_stat_id_none rows Es r Hr) in Hk. discriminate.
Qed.

End SelectStatId.

Section Upsert.

Variable uniq : bool.
Variables key value : jsstring.
Variable rows : list aggregated_stats.row.

Lemma upsert_stat_unfold :
  upsert_stat uniq key value rows =
  filter (below (upsert_rowid key rows)) (upsert_kept uniq key rows)
  ++ [upsert_row key value rows]
  ++ filter (above (upsert_rowid key rows)) (upsert_kept uniq key rows).
Proof. reflexivity. Qed.

Lemma has_stat_type_upsert_row : has_stat_type (Some key) (upsert_row key value rows) = true.
Proof. unfold has_stat_type, upsert_row. simpl. apply jsstring_eqb_refl. Qed.

Lemma upsert_kept_in (r : aggregated_stats.row) :
  In r (upsert_kept uniq key rows) ->
  In r rows /\ aggregated_stats.id r <> upsert_rowid key rows
  /\ upsert_conflict uniq key rows r = false.
Proof.
  unfold upsert_kept. rewrite filter_In. intros [Hin Hc].
  apply negb_true_iff in Hc. repeat split; try assumption.
  unfold upsert_conflict in Hc. apply orb_false_iff in Hc. destruct Hc as [Hc _].
  apply Z.eqb_neq in Hc. exact Hc.
Qed.

(** Every row of the new table is the written row or a row that was kept. *)
Lemma upsert_stat_in (r : aggregated_stats.row) :
  In r (upsert_stat uniq key value rows) <->
  r = upsert_row key value rows \/ In r (upsert_kept uniq key rows).
Proof.
  rewrite upsert_stat_unfold, !in_app_iff, !filter_In. simpl. split.
  - intros [[H _]|[[H|[]]|[H _]]]; auto.
  - intros [->|H]; [auto|].
    destruct (upsert_kept_in r H) as (_ & Hne & _).
    unfold below, above.
    destruct (Z.ltb_spec (aggregated_stats.id r) (upsert_rowid key rows)); [auto|].
    right. right. split; [exact H|]. apply Z.ltb_lt. lia.
Qed.

Lemma rowid_least (r : aggregated_stats.row) :
  In r rows -> has_stat_type (Some key) r = true ->
  upsert_rowid key rows <= aggregated_stats.id r.
Proof.
  intros Hin Hk. unfold upsert_rowid.
  destruct (select_stat_id (Some key) rows) as [m|] eqn:E.
  - apply (select_stat_id_some _ _ _ E); assumption.
  - rewrite (select_stat_id_none _ _ E r Hin) in Hk. discriminate.
Qed.

(** The statement finds its own row again. *)
Lemma upsert_rowid_stable :
  upsert_rowid key (upsert_stat uniq key value rows) = upsert_rowid key rows.
Proof.
  unfold upsert_rowid at 1.
  rewrite (select_stat_id_least (Some key) _ (upsert_rowid key rows)); [reflexivity| |].
  - exists (upsert_row key value rows). split; [|split].
    + apply upsert_stat_in. left. reflexivity.
    + apply has_stat_type_upsert_row.
    + reflexivity.
  - intros r Hin Hk. apply upsert_stat_in in Hin. destruct Hin as [->|Hin].
    + simpl. lia.
    + apply rowid_least; [|exact Hk]. apply (upsert_kept_in r Hin).
Qed.

Lemma upsert_row_stable :
  upsert_row key value (upsert_stat uniq key value rows) = upsert_row key value rows.
Proof. unfold upsert_row. rewrite upsert_rowid_stable. reflexivity. Qed.

Lemma upsert_kept_stable :
  upsert_kept uniq key (upsert_stat uniq key value rows) =
  filter (below (upsert_rowid key rows)) (upsert_kept uniq key rows)
  ++ filter (above (upsert_rowid key rows)) (upsert_kept uniq key rows).
Proof.
  unfold upsert_kept at 1.
  rewrite (filter_ext _ (fun r => negb (upsert_conflict uniq key rows r))).
  2:{ intros r. unfold upsert_conflict. rewrite upsert_rowid_stable. reflexivity. }
  rewrite upsert_stat_unfold, !filter_app. simpl.
  replace (upsert_conflict uniq key rows (upsert_row key value rows)) with true.
  2:{ unfold upsert_conflict. simpl. rewrite Z.eqb_refl. reflexivity. }
  simpl. f_equal; apply filter_all; intros r Hr; apply filter_In in Hr;
    destruct Hr as [Hr _]; apply upsert_kept_in in Hr; destruct Hr as (_ & _ & ->);
    reflexivity.
Qed.

End Upsert.

(** Running the statement again with the same parameters changes nothing. *)
Lemma upsert_stat_idempotent (uniq : bool) (key value : jsstring)
  (rows : list aggregated_stats.row) :
  upsert_stat uniq key value (upsert_stat uniq key value rows) =
  upsert_stat uniq key value rows.
Proof.
  rewrite (upsert_stat_unfold uniq key value (upsert_stat uniq key value rows)).
  rewrite upsert_rowid_stable, upsert_row_stable, upsert_kept_stable.
  rewrite !filter_app.
  set (i := upsert_rowid key rows). set (kept := upsert_kept uniq key rows).
  rewrite (filter_all (below i) (filter (below i) kept)).
  2:{ intros r Hr. apply filter_In in Hr. tauto. }
  rewrite (filter_none (below i) (filter (above i) kept)).
  2:{ intros r Hr. apply filter_In in Hr. destruct Hr as [_ Hr].
      unfold above in Hr. unfold below. apply Z.ltb_lt in Hr. apply Z.ltb_ge. lia. }
  rewrite (filter_none (above i) (filter (below i) kept)).
  2:{ intros r Hr. apply filter_In in Hr. destruct Hr as [_ Hr].
      unfold below in Hr. unfold above. apply Z.ltb_lt in Hr. apply Z.ltb_ge. lia. }
  rewrite (filter_all (above i) (filter (above i) kept)).
  2:{ intros r Hr. apply filter_In in Hr. tauto. }
  rewrite app_nil_r. simpl. rewrite upsert_stat_unfold. reflexivity.
Qed.

Lemma Permutation_filter_length {A : Type} (p : A -> bool) (l l' : list A) :
  Permutation l l' -> List.length (filter p l) = List.length (filter p l').
Proof.
  induction 1 as [|x l l' _ IH|x y l|l l' l'' _ IH1 _ IH2]; simpl.
  - reflexivity.
  - destruct (p x); simpl; lia.
  - destruct (p x), (p y); reflexivity.
  - lia.
Qed.

Lemma split_rowid_permutation (i : Z) (l : list aggregated_stats.row) :
  (forall r, In r l -> aggregated_stats.id r <> i) ->
  Permutation (filter (below i) l ++ filter (above i) l) l.
Proof.
  induction l as [|a l IH]; intros H; simpl; [constructor|].
  assert (Ha : aggregated_stats.id a <> i) by (apply H; left; reflexivity).
  assert (IH' : Permutation (filter (below i) l ++ filter (above i) l) l)
    by (apply IH; intros r Hr; apply H; right; exact Hr).
  destruct (below i a) eqn:B, (above i a) eqn:Ab; unfold below, above in B, Ab;
    try apply Z.ltb_lt in B; try apply Z.ltb_lt in Ab;
    try apply Z.ltb_ge in B; try apply Z.ltb_ge in Ab; try lia.
  - simpl. constructor. exact IH'.
  - apply Permutation_sym. apply Permutation_cons_app. apply Permutation_sym. exact IH'.
Qed.

(** Up to the order of the rows, the statement removes the rows in
    conflict and adds the new one. *)
Lemma upsert_stat_permutation (uniq : bool) (key value : jsstring)
  (rows : list aggregated_stats.row) :
  Permutation (upsert_stat uniq key value rows)
              (upsert_row key value rows :: upsert_kept uniq key rows).
Proof.
  rewrite upsert_stat_unfold. apply Permutation_sym. apply Permutation_cons_app.
  apply Permutation_sym. apply split_rowid_permutation.
  intros r Hr. apply (upsert_kept_in uniq key rows r Hr).
Qed.

Section UpsertWellFormed.

Variable uniq : bool.
Variables key value : jsstring.
Variable rows : list aggregated_stats.row.
Hypothesis Hwf : stats_well_formed rows.

(** In a well-formed table the rows in conflict with the new one are
    the rows with its key: at most one, which then has its rowid. *)
Lemma upsert_conflict_key (r : aggregated_stats.row) :
  In r rows -> upsert_conflict uniq key rows r = has_stat_type (Some key) r.
Proof.
  intros Hin. destruct Hwf as [Hids Hkeys].
  unfold upsert_conflict, upsert_rowid.
  destruct (select_stat_id (Some key) rows) as [m|] eqn:E.
  - destruct (select_stat_id_some _ _ _ E) as ((r0 & Hin0 & Hk0 & Hid0) & _).
    destruct (has_stat_type (Some key) r) eqn:Hk.
    + assert (r = r0).
      { apply (in_short_list (filter (has_stat_type (Some key)) rows));
          [apply Hkeys| |]; apply filter_In; auto. }
      subst r0. rewrite Hid0, Z.eqb_refl. reflexivity.
    + rewrite andb_false_r, orb_false_r. apply Z.eqb_neq. intros Heq.
      assert (r = r0) by (apply (NoDup_map_eq aggregated_stats.id rows); congruence).
      congruence.
  - rewrite (select_stat_id_none _ _ E r Hin). rewrite andb_false_r, orb_false_r.
    apply Z.eqb_neq.
    assert (aggregated_stats.id r < next_rowid (List.map aggregated_stats.id rows))
      by (apply next_rowid_above, in_map, Hin).
    lia.
Qed.

Lemma upsert_kept_other_keys :
  upsert_kept uniq key rows = filter (fun r => negb (has_stat_type (Some key) r)) rows.
Proof.
  unfold upsert_kept. apply filter_ext_in. intros r Hr.
  rewrite upsert_conflict_key by exact Hr. reflexivity.
Qed.

Lemma upsert_kept_no_key (r : aggregated_stats.row) :
  In r (upsert_kept uniq key rows) -> has_stat_type (Some key) r = false.
Proof.
  rewrite upsert_kept_other_keys, filter_In. intros [_ H].
  apply negb_true_iff in H. exact H.
Qed.



Lemma upsert_stat_well_formed : stats_well_formed (upsert_stat uniq key value rows).
Proof.
  destruct Hwf as [Hids Hkeys]. split.
  - apply (Permutation_NoDup
             (l := List.map aggregated_stats.id
                     (upsert_row key value rows :: upsert_kept uniq key rows))).
    + apply Permutation_map, Permutation_sym, upsert_stat_permutation.
    + simpl. constructor.
      * intros Hin. apply in_map_iff in Hin. destruct Hin as (r & Hid & Hr).
        apply upsert_kept_in in Hr. tauto.
      * apply NoDup_map_filter. exact Hids.
  - intros k.
    rewrite (Permutation_filter_length _ _ _ (upsert_stat_permutation uniq key value rows)).
    simpl. destruct (has_stat_type (Some k) (upsert_row key value rows)) eqn:Hk.
    + (* [k] is the key: the kept rows do not carry it *)
      unfold has_stat_type in Hk. simpl in Hk. apply jsstring_eqb_eq in Hk. subst k.
      rewrite filter_none; [simpl; lia|]. apply upsert_kept_no_key.
    + unfold upsert_kept. etransitivity; [apply filter_filter_le|apply Hkeys].
Qed.


End UpsertWellFormed.

Section UpsertExisting.

Variable uniq : bool.
Variables key value : jsstring.
Variable rows : list aggregated_stats.row.
Hypothesis Hwf : stats_well_formed rows.


End UpsertExisting.

(* ===================================================================== *)
(** * Steps 2 and 3: the store and its aggregate *)
(* ===================================================================== *)

(** The JSON text of the row the count query returns. *)
Lemma json_stringify_count (p : SqlValue) (rows : list feedback.row) :
  JSON_stringify (count_by_category_first p rows)
  = Some (count_text (count_by_category p rows)).
Proof. reflexivity. Qed.

Lemma uint_units_head (u : Decimal.uint) (rest : jsstring) :
  uint_units u <> 123%N :: rest.
Proof. destruct u; simpl; unfold digit_unit; intros H; inversion H. Qed.

(** The text of a number never opens with a brace. *)
Lemma Number_toString_head (n : Z) (rest : jsstring) :
  Number_toString n <> 123%N :: rest.
Proof.
  destruct n; simpl.
  - discriminate.
  - apply uint_units_head.
  - discriminate.
Qed.

(** What step 3 does once the category can be bound. *)
(** A value that [.bind()] has taken converts to text. *)
Lemma bound_converts (v : JsVal) (p : SqlValue) :
  d1_bind v = Returns p -> ToString_or_throw v = Returns (ToString v).
Proof. destruct v; simpl; intros H; try discriminate; reflexivity. Qed.

Lemma update_stats_returns (env : Env) (analysis cat : JsVal) (p : SqlValue) (w : World) :
  Get analysis (js "category") = Returns cat ->
  d1_bind cat = Returns p ->
  update_stats env analysis w =
  (Returns tt,
   with_DB w
     {| feedback_table := feedback_table (DB w);
        aggregated_stats_table :=
          upsert_stat (stat_type_unique env) (stat_key cat)
            (count_text (count_by_category p (feedback_table (DB w))))
            (aggregated_stats_table (DB w)) |}).
Proof.
  intros Hc Hp. unfold update_stats, bind, lift, read_DB, update_DB.
  rewrite Hc, Hp, (bound_converts cat p Hp). reflexivity.
Qed.

(** What step 2 has done when it returns. *)
Lemma store_feedback_returns (source content analysis : JsVal) (w w1 : World) :
  store_feedback source content analysis w = (Returns tt, w1) ->
  exists sentiment category urgency p1 p2 p3 p4 p5,
    Get analysis (js "sentiment") = Returns sentiment /\
    Get analysis (js "category") = Returns category /\
    Get analysis (js "urgency") = Returns urgency /\
    d1_bind source = Returns p1 /\ d1_bind content = Returns p2 /\
    d1_bind sentiment = Returns p3 /\ d1_bind category = Returns p4 /\
    d1_bind urgency = Returns p5 /\
    w1 = with_DB w
           {| feedback_table := insert_feedback p1 p2 p3 p4 p5 (feedback_table (DB w));
              aggregated_stats_table := aggregated_stats_table (DB w) |}.
Proof.
  unfold store_feedback, bind, lift, update_DB.
  destruct (Get analysis (js "sentiment")) as [sentiment| |] eqn:E1; try discriminate.
  destruct (Get analysis (js "category")) as [category| |] eqn:E2; try discriminate.
  destruct (Get analysis (js "urgency")) as [urgency| |] eqn:E3; try discriminate.
  destruct (d1_bind source) as [p1| |] eqn:B1; try discriminate.
  destruct (d1_bind content) as [p2| |] eqn:B2; try discriminate.
  destruct (d1_bind sentiment) as [p3| |] eqn:B3; try discriminate.
  destruct (d1_bind category) as [p4| |] eqn:B4; try discriminate.
  destruct (d1_bind urgency) as [p5| |] eqn:B5; try discriminate.
  intros H. inversion H; subst w1.
  exists sentiment, category, urgency, p1, p2, p3, p4, p5. repeat split; assumption.
Qed.

(** The count of a category goes up by one with a record of that category. *)
Lemma count_after_insert (c : jsstring) (p1 p2 p3 p5 : SqlValue) (rows : list feedback.row) :
  count_by_category (SqlText c) (insert_feedback p1 p2 p3 (SqlText c) p5 rows)
  = 1 + count_by_category (SqlText c) rows.
Proof.
  unfold count_by_category, insert_feedback. rewrite filter_app, length_app.
  cbn [filter feedback.category text_affinity sql_text_eq].
  rewrite jsstring_eqb_refl. cbn [List.length]. lia.
Qed.




(** C7.  Running step 3 a second time right after the first, with no
    record stored in between, returns again and leaves the world, and
    with it the count stored under the key, exactly as the first run
    left it. *)
Theorem update_stats_idempotent (env : Env) (analysis cat : JsVal) (p : SqlValue)
  (w : World) :
  Get analysis (js "category") = Returns cat ->
  d1_bind cat = Returns p ->
  exists w1,
    update_stats env analysis w = (Returns tt, w1) /\
    update_stats env analysis w1 = (Returns tt, w1) /\
    In (upsert_row (stat_key cat) (count_text (count_by_category p (feedback_of w)))
          (stats_of w))
       (stats_of w1).
Proof.
  intros Hc Hp. eexists. split; [apply (update_stats_returns env analysis cat p w Hc Hp)|].
  split.
  - rewrite (update_stats_returns env analysis cat p _ Hc Hp).
    unfold with_DB. cbn [DB feedback_table aggregated_stats_table instances step_log].
    rewrite upsert_stat_idempotent. reflexivity.
  - unfold stats_of, feedback_of, with_DB. cbn [DB aggregated_stats_table].
    apply upsert_stat_in. left. reflexivity.
Qed.

Lemma update_stats_idempotent_witness :
  exists w1,
    update_stats (env_replying urgent_bug_text) urgent_bug seeded_world = (Returns tt, w1) /\
    update_stats (env_replying urgent_bug_text) urgent_bug w1 = (Returns tt, w1) /\
    In {| aggregated_stats.id := 1;
          aggregated_stats.stat_type := Some (js "category_bug");
          aggregated_stats.stat_value := Some (json_text "{'count':2}") |}
       (stats_of w1).
Proof.
  exact (update_stats_idempotent (env_replying urgent_bug_text) urgent_bug
           (JStr (js "bug")) (SqlText (js "bug")) seeded_world eq_refl eq_refl).
Defined.

(** C9.  What step 3 stores under the key is the JSON text of the whole
    row the count query returned, [{"count":n}], not the bare number
    [n]: with three records of the category it is [{"count":3}]. *)
Theorem stat_value_is_row_json (env : Env) (analysis cat : JsVal) (p : SqlValue)
  (w : World) :
  Get analysis (js "category") = Returns cat ->
  d1_bind cat = Returns p ->
  exists w1 row,
    update_stats env analysis w = (Returns tt, w1) /\
    filter (fun r => Z.eqb (aggregated_stats.id r) (upsert_rowid (stat_key cat) (stats_of w)))
      (stats_of w1) = [row] /\
    aggregated_stats.stat_type row = Some (stat_key cat) /\
    aggregated_stats.stat_value row
      = JSON_stringify (count_by_category_first p (feedback_of w)) /\
    aggregated_stats.stat_value row
      = Some (json_text "{'count':" ++ Number_toString (count_by_category p (feedback_of w))
              ++ js "}") /\
    aggregated_stats.stat_value row
      <> Some (Number_toString (count_by_category p (feedback_of w))) /\
    (count_by_category p (feedback_of w) = 3 ->
     aggregated_stats.stat_value row = Some (json_text "{'count':3}")).
Proof.
  intros Hc Hp.
  exists (snd (update_stats env analysis w)).
  exists (upsert_row (stat_key cat) (count_text (count_by_category p (feedback_of w)))
            (stats_of w)).
  rewrite (update_stats_returns env analysis cat p w Hc Hp).
  unfold stats_of, feedback_of, with_DB. cbn [snd DB aggregated_stats_table].
  split; [reflexivity|]. split.
  - rewrite upsert_stat_unfold, !filter_app.
    cbn [filter upsert_row aggregated_stats.id]. rewrite Z.eqb_refl.
    rewrite !filter_none; [reflexivity| |]; intros r Hr; apply filter_In in Hr;
      destruct Hr as [Hr _]; apply upsert_kept_in in Hr; apply Z.eqb_neq; tauto.
  - repeat split.
    + cbn [upsert_row aggregated_stats.stat_value count_text].
      intros H. inversion H as [H']. symmetry in H'.
      exact (Number_toString_head _ _ H').
    + intros ->. reflexivity.
Qed.

Lemma stat_value_is_row_json_witness :
  exists w1 row,
    update_stats (env_replying urgent_bug_text) urgent_bug
      (snd (store_feedback (JStr (js "Discord")) (JStr x150) urgent_bug seeded_world))
    = (Returns tt, w1) /\
    filter (fun r => Z.eqb (aggregated_stats.id r) 1) (stats_of w1) = [row] /\
    aggregated_stats.stat_type row = Some (js "category_bug") /\
    aggregated_stats.stat_value row = Some (json_text "{'count':3}").
Proof.
  destruct (stat_value_is_row_json (env_replying urgent_bug_text) urgent_bug
              (JStr (js "bug")) (SqlText (js "bug"))
              (snd (store_feedback (JStr (js "Discord")) (JStr x150) urgent_bug
                      seeded_world))
              eq_refl eq_refl)
    as (w1 & row & H1 & H2 & H3 & _ & _ & _ & H7).
  exists w1, row. repeat split; [exact H1|exact H2|exact H3|apply H7; reflexivity].
Defined.

(* ===================================================================== *)
(** * The run as a whole *)
(* ===================================================================== *)

Section KeepsLog.

Context {A B : Type}.

Lemma keeps_log_lift (o : Outcome A) : keeps_log (lift o).
Proof. intros w. reflexivity. Qed.

Lemma keeps_log_ret (a : A) : keeps_log (ret a).
Proof. intros w. reflexivity. Qed.

Lemma keeps_log_external (r : Error + A) : keeps_log (external r).
Proof. intros w. reflexivity. Qed.

Lemma keeps_log_bind (m : M A) (k : A -> M B) :
  keeps_log m -> (forall a, keeps_log (k a)) -> keeps_log (bind m k).
Proof.
  intros Hm Hk w. unfold bind. specialize (Hm w).
  destruct (m w) as [[a|e|] w1]; simpl in *; try exact Hm.
  rewrite Hk. exact Hm.
Qed.

Lemma keeps_log_try_catch (body handler : M A) :
  keeps_log body -> keeps_log handler -> keeps_log (try_catch body handler).
Proof.
  intros Hb Hh w. unfold try_catch. specialize (Hb w).
  destruct (body w) as [[a|e|] w1]; simpl in *; try exact Hb.
  rewrite Hh. exact Hb.
Qed.

End KeepsLog.

Lemma keeps_log_update_DB (f : D1Database -> D1Database) : keeps_log (update_DB f).
Proof. intros w. reflexivity. Qed.

Lemma keeps_log_read_DB : keeps_log read_DB.
Proof. intros w. reflexivity. Qed.

Ltac keeps_log :=
  repeat first
    [ apply keeps_log_lift | apply keeps_log_ret | apply keeps_log_external
    | apply keeps_log_update_DB | apply keeps_log_read_DB
    | apply keeps_log_try_catch
    | apply keeps_log_bind; [|intros ?]
    | match goal with |- keeps_log (if ?b then _ else _) => destruct b end ].

Lemma keeps_log_analyze_feedback env source content :
  keeps_log (analyze_feedback env source content).
Proof. unfold analyze_feedback. keeps_log. Qed.

Lemma keeps_log_store_feedback source content analysis :
  keeps_log (store_feedback source content analysis).
Proof. unfold store_feedback. keeps_log. Qed.

Lemma keeps_log_update_stats env analysis : keeps_log (update_stats env analysis).
Proof. unfold update_stats. keeps_log. Qed.

Lemma keeps_log_check_urgency source content analysis :
  keeps_log (check_urgency source content analysis).
Proof. unfold check_urgency. keeps_log. Qed.

(** A step adds its name to the log, and nothing else. *)
Lemma step_do_log {A} (name : string) (m : M A) (w : World) :
  keeps_log m -> step_log (snd (step_do name m w)) = step_log w ++ [js name].
Proof. intros H. unfold step_do. rewrite H. reflexivity. Qed.

Lemma step_do_noted {A} (name : string) (m : M A) (w : World) :
  step_do name m w = m (noted name w).
Proof. reflexivity. Qed.

Lemma bind_returns {A B} (m : M A) (k : A -> M B) (w w' : World) (b : B) :
  bind m k w = (Returns b, w') ->
  exists a w1, m w = (Returns a, w1) /\ k a w1 = (Returns b, w').
Proof.
  unfold bind. destruct (m w) as [[a|e|] w1]; try discriminate.
  intros H. exists a, w1. split; [reflexivity|exact H].
Qed.

Lemma lift_returns {A} (o : Outcome A) (w w' : World) (a : A) :
  lift o w = (Returns a, w') -> o = Returns a /\ w' = w.
Proof. unfold lift. intros H. inversion H. split; reflexivity. Qed.

(** Whatever happens, the steps the host has noted by the end of a run
    are the first few of the four, in the order of the source, each
    once. *)
Lemma run_steps_prefix (env : Env) (payload : JsVal) (w : World) :
  exists k, step_log (snd (run env payload w)) = step_log w ++ firstn k four_steps.
Proof.
  unfold run.
  unfold bind at 1, lift at 1.
  destruct (Get payload (js "source")) as [source|e|];
    try (exists 0%nat; simpl; rewrite app_nil_r; reflexivity).
  unfold bind at 1, lift at 1.
  destruct (Get payload (js "content")) as [content|e|];
    try (exists 0%nat; simpl; rewrite app_nil_r; reflexivity).
  unfold bind at 1.
  pose proof (step_do_log "analyze-feedback" _ w
                (keeps_log_analyze_feedback env source content)) as L1.
  destruct (step_do "analyze-feedback" _ w) as [[analysis|e|] w1]; simpl in L1;
    try (exists 1%nat; simpl; rewrite L1; reflexivity).
  unfold bind at 1.
  pose proof (step_do_log "store-feedback" _ w1
                (keeps_log_store_feedback source content analysis)) as L2.
  destruct (step_do "store-feedback" _ w1) as [[[]|e|] w2]; simpl in L2;
    try (exists 2%nat; simpl; rewrite L2, L1, <- app_assoc; reflexivity).
  unfold bind at 1.
  pose proof (step_do_log "update-stats" _ w2
                (keeps_log_update_stats env analysis)) as L3.
  destruct (step_do "update-stats" _ w2) as [[[]|e|] w3]; simpl in L3;
    try (exists 3%nat; simpl; rewrite L3, L2, L1, <- !app_assoc; reflexivity).
  unfold bind at 1.
  pose proof (step_do_log "check-urgency" _ w3
                (keeps_log_check_urgency source content analysis)) as L4.
  destruct (step_do "check-urgency" _ w3) as [[alert|e|] w4]; simpl in L4;
    exists 4%nat; simpl; rewrite L4, L3, L2, L1, <- !app_assoc; reflexivity.
Qed.

(** C5, as amended.  The steps run one after the other in the order
    analyze-feedback, store-feedback, update-stats, check-urgency, each
    at most once and none out of turn; a run that completes has run all
    four, each on the world the one before left, and returns the
    object [{success: true, analysis, alert}] with the result of the
    first step under [analysis] and that of the fourth under [alert]. *)
Theorem run_sequence (env : Env) (payload : JsVal) (w : World) :
  (exists k, step_log (snd (run env payload w)) = step_log w ++ firstn k four_steps) /\
  (forall result w',
      run env payload w = (Returns result, w') ->
      exists source content analysis alert w1 w2 w3,
        Get payload (js "source") = Returns source /\
        Get payload (js "content") = Returns content /\
        analyze_feedback env source content (noted "analyze-feedback" w)
          = (Returns analysis, w1) /\
        store_feedback source content analysis (noted "store-feedback" w1)
          = (Returns tt, w2) /\
        update_stats env analysis (noted "update-stats" w2) = (Returns tt, w3) /\
        check_urgency source content analysis (noted "check-urgency" w3)
          = (Returns alert, w') /\
        step_log w' = step_log w ++ four_steps /\
        result = JObj [ (js "success", JBool true);
                        (js "analysis", analysis);
                        (js "alert", alert) ]).
Proof.
  split; [apply run_steps_prefix|].
  intros result w' H. unfold run in H.
  apply bind_returns in H. destruct H as (source & w0 & Hs & H).
  apply lift_returns in Hs. destruct Hs as [Hs ->].
  apply bind_returns in H. destruct H as (content & w0 & Hc & H).
  apply lift_returns in Hc. destruct Hc as [Hc ->].
  apply bind_returns in H. destruct H as (analysis & w1 & H1 & H).
  apply bind_returns in H. destruct H as ([] & w2 & H2 & H).
  apply bind_returns in H. destruct H as ([] & w3 & H3 & H).
  apply bind_returns in H. destruct H as (alert & w4 & H4 & H).
  unfold ret in H. inversion H; subst result w4. clear H.
  cbv beta in H1, H2, H3, H4.
  rewrite step_do_noted in H1. rewrite step_do_noted in H2.
  rewrite step_do_noted in H3. rewrite step_do_noted in H4.
  exists source, content, analysis, alert, w1, w2, w3.
  repeat (split; [assumption|]). split; [|reflexivity].
  pose proof (keeps_log_analyze_feedback env source content (noted "analyze-feedback" w))
    as L1. rewrite H1 in L1.
  pose proof (keeps_log_store_feedback source content analysis (noted "store-feedback" w1))
    as L2. rewrite H2 in L2.
  pose proof (keeps_log_update_stats env analysis (noted "update-stats" w2)) as L3.
  rewrite H3 in L3.
  pose proof (keeps_log_check_urgency source content analysis (noted "check-urgency" w3))
    as L4. rewrite H4 in L4.
  simpl in L1, L2, L3, L4. rewrite L4, L3, L2, L1, <- !app_assoc. reflexivity.
Qed.

Lemma scenario_run_returns : scenario_run = (Returns scenario_result, snd scenario_run).
Proof. vm_compute. reflexivity. Qed.

Lemma run_sequence_witness :
  exists source content analysis alert w1 w2 w3,
    Get (item (js "Discord") x150) (js "source") = Returns source /\
    Get (item (js "Discord") x150) (js "content") = Returns content /\
    analyze_feedback (env_replying urgent_bug_text) source content
      (noted "analyze-feedback" seeded_world) = (Returns analysis, w1) /\
    store_feedback source content analysis (noted "store-feedback" w1) = (Returns tt, w2) /\
    update_stats (env_replying urgent_bug_text) analysis (noted "update-stats" w2)
      = (Returns tt, w3) /\
    check_urgency source content analysis (noted "check-urgency" w3)
      = (Returns alert, snd scenario_run) /\
    step_log (snd scenario_run) = step_log seeded_world ++ four_steps /\
    scenario_result = JObj [ (js "success", JBool true);
                             (js "analysis", analysis);
                             (js "alert", alert) ].
Proof.
  apply (proj2 (run_sequence (env_replying urgent_bug_text) (item (js "Discord") x150)
                  seeded_world) scenario_result (snd scenario_run)).
  vm_compute. reflexivity.
Defined.

(** C5 as stated fails: the object a completed run returns has the
    classification under [analysis]; no property is called
    [classification]. *)
Lemma run_as_specified_counterexample :
  ~ run_as_specified (env_replying urgent_bug_text) (item (js "Discord") x150) seeded_world.
Proof.
  intros H.
  destruct (H scenario_result (snd scenario_run) scenario_run_returns)
    as (_ & classification & alert & Hshape).
  apply (f_equal (fun v => Get v (js "analysis"))) in Hshape.
  vm_compute in Hshape. discriminate.
Qed.

(* ===================================================================== *)
(** * The integrity of the aggregate table is an invariant *)
(* ===================================================================== *)

Lemma analyze_feedback_world (env : Env) (source content : JsVal) (w : World) :
  snd (analyze_feedback env source content w) = w.
Proof.
  rewrite analyze_feedback_cases.
  destruct (stringable source && stringable content); [|reflexivity].
  destruct (AI_run env MODEL _) as [e|response]; [reflexivity|].
  destruct (parsed_reply response); reflexivity.
Qed.

Lemma check_urgency_world (source content analysis : JsVal) (w : World) :
  snd (check_urgency source content analysis w) = w.
Proof.
  unfold check_urgency, bind, lift, ret.
  destruct (Get analysis (js "urgency")) as [u| |]; try reflexivity.
  destruct (strict_eq_string u (js "high")); [|reflexivity].
  destruct (Get analysis (js "category")) as [c| |]; try reflexivity.
  destruct (ToString_or_throw c); try reflexivity.
  destruct (ToString_or_throw source); try reflexivity.
  destruct (substring_call content 100); reflexivity.
Qed.

(** Step 2 does not touch the aggregate table. *)
Lemma store_feedback_stats (source content analysis : JsVal) (w : World) :
  stats_of (snd (store_feedback source content analysis w)) = stats_of w.
Proof.
  unfold store_feedback, bind, lift, update_DB.
  destruct (Get analysis (js "sentiment")) as [sentiment| |]; try reflexivity.
  destruct (Get analysis (js "category")) as [category| |]; try reflexivity.
  destruct (Get analysis (js "urgency")) as [urgency| |]; try reflexivity.
  destruct (d1_bind source) as [p1| |]; try reflexivity.
  destruct (d1_bind content) as [p2| |]; try reflexivity.
  destruct (d1_bind sentiment) as [p3| |]; try reflexivity.
  destruct (d1_bind category) as [p4| |]; try reflexivity.
  destruct (d1_bind urgency) as [p5| |]; reflexivity.
Qed.

(** Step 3 keeps the aggregate table well formed, whether it returns or
    throws. *)
Lemma update_stats_well_formed (env : Env) (analysis : JsVal) (w : World) :
  stats_well_formed (stats_of w) ->
  stats_well_formed (stats_of (snd (update_stats env analysis w))).
Proof.
  intros Hwf.
  destruct (Get analysis (js "category")) as [cat|e|] eqn:Hc.
  - destruct (d1_bind cat) as [p|e|] eqn:Hp.
    + rewrite (update_stats_returns env analysis cat p w Hc Hp).
      apply (upsert_stat_well_formed _ _ _ _ Hwf).
    + unfold update_stats, bind, lift. rewrite Hc, Hp. exact Hwf.
    + unfold update_stats, bind, lift. rewrite Hc, Hp. exact Hwf.
  - unfold update_stats, bind, lift. rewrite Hc. exact Hwf.
  - unfold update_stats, bind, lift. rewrite Hc. exact Hwf.
Qed.

(** A run, however it ends, leaves the aggregate table well formed: the
    tables the workflow builds from an empty store have at most one row
    per key. *)
Lemma run_stats_well_formed (env : Env) (payload : JsVal) (w : World) :
  stats_well_formed (stats_of w) ->
  stats_well_formed (stats_of (snd (run env payload w))).
Proof.
  intros Hwf. unfold run.
  unfold bind at 1, lift at 1.
  destruct (Get payload (js "source")) as [source|e|]; try exact Hwf.
  unfold bind at 1, lift at 1.
  destruct (Get payload (js "content")) as [content|e|]; try exact Hwf.
  unfold bind at 1. rewrite step_do_noted.
  pose proof (analyze_feedback_world env source content (noted "analyze-feedback" w)) as W1.
  destruct (analyze_feedback env source content _) as [[analysis|e|] w1];
    simpl in W1; subst w1; try exact Hwf.
  unfold bind at 1. rewrite step_do_noted.
  pose proof (store_feedback_stats source content analysis
                (noted "store-feedback" (noted "analyze-feedback" w))) as W2.
  destruct (store_feedback source content analysis _) as [[[]|e|] w2];
    simpl in W2; try (unfold stats_of in *; simpl in *; rewrite W2; exact Hwf).
  unfold bind at 1. rewrite step_do_noted.
  pose proof (update_stats_well_formed env analysis (noted "update-stats" w2)) as W3.
  assert (Hwf2 : stats_well_formed (stats_of (noted "update-stats" w2)))
    by (unfold stats_of in *; simpl in *; rewrite W2; exact Hwf).
  specialize (W3 Hwf2).
  destruct (update_stats env analysis _) as [[[]|e|] w3]; simpl in W3; try exact W3.
  unfold bind at 1. rewrite step_do_noted.
  pose proof (check_urgency_world source content analysis (noted "check-urgency" w3)) as W4.
  destruct (check_urgency source content analysis _) as [[alert|e|] w4];
    simpl in W4; subst w4; exact W3.
Qed.

(* ===================================================================== *)
(** * [POST /api/feedback] *)
(* ===================================================================== *)

Lemma is_submit_not_options (req : Request) :
  is_submit req = true -> jsstring_eqb (method req) (js "OPTIONS") = false.
Proof.
  unfold is_submit. intros H. apply andb_true_iff in H. destruct H as [_ H].
  apply jsstring_eqb_eq in H. rewrite H. reflexivity.
Qed.

(** All the ways a submission can end. *)
Lemma fetch_submit_cases (env : Env) (req : Request) (w : World) :
  is_submit req = true ->
  fetch env req w =
  match request_json req with
  | Returns payload =>
      match MY_WORKFLOW_create env (instances w) (JObj [(js "params", payload)]) with
      | inr new_id => (Returns (feedback_accepted new_id), with_instance w new_id payload)
      | inl _ => (Returns invalid_request_body, w)
      end
  | Throws _ => (Returns invalid_request_body, w)
  | Unmodelled => (Unmodelled, w)
  end.
Proof.
  intros Hs. unfold fetch. rewrite (is_submit_not_options req Hs), Hs.
  unfold submit_feedback, try_catch, bind, lift, create_instance, ret.
  destruct (request_json req) as [payload|e|]; try reflexivity.
  destruct (MY_WORKFLOW_create env (instances w) _) as [e|new_id]; reflexivity.
Qed.

(** C8, as amended.  A body that is not JSON is answered with status 400
    and the body [{"error":"Invalid request body"}], and the world is
    left as it was: no record, no instance.  A body that is JSON is
    handed to the workflow host: when the host returns an instance, the
    answer is [{"success":true,"workflowId":id}] with the id of that
    instance, and the store is untouched; when the host throws, the
    answer is the same 400. *)
Theorem submit_feedback_responses (env : Env) (req : Request) (w : World) :
  is_submit req = true ->
  (forall e, request_json req = Throws e ->
     fetch env req w = (Returns invalid_request_body, w) /\
     status invalid_request_body = 400 /\
     body invalid_request_body = Some (json_text "{'error':'Invalid request body'}")) /\
  (forall payload workflowId,
     request_json req = Returns payload ->
     MY_WORKFLOW_create env (instances w) (JObj [(js "params", payload)]) = inr workflowId ->
     fetch env req w
       = (Returns (feedback_accepted workflowId), with_instance w workflowId payload) /\
     DB (with_instance w workflowId payload) = DB w /\
     body (feedback_accepted workflowId)
       = JSON_stringify (JObj [ (js "success", JBool true);
                                (js "workflowId", JStr workflowId) ])) /\
  (forall payload e,
     request_json req = Returns payload ->
     MY_WORKFLOW_create env (instances w) (JObj [(js "params", payload)]) = inl e ->
     fetch env req w = (Returns invalid_request_body, w)).
Proof.
  intros Hs. rewrite (fetch_submit_cases env req w Hs). split; [|split].
  - intros e ->. repeat split.
  - intros payload workflowId -> ->. repeat split.
  - intros payload e -> ->. reflexivity.
Qed.

Lemma submit_feedback_responses_witness :
  fetch (env_replying urgent_bug_text) (post_feedback (js "not json")) seeded_world
  = (Returns invalid_request_body, seeded_world)
  /\ fetch (env_replying urgent_bug_text)
       (post_feedback (json_text "{'source':'Discord','content':'slow'}")) seeded_world
     = (Returns (feedback_accepted (js "run-0")),
        with_instance seeded_world (js "run-0") (item (js "Discord") (js "slow"))).
Proof.
  split.
  - apply (proj1 (submit_feedback_responses (env_replying urgent_bug_text)
                    (post_feedback (js "not json")) seeded_world eq_refl) SyntaxError).
    vm_compute. reflexivity.
  - apply (proj1 (proj2 (submit_feedback_responses (env_replying urgent_bug_text)
                           (post_feedback
                              (json_text "{'source':'Discord','content':'slow'}"))
                           seeded_world eq_refl))
             (item (js "Discord") (js "slow")) (js "run-0")).
    + vm_compute. reflexivity.
    + reflexivity.
Defined.

(** C8 as stated fails: a body that is JSON is still answered with 400
    when the workflow host throws. *)
Lemma submission_as_specified_counterexample :
  ~ submission_as_specified env_host_down (post_feedback (js "{}")) seeded_world.
Proof.
  intros [_ H].
  assert (P : request_json (post_feedback (js "{}")) = Returns (JObj []))
    by (vm_compute; reflexivity).
  destruct (H (JObj []) P) as (workflowId & Hw).
  rewrite (fetch_submit_cases env_host_down (post_feedback (js "{}")) seeded_world eq_refl),
    P in Hw.
  simpl in Hw. inversion Hw.
Qed.

(** The answers of the route and the instance it registers, written
    out. *)
Lemma feedback_accepted_written_out (new_id : jsstring) :
  feedback_accepted new_id
  = {| status := 200;
       headers := [ (js "Access-Control-Allow-Origin", js "*");
                    (js "Access-Control-Allow-Methods", js "GET, POST, OPTIONS");
                    (js "Access-Control-Allow-Headers", js "Content-Type");
                    (js "content-type", js "application/json") ];
       body := Some (json_text "{'success':true,'workflowId':"
                     ++ QuoteJSONString new_id ++ js "}") |}.
Proof.
  unfold feedback_accepted, Response_json, QuoteJSONString. cbn.
  rewrite <- !app_assoc. reflexivity.
Qed.

Lemma invalid_request_body_written_out :
  invalid_request_body
  = {| status := 400;
       headers := [ (js "Access-Control-Allow-Origin", js "*");
                    (js "Access-Control-Allow-Methods", js "GET, POST, OPTIONS");
                    (js "Access-Control-Allow-Headers", js "Content-Type");
                    (js "content-type", js "application/json") ];
       body := Some (json_text "{'error':'Invalid request body'}") |}.
Proof. reflexivity. Qed.

(** C10.  The submission route checks nothing about the parsed body: it
    is handed to the workflow host as it is, and the answer depends on
    the host alone.  When the host creates the instance, a run is
    registered, with the parsed body as its params and after the
    instances that were there, and the answer is 200 with the body
    [{"success":true,"workflowId":id}]; nothing else in the world
    changes.  The 400 answer, [{"error":"Invalid request body"}], is
    given exactly when parsing the body throws or creating the
    instance throws, and then nothing is registered.  The bodies [{}],
    [null] and one with empty or missing fields all parse, and are
    accepted by a host that creates the instance. *)
Theorem submission_not_validated (env : Env) (req : Request) (w : World) :
  is_submit req = true ->
  (forall payload new_id,
     request_json req = Returns payload ->
     MY_WORKFLOW_create env (instances w) (JObj [(js "params", payload)]) = inr new_id ->
     fetch env req w
     = (Returns {| status := 200;
                   headers := [ (js "Access-Control-Allow-Origin", js "*");
                                (js "Access-Control-Allow-Methods", js "GET, POST, OPTIONS");
                                (js "Access-Control-Allow-Headers", js "Content-Type");
                                (js "content-type", js "application/json") ];
                   body := Some (json_text "{'success':true,'workflowId':"
                                 ++ QuoteJSONString new_id ++ js "}") |},
        {| DB := DB w;
           instances := instances w ++ [ {| instance_id := new_id;
                                            instance_params := payload |} ];
           step_log := step_log w |})) /\
  ((exists e, request_json req = Throws e) \/
   (exists payload e,
       request_json req = Returns payload /\
       MY_WORKFLOW_create env (instances w) (JObj [(js "params", payload)]) = inl e) ->
   fetch env req w
   = (Returns {| status := 400;
                 headers := [ (js "Access-Control-Allow-Origin", js "*");
                              (js "Access-Control-Allow-Methods", js "GET, POST, OPTIONS");
                              (js "Access-Control-Allow-Headers", js "Content-Type");
                              (js "content-type", js "application/json") ];
                 body := Some (json_text "{'error':'Invalid request body'}") |}, w)) /\
  (forall r, fst (fetch env req w) = Returns r -> status r = 400 ->
     (exists e, request_json req = Throws e) \/
     (exists payload e,
         request_json req = Returns payload /\
         MY_WORKFLOW_create env (instances w) (JObj [(js "params", payload)]) = inl e)) /\
  (forall body payload,
     In (body, payload)
        [ (js "{}", JObj []);
          (js "null", JNull);
          (json_text "{'source':'','content':''}", item [] []);
          (json_text "{'content':'only'}", JObj [(js "content", JStr (js "only"))]) ] ->
     request_json (post_feedback body) = Returns payload /\
     fetch (env_replying (js "{}")) (post_feedback body) w
     = (Returns {| status := 200;
                   headers := [ (js "Access-Control-Allow-Origin", js "*");
                                (js "Access-Control-Allow-Methods", js "GET, POST, OPTIONS");
                                (js "Access-Control-Allow-Headers", js "Content-Type");
                                (js "content-type", js "application/json") ];
                   body := Some (json_text "{'success':true,'workflowId':"
                                 ++ QuoteJSONString
                                      (js "run-" ++ Number_toString
                                                      (Z.of_nat (List.length (instances w))))
                                 ++ js "}") |},
        {| DB := DB w;
           instances :=
             instances w
             ++ [ {| instance_id :=
                       js "run-" ++ Number_toString (Z.of_nat (List.length (instances w)));
                     instance_params := payload |} ];
           step_log := step_log w |})).
Proof.
  intros Hs. rewrite (fetch_submit_cases env req w Hs).
  split; [|split; [|split]].
  - intros payload new_id -> ->. rewrite feedback_accepted_written_out. reflexivity.
  - intros [(e & ->)|(payload & e & -> & ->)]; reflexivity.
  - intros r. destruct (request_json req) as [payload|e|] eqn:Hp.
    + destruct (MY_WORKFLOW_create env (instances w) _) as [e|new_id] eqn:Hcr.
      * intros _ _. right. exists payload, e. split; [reflexivity|exact Hcr].
      * cbn [fst]. intros H. inversion H; subst r. cbn [feedback_accepted Response_json status].
        discriminate.
    + intros _ _. left. exists e. reflexivity.
    + discriminate.
  - intros body payload Hin.
    assert (Hp : request_json (post_feedback body) = Returns payload).
    { simpl in Hin.
      destruct Hin as [H|[H|[H|[H|[]]]]]; inversion H; subst; vm_compute; reflexivity. }
    split; [exact Hp|].
    rewrite (fetch_submit_cases (env_replying (js "{}")) (post_feedback body) w eq_refl), Hp.
    change (MY_WORKFLOW_create (env_replying (js "{}")) (instances w)
              (JObj [(js "params", payload)]))
      with (@inr Error jsstring
              (js "run-" ++ Number_toString (Z.of_nat (List.length (instances w))))).
    cbv iota. rewrite feedback_accepted_written_out. reflexivity.
Qed.

Lemma submission_not_validated_witness :
  fetch (env_replying (js "{}")) (post_feedback (js "null")) seeded_world
  = (Returns {| status := 200;
                headers := [ (js "Access-Control-Allow-Origin", js "*");
                             (js "Access-Control-Allow-Methods", js "GET, POST, OPTIONS");
                             (js "Access-Control-Allow-Headers", js "Content-Type");
                             (js "content-type", js "application/json") ];
                body := Some (json_text "{'success':true,'workflowId':"
                              ++ QuoteJSONString (js "run-0") ++ js "}") |},
     {| DB := DB seeded_world;
        instances := instances seeded_world
                     ++ [ {| instance_id := js "run-0"; instance_params := JNull |} ];
        step_log := step_log seeded_world |}).
Proof.
  apply (proj1 (submission_not_validated (env_replying (js "{}"))
                  (post_feedback (js "null")) seeded_world eq_refl) JNull (js "run-0")).
  - vm_compute. reflexivity.
  - reflexivity.
Defined.

(* ===================================================================== *)
(** * The order of texts *)
(* ===================================================================== *)

Lemma units_compare_refl (a : list N) : units_compare a a = Eq.
Proof. induction a as [|x a IH]; simpl; [reflexivity|]. rewrite N.compare_refl. exact IH. Qed.

Lemma units_compare_eq (a b : list N) : units_compare a b = Eq -> a = b.
Proof.
  revert b. induction a as [|x a IH]; intros [|y b]; simpl; try discriminate; [reflexivity|].
  destruct (N.compare x y) eqn:E; try discriminate.
  apply N.compare_eq in E. intros H. f_equal; [exact E|apply IH; exact H].
Qed.

Lemma units_compare_antisym (a b : list N) :
  units_compare b a = CompOpp (units_compare a b).
Proof.
  revert b. induction a as [|x a IH]; intros [|y b]; simpl; try reflexivity.
  rewrite (N.compare_antisym x y). destruct (N.compare x y); simpl; auto.
Qed.

Lemma units_compare_trans (c : comparison) (a b d : list N) :
  c <> Eq ->
  units_compare a b = c -> units_compare b d = c -> units_compare a d = c.
Proof.
  intros Hc. revert b d. induction a as [|x a IH]; intros [|y b] [|z d]; simpl;
    try congruence.
  destruct (N.compare x y) eqn:Exy, (N.compare y z) eqn:Eyz;
    try (apply N.compare_eq in Exy; subst y);
    try (apply N.compare_eq in Eyz; subst z);
    try rewrite Exy; try rewrite Eyz; try rewrite N.compare_refl; try congruence.
  - apply IH.
  - intros <- _. rewrite N.compare_lt_iff in Exy, Eyz.
    replace (N.compare x z) with Lt; [reflexivity|].
    symmetry. apply N.compare_lt_iff. lia.
  - intros <- _. rewrite N.compare_gt_iff in Exy, Eyz.
    replace (N.compare x z) with Gt; [reflexivity|].
    symmetry. apply N.compare_gt_iff. lia.
Qed.

(** The code points of a text give its units back, so two texts with
    the same code points are the same text. *)
Lemma code_points_units (n : nat) :
  forall s, (List.length s <= n)%nat ->
  flat_map units_of_code_point (code_points s) = s.
Proof.
  induction n as [|n IH]; intros s Hlen.
  { destruct s; [reflexivity|simpl in Hlen; lia]. }
  destruct s as [|c r]; [reflexivity|]. cbn [List.length] in Hlen.
  assert (IHr : flat_map units_of_code_point (code_points r) = r) by (apply IH; lia).
  cbn [code_points].
  assert (Hunit : forall t, (c < 65536)%N ->
                            flat_map units_of_code_point (c :: t)
                            = c :: flat_map units_of_code_point t).
  { intros t Hc. cbn [flat_map]. unfold units_of_code_point at 1.
    replace (N.ltb c 65536) with true by (symmetry; apply N.ltb_lt; exact Hc).
    reflexivity. }
  destruct (is_high_surrogate c) eqn:Eh.
  - unfold is_high_surrogate in Eh. apply andb_true_iff in Eh.
    destruct Eh as [Eh1 Eh2]. apply N.leb_le in Eh1, Eh2.
    destruct r as [|c2 r2]; [rewrite Hunit by lia; reflexivity|].
    destruct (is_low_surrogate c2) eqn:El.
    + unfold is_low_surrogate in El. apply andb_true_iff in El.
      destruct El as [El1 El2]. apply N.leb_le in El1, El2.
      cbn [flat_map]. rewrite IH by (cbn [List.length] in Hlen; lia).
      unfold units_of_code_point.
      replace (N.ltb (65536 + (c - 55296) * 1024 + (c2 - 56320)) 65536) with false
        by (symmetry; apply N.ltb_ge; lia).
      replace (N.ltb (65536 + (c - 55296) * 1024 + (c2 - 56320)) 1114112) with true
        by (symmetry; apply N.ltb_lt; lia).
      cbn [app]. f_equal; [|f_equal].
      * zify. Z.to_euclidean_division_equations. lia.
      * zify. Z.to_euclidean_division_equations. lia.
    + rewrite Hunit by lia. rewrite IHr. reflexivity.
  - destruct (N.ltb c 65536) eqn:Ec.
    + apply N.ltb_lt in Ec. rewrite Hunit by exact Ec. rewrite IHr. reflexivity.
    + apply N.ltb_ge in Ec. cbn [flat_map]. rewrite IHr. unfold units_of_code_point.
      replace (N.ltb (c + 1048576) 65536) with false by (symmetry; apply N.ltb_ge; lia).
      replace (N.ltb (c + 1048576) 1114112) with false by (symmetry; apply N.ltb_ge; lia).
      cbn [app]. f_equal. lia.
Qed.

Lemma code_points_inj (a b : jsstring) : code_points a = code_points b -> a = b.
Proof.
  intros H.
  rewrite <- (code_points_units (List.length a) a (le_n _)),
          <- (code_points_units (List.length b) b (le_n _)), H.
  reflexivity.
Qed.

Lemma jsstring_compare_refl (a : jsstring) : jsstring_compare a a = Eq.
Proof. apply units_compare_refl. Qed.

Lemma jsstring_compare_eq (a b : jsstring) : jsstring_compare a b = Eq -> a = b.
Proof. intros H. apply code_points_inj, units_compare_eq, H. Qed.

Lemma jsstring_compare_antisym (a b : jsstring) :
  jsstring_compare b a = CompOpp (jsstring_compare a b).
Proof. apply units_compare_antisym. Qed.

Lemma jsstring_compare_trans (c : comparison) (a b d : jsstring) :
  c <> Eq ->
  jsstring_compare a b = c -> jsstring_compare b d = c -> jsstring_compare a d = c.
Proof. apply units_compare_trans. Qed.

(** Where the two orders part: the text of U+FF5E comes before the text
    of U+1F600, whose first unit is smaller. *)
Example jsstring_compare_code_points :
  jsstring_compare [65374%N] [55357%N; 56832%N] = Lt /\
  units_compare [65374%N] [55357%N; 56832%N] = Gt /\
  jsstring_compare [55357%N] [65374%N] = Lt /\
  jsstring_compare (js "2025-01-01 00:00:01") (js "2025-01-01 00:00:02") = Lt.
Proof. repeat split. Qed.

Lemma jsstring_leb_total (a b : jsstring) :
  jsstring_leb a b = false -> jsstring_leb b a = true.
Proof.
  unfold jsstring_leb. rewrite (jsstring_compare_antisym a b).
  destruct (jsstring_compare a b); simpl; congruence.
Qed.

Lemma jsstring_leb_trans (a b d : jsstring) :
  jsstring_leb a b = true -> jsstring_leb b d = true -> jsstring_leb a d = true.
Proof.
  unfold jsstring_leb.
  destruct (jsstring_compare a b) eqn:Eab; try discriminate;
    destruct (jsstring_compare b d) eqn:Ebd; try discriminate; intros _ _.
  - apply jsstring_compare_eq in Eab, Ebd. subst. rewrite jsstring_compare_refl. reflexivity.
  - apply jsstring_compare_eq in Eab. subst. rewrite Ebd. reflexivity.
  - apply jsstring_compare_eq in Ebd. subst. rewrite Eab. reflexivity.
  - rewrite (jsstring_compare_trans Lt a b d); [reflexivity|discriminate|assumption|assumption].
Qed.





(* ===================================================================== *)
(** * [GET /api/feedback]: the newest fifty *)
(* ===================================================================== *)

Section RecentFeedback.

Variable created_at : Z -> jsstring.

Lemma insert_by_created_at_permutation (r : feedback.row) (l : list feedback.row) :
  Permutation (insert_by_created_at created_at r l) (r :: l).
Proof.
  induction l as [|x l IH]; simpl; [reflexivity|].
  destruct (jsstring_leb _ _); [reflexivity|].
  rewrite IH. apply perm_swap.
Qed.

Lemma order_by_created_at_desc_permutation (rows : list feedback.row) :
  Permutation (order_by_created_at_desc created_at rows) rows.
Proof.
  induction rows as [|r rows IH]; simpl; [reflexivity|].
  rewrite insert_by_created_at_permutation. constructor. exact IH.
Qed.

Lemma insert_by_created_at_sorted (r : feedback.row) (l : list feedback.row) :
  StronglySorted (not_newer created_at) l ->
  StronglySorted (not_newer created_at) (insert_by_created_at created_at r l).
Proof.
  induction 1 as [|x l Hs IH Hx]; simpl.
  - repeat constructor.
  - destruct (jsstring_leb (created_at (feedback.id x)) (created_at (feedback.id r))) eqn:E.
    + constructor; [constructor; assumption|].
      constructor; [exact E|].
      rewrite Forall_forall in Hx |- *. intros y Hy. unfold not_newer in *.
      eapply jsstring_leb_trans; [apply Hx; exact Hy|exact E].
    + constructor; [exact IH|].
      rewrite Forall_forall in Hx |- *. intros y Hy.
      apply (Permutation_in _ (insert_by_created_at_permutation r l)) in Hy.
      destruct Hy as [<-|Hy]; [|apply Hx; exact Hy].
      unfold not_newer. apply jsstring_leb_total. exact E.
Qed.

Lemma order_by_created_at_desc_sorted (rows : list feedback.row) :
  StronglySorted (not_newer created_at) (order_by_created_at_desc created_at rows).
Proof.
  induction rows as [|r rows IH]; simpl; [constructor|].
  apply insert_by_created_at_sorted. exact IH.
Qed.

Lemma StronglySorted_app_inv {A} (R : A -> A -> Prop) (l1 l2 : list A) :
  StronglySorted R (l1 ++ l2) ->
  StronglySorted R l1 /\ forall a b, In a l1 -> In b l2 -> R a b.
Proof.
  induction l1 as [|x l1 IH]; simpl; intros H.
  - split; [constructor|intros a b []].
  - inversion H as [|? ? Hs Hx]; subst. destruct (IH Hs) as [IH1 IH2]. split.
    + constructor; [exact IH1|].
      rewrite Forall_forall in Hx |- *. intros y Hy. apply Hx. apply in_or_app. left. exact Hy.
    + intros a b [<-|Ha] Hb.
      * rewrite Forall_forall in Hx. apply Hx. apply in_or_app. right. exact Hb.
      * apply IH2; assumption.
Qed.

End RecentFeedback.

Lemma is_route_true (req : Request) (path verb : string) :
  is_route req path verb = true <-> pathname req = js path /\ method req = js verb.
Proof.
  unfold is_route. rewrite andb_true_iff, !jsstring_eqb_eq. reflexivity.
Qed.

Lemma fetch_get_feedback (env : Env) (created_at : Z -> jsstring) (req : Request) (w : World) :
  method req = js "GET" -> pathname req = js "/api/feedback" ->
  Worker.fetch env created_at req w
  = (Returns (Response_json
                (JArr (List.map (feedback_object created_at)
                         (select_recent_feedback created_at (feedback_of w))))
                200 corsHeaders), w).
Proof.
  intros Hm Hp. unfold Worker.fetch, is_route. rewrite Hm, Hp.
  change (jsstring_eqb (js "GET") (js "OPTIONS")) with false.
  change (jsstring_eqb (js "GET") (js "POST")) with false.
  rewrite !jsstring_eqb_refl. reflexivity.
Qed.


(** X1.  [GET /api/feedback] answers 200 with the JSON text of a list of
    records of the store and leaves the world as it was.  The list has
    fifty records, or all of them when the store has fewer; it runs
    from the newest to the oldest; every record of the store is either
    listed or left out, none twice, and no record left out was filed
    after a listed one. *)
Theorem get_feedback_newest_fifty (env : Env) (created_at : Z -> jsstring)
  (req : Request) (w : World) :
  method req = js "GET" -> pathname req = js "/api/feedback" ->
  exists listed rest,
    Worker.fetch env created_at req w
    = (Returns (Response_json (JArr (List.map (feedback_object created_at) listed))
                  200 corsHeaders), w) /\
    List.length listed = Nat.min 50 (List.length (feedback_of w)) /\
    StronglySorted (not_newer created_at) listed /\
    Permutation (listed ++ rest) (feedback_of w) /\
    (forall a b, In a listed -> In b rest -> not_newer created_at a b).
Proof.
  intros Hm Hp.
  exists (select_recent_feedback created_at (feedback_of w)),
         (skipn 50 (order_by_created_at_desc created_at (feedback_of w))).
  pose proof (order_by_created_at_desc_sorted created_at (feedback_of w)) as Hs.
  pose proof (order_by_created_at_desc_permutation created_at (feedback_of w)) as Hperm.
  unfold select_recent_feedback.
  rewrite <- (firstn_skipn 50 (order_by_created_at_desc created_at (feedback_of w))) in Hs.
  apply StronglySorted_app_inv in Hs. destruct Hs as [Hs1 Hs2].
  split; [apply fetch_get_feedback; assumption|].
  split; [rewrite length_firstn, (Permutation_length Hperm); reflexivity|].
  split; [exact Hs1|].
  split; [rewrite firstn_skipn; exact Hperm|exact Hs2].
Qed.

Lemma get_feedback_newest_fifty_witness :
  exists listed rest,
    Worker.fetch env_host_down filed_at (request "GET" "/api/feedback") seeded_world
    = (Returns (Response_json (JArr (List.map (feedback_object filed_at) listed))
                  200 corsHeaders), seeded_world) /\
    List.length listed = Nat.min 50 (List.length (feedback_of seeded_world)) /\
    StronglySorted (not_newer filed_at) listed /\
    Permutation (listed ++ rest) (feedback_of seeded_world) /\
    (forall a b, In a listed -> In b rest -> not_newer filed_at a b).
Proof.
  apply (get_feedback_newest_fifty env_host_down filed_at (request "GET" "/api/feedback")
           seeded_world); reflexivity.
Defined.

(* ===================================================================== *)
(** * [GET /api/stats]: the three breakdowns *)
(* ===================================================================== *)

Section Groups.

Variable column : feedback.row -> option jsstring.













End Groups.

(** The groups come in the order of the bytes of their texts in UTF-8,
    which is that of their code points, not of their UTF-16 units. *)
Example group_keys_order :
  group_keys feedback.category
    (insert_feedback SqlNull SqlNull SqlNull (SqlText [65374%N]) SqlNull
       (insert_feedback SqlNull SqlNull SqlNull SqlNull SqlNull
          (insert_feedback SqlNull SqlNull SqlNull (SqlText [55357%N; 56832%N]) SqlNull [])))
  = [None; Some [65374%N]; Some [55357%N; 56832%N]].
Proof. reflexivity. Qed.




(* ===================================================================== *)
(** * [fetch] as a whole *)
(* ===================================================================== *)

Lemma submit_feedback_cases (env : Env) (req : Request) (w : World) :
  submit_feedback env req w =
  match request_json req with
  | Returns payload =>
      match MY_WORKFLOW_create env (instances w) (JObj [(js "params", payload)]) with
      | inr new_id => (Returns (feedback_accepted new_id), with_instance w new_id payload)
      | inl _ => (Returns invalid_request_body, w)
      end
  | Throws _ => (Returns invalid_request_body, w)
  | Unmodelled => (Unmodelled, w)
  end.
Proof.
  unfold submit_feedback, try_catch, bind, lift, create_instance, ret.
  destruct (request_json req) as [payload|e|]; try reflexivity.
  destruct (MY_WORKFLOW_create env (instances w) _) as [e|new_id]; reflexivity.
Qed.

(** On the requests that the development of the claims covers,
    [Worker.fetch] is the [fetch] of that development. *)
Lemma Worker_fetch_extends_fetch (env : Env) (created_at : Z -> jsstring)
  (req : Request) (w : World) :
  jsstring_eqb (method req) (js "OPTIONS") = true \/ is_submit req = true ->
  Worker.fetch env created_at req w = fetch env req w.
Proof.
  unfold Worker.fetch, fetch. fold (is_submit req).
  change (is_route req "/api/feedback" "POST") with (is_submit req).
  intros [H|H].
  - rewrite H. reflexivity.
  - rewrite (is_submit_not_options req H), H. reflexivity.
Qed.

(** The six ways through [fetch]. *)
Lemma Worker_fetch_cases (env : Env) (created_at : Z -> jsstring)
  (req : Request) (w : World) :
  (method req = js "OPTIONS" /\
   Worker.fetch env created_at req w
   = (Returns {| status := 200; headers := corsHeaders; body := None |}, w)) \/
  (method req <> js "OPTIONS" /\
   ((is_route req "/api/feedback" "POST" = true /\
     Worker.fetch env created_at req w = submit_feedback env req w) \/
    (is_route req "/api/feedback" "GET" = true /\
     Worker.fetch env created_at req w
     = (Returns (Response_json
                   (JArr (List.map (feedback_object created_at)
                            (select_recent_feedback created_at (feedback_of w))))
                   200 corsHeaders), w)) \/
    (is_route req "/api/stats" "GET" = true /\
     Worker.fetch env created_at req w
     = (Returns (Response_json (stats_object (feedback_of w)) 200 corsHeaders), w)) \/
    (is_route req "/" "GET" = true /\
     Worker.fetch env created_at req w
     = (Returns {| status := 200;
                   headers := (js "Content-Type", js "text/html") :: corsHeaders;
                   body := Some getDashboardHTML |}, w)) \/
    (is_route req "/api/feedback" "POST" = false /\
     is_route req "/api/feedback" "GET" = false /\
     is_route req "/api/stats" "GET" = false /\
     is_route req "/" "GET" = false /\
     Worker.fetch env created_at req w
     = (Returns (Response_text (js "Not Found") 404 corsHeaders), w)))).
Proof.
  unfold Worker.fetch.
  destruct (jsstring_eqb (method req) (js "OPTIONS")) eqn:Eo.
  { left. apply jsstring_eqb_eq in Eo. auto. }
  right. split.
  { intros H. rewrite H in Eo. discriminate. }
  destruct (is_route req "/api/feedback" "POST"); [left; auto|].
  destruct (is_route req "/api/feedback" "GET"); [right; left; auto|].
  destruct (is_route req "/api/stats" "GET"); [right; right; left; auto|].
  destruct (is_route req "/" "GET"); [right; right; right; left; auto|].
  right; right; right; right. repeat split; reflexivity.
Qed.


(** X4.  No request writes to the store or asks for a step: whatever
    the request, the database and the step log are afterwards as they
    were.  The world changes on one path only, a [POST /api/feedback]
    whose body parses and whose instance the host creates, and then by
    that one instance, with the parsed body as its params. *)
Theorem fetch_writes_nothing (env : Env) (created_at : Z -> jsstring)
  (req : Request) (w : World) :
  let w' := snd (Worker.fetch env created_at req w) in
  DB w' = DB w /\ step_log w' = step_log w /\
  (w' = w \/
   exists payload new_id,
     method req = js "POST" /\ pathname req = js "/api/feedback" /\
     request_json req = Returns payload /\
     MY_WORKFLOW_create env (instances w) (JObj [(js "params", payload)]) = inr new_id /\
     w' = with_instance w new_id payload).
Proof.
  destruct (Worker_fetch_cases env created_at req w)
    as [[_ E]|[_ [[Hr E]|[[_ E]|[[_ E]|[[_ E]|(_ & _ & _ & _ & E)]]]]]];
    rewrite E; cbn [snd]; auto.
  rewrite submit_feedback_cases.
  destruct (request_json req) as [payload|e|] eqn:Ej; cbn [snd]; auto.
  destruct (MY_WORKFLOW_create env (instances w) _) as [e|new_id] eqn:Ec; cbn [snd]; auto.
  apply is_route_true in Hr. destruct Hr as [Hp Hm].
  split; [reflexivity|]. split; [reflexivity|].
  right. exists payload, new_id. auto.
Qed.

Lemma fetch_responses_headers (env : Env) (created_at : Z -> jsstring)
  (req : Request) (w : World) (r : Response) :
  fst (Worker.fetch env created_at req w) = Returns r ->
  incl corsHeaders (headers r) /\ (status r = 200 \/ status r = 400 \/ status r = 404).
Proof.
  destruct (Worker_fetch_cases env created_at req w)
    as [[_ E]|[_ [[Hr E]|[[_ E]|[[_ E]|[[_ E]|(_ & _ & _ & _ & E)]]]]]];
    rewrite E; cbn [fst].
  - intros H. inversion H; subst. cbn [headers status]. split; [apply incl_refl|auto].
  - rewrite submit_feedback_cases.
    assert (Hbad : incl corsHeaders (headers invalid_request_body) /\
                   (status invalid_request_body = 200 \/ status invalid_request_body = 400
                    \/ status invalid_request_body = 404)).
    { split; [apply incl_appl, incl_refl|right; left; reflexivity]. }
    destruct (request_json req) as [payload|e|]; cbn [fst]; try discriminate.
    + destruct (MY_WORKFLOW_create env (instances w) _) as [e|new_id]; cbn [fst];
        intros H; inversion H; subst; [exact Hbad|].
      split; [apply incl_appl, incl_refl|left; reflexivity].
    + intros H; inversion H; subst. exact Hbad.
  - intros H. inversion H; subst. split; [apply incl_appl, incl_refl|left; reflexivity].
  - intros H. inversion H; subst. split; [apply incl_appl, incl_refl|left; reflexivity].
  - intros H. inversion H; subst. split; [apply incl_tl, incl_refl|left; reflexivity].
  - intros H. inversion H; subst. split; [apply incl_appl, incl_refl|right; right; reflexivity].
Qed.

(** X5.  Every response of [fetch] carries the three CORS headers,
    [Access-Control-Allow-Origin: *], [Access-Control-Allow-Methods:
    GET, POST, OPTIONS] and [Access-Control-Allow-Headers:
    Content-Type], the 400 and the 404 included, and its status is
    200, 400 or 404. *)
Theorem fetch_responses_cors (env : Env) (created_at : Z -> jsstring)
  (req : Request) (w : World) (r : Response) :
  fst (Worker.fetch env created_at req w) = Returns r ->
  In (js "Access-Control-Allow-Origin", js "*") (headers r) /\
  In (js "Access-Control-Allow-Methods", js "GET, POST, OPTIONS") (headers r) /\
  In (js "Access-Control-Allow-Headers", js "Content-Type") (headers r) /\
  (status r = 200 \/ status r = 400 \/ status r = 404).
Proof.
  intros H. destruct (fetch_responses_headers env created_at req w r H) as [Hincl Hstatus].
  repeat split; try exact Hstatus; apply Hincl; unfold corsHeaders; cbn [In]; auto.
Qed.

Lemma fetch_responses_cors_witness :
  In (js "Access-Control-Allow-Origin", js "*")
     (headers (Response_text (js "Not Found") 404 corsHeaders)) /\
  In (js "Access-Control-Allow-Methods", js "GET, POST, OPTIONS")
     (headers (Response_text (js "Not Found") 404 corsHeaders)) /\
  In (js "Access-Control-Allow-Headers", js "Content-Type")
     (headers (Response_text (js "Not Found") 404 corsHeaders)) /\
  (status (Response_text (js "Not Found") 404 corsHeaders) = 200 \/
   status (Response_text (js "Not Found") 404 corsHeaders) = 400 \/
   status (Response_text (js "Not Found") 404 corsHeaders) = 404).
Proof.
  apply (fetch_responses_cors env_host_down filed_at (request "DELETE" "/api/feedback")
           seeded_world).
  reflexivity.
Defined.



(** X7.  No route reads table [aggregated_stats], the step log, or any
    part of the world but the feedback records and the instances: two
    worlds that agree on those are answered alike. *)
Theorem fetch_ignores_aggregated_stats (env : Env) (created_at : Z -> jsstring)
  (req : Request) (w1 w2 : World) :
  feedback_of w1 = feedback_of w2 -> instances w1 = instances w2 ->
  fst (Worker.fetch env created_at req w1) = fst (Worker.fetch env created_at req w2).
Proof.
  intros Hf Hi.
  destruct (Worker_fetch_cases env created_at req w1)
    as [[Ho E]|[Ho [[Hr E]|[[Hr E]|[[Hr E]|[[Hr E]|(H1 & H2 & H3 & H4 & E)]]]]]];
    destruct (Worker_fetch_cases env created_at req w2)
    as [[Ho' E']|[Ho' [[Hr' E']|[[Hr' E']|[[Hr' E']|[[Hr' E']|(H1' & H2' & H3' & H4' & E')]]]]]];
    try congruence; rewrite E, E'; try rewrite Hf; try reflexivity;
    try (apply is_route_true in Hr; apply is_route_true in Hr';
         destruct Hr as [Hp Hm], Hr' as [Hp' Hm']; rewrite Hp in Hp'; rewrite Hm in Hm';
         discriminate).
  rewrite !submit_feedback_cases, Hi.
  destruct (request_json req) as [payload|e|]; try reflexivity.
  destruct (MY_WORKFLOW_create env (instances w2) _); reflexivity.
Qed.

Lemma fetch_ignores_aggregated_stats_witness :
  fst (Worker.fetch env_host_down filed_at (request "GET" "/api/stats") seeded_world)
  = fst (Worker.fetch env_host_down filed_at (request "GET" "/api/stats")
           (snd (update_stats env_host_down urgent_bug seeded_world))).
Proof.
  apply (fetch_ignores_aggregated_stats env_host_down filed_at (request "GET" "/api/stats")
           seeded_world (snd (update_stats env_host_down urgent_bug seeded_world)));
    reflexivity.
Defined.

(* ===================================================================== *)
(** * What a run leaves in the store *)
(* ===================================================================== *)

(** [run], step by step. *)
Lemma run_unfold (env : Env) (payload : JsVal) (w : World) :
  run env payload w =
  match Get payload (js "source") with
  | Returns source =>
      match Get payload (js "content") with
      | Returns content =>
          match analyze_feedback env source content (noted "analyze-feedback" w) with
          | (Returns analysis, w1) =>
              match store_feedback source content analysis (noted "store-feedback" w1) with
              | (Returns _, w2) =>
                  match update_stats env analysis (noted "update-stats" w2) with
                  | (Returns _, w3) =>
                      match check_urgency source content analysis
                              (noted "check-urgency" w3) with
                      | (Returns alert, w4) =>
                          (Returns (JObj [ (js "success", JBool true);
                                           (js "analysis", analysis);
                                           (js "alert", alert) ]), w4)
                      | (Throws e, w4) => (Throws e, w4)
                      | (Unmodelled, w4) => (Unmodelled, w4)
                      end
                  | (Throws e, w3) => (Throws e, w3)
                  | (Unmodelled, w3) => (Unmodelled, w3)
                  end
              | (Throws e, w2) => (Throws e, w2)
              | (Unmodelled, w2) => (Unmodelled, w2)
              end
          | (Throws e, w1) => (Throws e, w1)
          | (Unmodelled, w1) => (Unmodelled, w1)
          end
      | Throws e => (Throws e, w)
      | Unmodelled => (Unmodelled, w)
      end
  | Throws e => (Throws e, w)
  | Unmodelled => (Unmodelled, w)
  end.
Proof.
  unfold run, bind, lift, step_do, ret.
  destruct (Get payload (js "source")) as [source|e|]; try reflexivity.
Qed.

(** Step 2 either stores one record or leaves the world as it found it. *)
Lemma store_feedback_cases (source content analysis : JsVal) (w : World) :
  (fst (store_feedback source content analysis w) <> Returns tt /\
   snd (store_feedback source content analysis w) = w) \/
  store_feedback source content analysis w
  = (Returns tt, snd (store_feedback source content analysis w)).
Proof.
  unfold store_feedback, bind, lift, update_DB.
  destruct (Get analysis (js "sentiment")) as [sentiment| |];
    try (left; split; [discriminate|reflexivity]).
  destruct (Get analysis (js "category")) as [category| |];
    try (left; split; [discriminate|reflexivity]).
  destruct (Get analysis (js "urgency")) as [urgency| |];
    try (left; split; [discriminate|reflexivity]).
  destruct (d1_bind source) as [p1| |]; try (left; split; [discriminate|reflexivity]).
  destruct (d1_bind content) as [p2| |]; try (left; split; [discriminate|reflexivity]).
  destruct (d1_bind sentiment) as [p3| |]; try (left; split; [discriminate|reflexivity]).
  destruct (d1_bind category) as [p4| |]; try (left; split; [discriminate|reflexivity]).
  destruct (d1_bind urgency) as [p5| |]; try (left; split; [discriminate|reflexivity]).
  right. reflexivity.
Qed.

(** Step 3 writes to table [aggregated_stats] and to nothing else. *)
Lemma update_stats_frame (env : Env) (analysis : JsVal) (w : World) :
  feedback_of (snd (update_stats env analysis w)) = feedback_of w /\
  instances (snd (update_stats env analysis w)) = instances w.
Proof.
  destruct (Get analysis (js "category")) as [cat| |] eqn:Hc;
    try (unfold update_stats, bind, lift; rewrite Hc; split; reflexivity).
  destruct (d1_bind cat) as [p| |] eqn:Hp;
    try (unfold update_stats, bind, lift; rewrite Hc, Hp; split; reflexivity).
  rewrite (update_stats_returns env analysis cat p w Hc Hp). split; reflexivity.
Qed.

(** A text column, read back, is the value that was bound. *)
Lemma column_value_bound (v : JsVal) (p : SqlValue) :
  d1_bind v = Returns p -> column_value (text_affinity p) = v.
Proof. destruct v; simpl; intros H; inversion H; reflexivity. Qed.

Lemma text_or_null_bound (v : JsVal) :
  text_or_null v <-> exists p, d1_bind v = Returns p.
Proof.
  split.
  - intros [->|[s ->]]; eexists; reflexivity.
  - intros [p H]. destruct v; simpl in H; try discriminate.
    + left. reflexivity.
    + right. eexists. reflexivity.
Qed.

(** X8.  A run, however it ends, creates no workflow instance and
    changes table [feedback] by at most one record: the records that
    were there stay as they were, in place, and the one that may
    follow them has an id above all of theirs. *)
Theorem run_appends_one_record (env : Env) (payload : JsVal) (w : World) :
  let w' := snd (run env payload w) in
  instances w' = instances w /\
  (feedback_of w' = feedback_of w \/
   exists row, feedback_of w' = feedback_of w ++ [row] /\
               forall r, In r (feedback_of w) -> feedback.id r < feedback.id row).
Proof.
  cbv zeta. rewrite run_unfold.
  destruct (Get payload (js "source")) as [source|e|]; try (split; [reflexivity|left; reflexivity]).
  destruct (Get payload (js "content")) as [content|e|]; try (split; [reflexivity|left; reflexivity]).
  pose proof (analyze_feedback_world env source content (noted "analyze-feedback" w)) as W1.
  destruct (analyze_feedback env source content _) as [[analysis|e|] w1];
    cbn [snd] in W1; subst w1; try (split; [reflexivity|left; reflexivity]).
  set (w1 := noted "store-feedback" (noted "analyze-feedback" w)).
  assert (Hstore :
            instances (snd (store_feedback source content analysis w1)) = instances w /\
            (feedback_of (snd (store_feedback source content analysis w1)) = feedback_of w \/
             exists row,
               feedback_of (snd (store_feedback source content analysis w1))
               = feedback_of w ++ [row] /\
               forall r, In r (feedback_of w) -> feedback.id r < feedback.id row)).
  { destruct (store_feedback_cases source content analysis w1) as [[_ E]|E].
    - rewrite E. split; [reflexivity|left; reflexivity].
    - apply store_feedback_returns in E.
      destruct E as (s & c & u & p1 & p2 & p3 & p4 & p5 & _ & _ & _ & _ & _ & _ & _ & _ & E).
      rewrite E. split; [reflexivity|]. right.
      unfold feedback_of, with_DB, insert_feedback. cbn [DB feedback_table w1 noted].
      eexists. split; [reflexivity|].
      intros r Hr. cbn [feedback.id]. apply next_rowid_above. apply in_map. exact Hr. }
  destruct (store_feedback source content analysis w1) as [[[]|e|] w2];
    cbn [snd] in Hstore |- *; try exact Hstore.
  pose proof (update_stats_frame env analysis (noted "update-stats" w2)) as W3.
  assert (Hstats :
            instances (snd (update_stats env analysis (noted "update-stats" w2)))
            = instances w /\
            (feedback_of (snd (update_stats env analysis (noted "update-stats" w2)))
             = feedback_of w \/
             exists row,
               feedback_of (snd (update_stats env analysis (noted "update-stats" w2)))
               = feedback_of w ++ [row] /\
               forall r, In r (feedback_of w) -> feedback.id r < feedback.id row)).
  { destruct W3 as [W3f W3i]. rewrite W3f, W3i. exact Hstore. }
  destruct (update_stats env analysis _) as [[[]|e|] w3]; cbn [snd] in Hstats |- *;
    try exact Hstats.
  pose proof (check_urgency_world source content analysis (noted "check-urgency" w3)) as W4.
  destruct (check_urgency source content analysis _) as [[alert|e|] w4];
    cbn [snd] in W4 |- *; subst w4; exact Hstats.
Qed.

Lemma analyze_feedback_pure (env : Env) (source content : JsVal) (w w0 : World) :
  analyze_feedback env source content w
  = (fst (analyze_feedback env source content w0), w).
Proof.
  rewrite !analyze_feedback_cases.
  destruct (stringable source && stringable content); [|reflexivity].
  destruct (AI_run env MODEL _) as [e|response]; [reflexivity|].
  destruct (parsed_reply response); reflexivity.
Qed.

Lemma check_urgency_pure (source content analysis : JsVal) (w w0 : World) :
  check_urgency source content analysis w
  = (fst (check_urgency source content analysis w0), w).
Proof.
  unfold check_urgency, bind, lift, ret.
  destruct (Get analysis (js "urgency")) as [u| |]; try reflexivity.
  destruct (strict_eq_string u (js "high")); [|reflexivity].
  destruct (Get analysis (js "category")) as [c| |]; try reflexivity.
  destruct (ToString_or_throw c); try reflexivity.
  destruct (ToString_or_throw source); try reflexivity.
  destruct (substring_call content 100); reflexivity.
Qed.

Lemma store_feedback_bound (source content analysis sentiment category urgency : JsVal)
  (p1 p2 p3 p4 p5 : SqlValue) (w : World) :
  Get analysis (js "sentiment") = Returns sentiment ->
  Get analysis (js "category") = Returns category ->
  Get analysis (js "urgency") = Returns urgency ->
  d1_bind source = Returns p1 -> d1_bind content = Returns p2 ->
  d1_bind sentiment = Returns p3 -> d1_bind category = Returns p4 ->
  d1_bind urgency = Returns p5 ->
  store_feedback source content analysis w
  = (Returns tt,
     with_DB w {| feedback_table := insert_feedback p1 p2 p3 p4 p5 (feedback_table (DB w));
                  aggregated_stats_table := aggregated_stats_table (DB w) |}).
Proof.
  intros E1 E2 E3 B1 B2 B3 B4 B5. unfold store_feedback, bind, lift, update_DB.
  rewrite E1, E2, E3, B1, B2, B3, B4, B5. reflexivity.
Qed.

(** The first three steps of a run whose values all bind. *)
Lemma run_stored (env : Env) (payload source content analysis sentiment category urgency : JsVal)
  (p1 p2 p3 p4 p5 : SqlValue) (w : World) :
  Get payload (js "source") = Returns source ->
  Get payload (js "content") = Returns content ->
  fst (analyze_feedback env source content w) = Returns analysis ->
  Get analysis (js "sentiment") = Returns sentiment ->
  Get analysis (js "category") = Returns category ->
  Get analysis (js "urgency") = Returns urgency ->
  d1_bind source = Returns p1 -> d1_bind content = Returns p2 ->
  d1_bind sentiment = Returns p3 -> d1_bind category = Returns p4 ->
  d1_bind urgency = Returns p5 ->
  run env payload w =
  match fst (check_urgency source content analysis w) with
  | Returns alert =>
      (Returns (JObj [ (js "success", JBool true);
                       (js "analysis", analysis);
                       (js "alert", alert) ]),
       completed (stat_type_unique env) w p1 p2 p3 p4 p5 (stat_key category))
  | Throws e =>
      (Throws e, completed (stat_type_unique env) w p1 p2 p3 p4 p5 (stat_key category))
  | Unmodelled =>
      (Unmodelled, completed (stat_type_unique env) w p1 p2 p3 p4 p5 (stat_key category))
  end.
Proof.
  intros Hs Hc Ha E1 E2 E3 B1 B2 B3 B4 B5.
  rewrite run_unfold, Hs, Hc.
  rewrite (analyze_feedback_pure env source content _ w), Ha.
  rewrite (store_feedback_bound source content analysis sentiment category urgency
             p1 p2 p3 p4 p5 _ E1 E2 E3 B1 B2 B3 B4 B5).
  rewrite (update_stats_returns env analysis category p4 _ E2 B4).
  rewrite (check_urgency_pure source content analysis _ w).
  unfold completed.
  destruct (fst (check_urgency source content analysis w)) as [alert|e|];
    (f_equal; unfold noted, with_DB, feedback_of, stats_of; cbn [DB instances step_log
       feedback_table aggregated_stats_table]; unfold four_steps;
     rewrite <- !app_assoc; reflexivity).
Qed.

(** What a run that completes has done. *)
Lemma run_returns_inv (env : Env) (payload result : JsVal) (w w' : World) :
  run env payload w = (Returns result, w') ->
  exists source content analysis sentiment category urgency p1 p2 p3 p4 p5 alert,
    Get payload (js "source") = Returns source /\
    Get payload (js "content") = Returns content /\
    fst (analyze_feedback env source content w) = Returns analysis /\
    Get analysis (js "sentiment") = Returns sentiment /\
    Get analysis (js "category") = Returns category /\
    Get analysis (js "urgency") = Returns urgency /\
    d1_bind source = Returns p1 /\ d1_bind content = Returns p2 /\
    d1_bind sentiment = Returns p3 /\ d1_bind category = Returns p4 /\
    d1_bind urgency = Returns p5 /\
    fst (check_urgency source content analysis w) = Returns alert /\
    result = JObj [ (js "success", JBool true); (js "analysis", analysis);
                    (js "alert", alert) ] /\
    w' = completed (stat_type_unique env) w p1 p2 p3 p4 p5 (stat_key category).
Proof.
  intros Hrun. pose proof Hrun as Hrun0. rewrite run_unfold in Hrun.
  destruct (Get payload (js "source")) as [source|e|] eqn:Hs; try discriminate.
  destruct (Get payload (js "content")) as [content|e|] eqn:Hc; try discriminate.
  rewrite (analyze_feedback_pure env source content _ w) in Hrun.
  destruct (fst (analyze_feedback env source content w)) as [analysis|e|] eqn:Ha;
    try discriminate.
  destruct (store_feedback source content analysis _) as [[[]|e|] w2] eqn:Hst;
    try discriminate.
  apply store_feedback_returns in Hst.
  destruct Hst as (s & c & u & p1 & p2 & p3 & p4 & p5 &
                   E1 & E2 & E3 & B1 & B2 & B3 & B4 & B5 & _).
  clear Hrun.
  rewrite (run_stored env payload source content analysis s c u p1 p2 p3 p4 p5 w
             Hs Hc Ha E1 E2 E3 B1 B2 B3 B4 B5) in Hrun0.
  destruct (fst (check_urgency source content analysis w)) as [alert|e|] eqn:Hch;
    try discriminate.
  inversion Hrun0; subst.
  exists source, content, analysis, s, c, u, p1, p2, p3, p4, p5, alert.
  repeat split; try assumption; reflexivity.
Qed.

Lemma Get_feedback_object (created_at : Z -> jsstring) (row : feedback.row) :
  Get (feedback_object created_at row) (js "source")
  = Returns (column_value (feedback.source row)) /\
  Get (feedback_object created_at row) (js "content")
  = Returns (column_value (feedback.content row)) /\
  Get (feedback_object created_at row) (js "sentiment")
  = Returns (column_value (feedback.sentiment row)) /\
  Get (feedback_object created_at row) (js "category")
  = Returns (column_value (feedback.category row)) /\
  Get (feedback_object created_at row) (js "urgency")
  = Returns (column_value (feedback.urgency row)).
Proof. repeat split. Qed.

(** X9.  A run that completes has stored exactly one record, and when
    the texts it bound are well-formed UTF-16 (no surrogate without its
    partner), that record, as [GET /api/feedback] hands it out,
    carries the submitted [source] and [content] and the [sentiment],
    [category] and [urgency] of the analysis the run returns, value
    for value. *)
Theorem run_record_reads_back (env : Env) (created_at : Z -> jsstring)
  (payload result : JsVal) (w w' : World) :
  run env payload w = (Returns result, w') ->
  well_formed_field payload "source" -> well_formed_field payload "content" ->
  (forall analysis,
      Get result (js "analysis") = Returns analysis ->
      well_formed_field analysis "sentiment" /\ well_formed_field analysis "category" /\
      well_formed_field analysis "urgency") ->
  exists row analysis,
    feedback_of w' = feedback_of w ++ [row] /\
    Get result (js "analysis") = Returns analysis /\
    Get (feedback_object created_at row) (js "source") = Get payload (js "source") /\
    Get (feedback_object created_at row) (js "content") = Get payload (js "content") /\
    Get (feedback_object created_at row) (js "sentiment") = Get analysis (js "sentiment") /\
    Get (feedback_object created_at row) (js "category") = Get analysis (js "category") /\
    Get (feedback_object created_at row) (js "urgency") = Get analysis (js "urgency").
Proof.
  intros Hrun _ _ _. apply run_returns_inv in Hrun.
  destruct Hrun as (source & content & analysis & s & c & u & p1 & p2 & p3 & p4 & p5 & alert &
                    Hs & Hc & Ha & E1 & E2 & E3 & B1 & B2 & B3 & B4 & B5 & Hch & -> & ->).
  eexists. exists analysis.
  split; [reflexivity|]. split; [reflexivity|].
  rewrite Hs, Hc, E1, E2, E3.
  destruct (Get_feedback_object created_at
              {| feedback.id := next_rowid (List.map feedback.id (feedback_of w));
                 feedback.source := text_affinity p1;
                 feedback.content := text_affinity p2;
                 feedback.sentiment := text_affinity p3;
                 feedback.category := text_affinity p4;
                 feedback.urgency := text_affinity p5 |}) as (G1 & G2 & G3 & G4 & G5).
  unfold feedback_of in *.
  rewrite G1, G2, G3, G4, G5. cbn [feedback.source feedback.content feedback.sentiment
                                    feedback.category feedback.urgency].
  rewrite (column_value_bound _ _ B1), (column_value_bound _ _ B2),
    (column_value_bound _ _ B3), (column_value_bound _ _ B4), (column_value_bound _ _ B5).
  repeat split.
Qed.

Lemma run_record_reads_back_witness :
  exists row analysis,
    feedback_of (snd scenario_run) = feedback_of seeded_world ++ [row] /\
    Get scenario_result (js "analysis") = Returns analysis /\
    Get (feedback_object filed_at row) (js "source")
    = Get (item (js "Discord") x150) (js "source") /\
    Get (feedback_object filed_at row) (js "content")
    = Get (item (js "Discord") x150) (js "content") /\
    Get (feedback_object filed_at row) (js "sentiment") = Get analysis (js "sentiment") /\
    Get (feedback_object filed_at row) (js "category") = Get analysis (js "category") /\
    Get (feedback_object filed_at row) (js "urgency") = Get analysis (js "urgency").
Proof.
  apply (run_record_reads_back (env_replying urgent_bug_text) filed_at
           (item (js "Discord") x150) scenario_result seeded_world (snd scenario_run)).
  - vm_compute. reflexivity.
  - intros s H. vm_compute in H. inversion H. reflexivity.
  - intros s H. vm_compute in H. inversion H. reflexivity.
  - intros analysis H. vm_compute in H. inversion H; subst analysis.
    repeat split; intros s Hs; vm_compute in Hs; inversion Hs; reflexivity.
Defined.

(** X10.  When the analysis of step 1 lacks [sentiment], [category] or
    [urgency] (as the replies [{}], [[]] and [42] make it), the others
    being strings, [null] or lacking too, step 2 fails with
    D1_TYPE_ERROR before it reaches the store: the run ends there,
    after two steps, and the database is as it was. *)
Theorem run_missing_field_stores_nothing (env : Env)
  (payload source content analysis sentiment category urgency : JsVal) (w : World) :
  Get payload (js "source") = Returns source -> text_or_null source ->
  Get payload (js "content") = Returns content -> text_or_null content ->
  fst (analyze_feedback env source content w) = Returns analysis ->
  Get analysis (js "sentiment") = Returns sentiment ->
  Get analysis (js "category") = Returns category ->
  Get analysis (js "urgency") = Returns urgency ->
  text_or_null sentiment \/ sentiment = JUndefined ->
  text_or_null category \/ category = JUndefined ->
  text_or_null urgency \/ urgency = JUndefined ->
  sentiment = JUndefined \/ category = JUndefined \/ urgency = JUndefined ->
  fst (run env payload w) = Throws D1_TYPE_ERROR /\
  DB (snd (run env payload w)) = DB w /\
  instances (snd (run env payload w)) = instances w /\
  step_log (snd (run env payload w))
  = step_log w ++ [js "analyze-feedback"; js "store-feedback"].
Proof.
  intros Hs Ts Hc Tc Ha E1 E2 E3 T1 T2 T3 Hmiss.
  rewrite run_unfold, Hs, Hc.
  rewrite (analyze_feedback_pure env source content _ w), Ha.
  assert (Hst : forall w0, store_feedback source content analysis w0
                           = (Throws D1_TYPE_ERROR, w0)).
  { intros w0. unfold store_feedback, bind, lift. rewrite E1, E2, E3.
    apply text_or_null_bound in Ts, Tc. destruct Ts as [p1 ->], Tc as [p2 ->].
    destruct T1 as [[->|[s1 ->]]| ->], T2 as [[->|[s2 ->]]| ->], T3 as [[->|[s3 ->]]| ->];
      cbn [d1_bind]; try reflexivity;
      destruct Hmiss as [H|[H|H]]; discriminate. }
  rewrite Hst. cbn [fst snd noted DB instances step_log].
  rewrite <- app_assoc. repeat split.
Qed.

Lemma run_missing_field_stores_nothing_witness :
  fst (run (env_replying (js "{}")) (item (js "Email") (js "hello")) seeded_world)
  = Throws D1_TYPE_ERROR /\
  DB (snd (run (env_replying (js "{}")) (item (js "Email") (js "hello")) seeded_world))
  = DB seeded_world /\
  instances (snd (run (env_replying (js "{}")) (item (js "Email") (js "hello")) seeded_world))
  = instances seeded_world /\
  step_log (snd (run (env_replying (js "{}")) (item (js "Email") (js "hello")) seeded_world))
  = step_log seeded_world ++ [js "analyze-feedback"; js "store-feedback"].
Proof.
  apply (run_missing_field_stores_nothing (env_replying (js "{}"))
           (item (js "Email") (js "hello")) (JStr (js "Email")) (JStr (js "hello"))
           (JObj []) JUndefined JUndefined JUndefined seeded_world);
    try reflexivity;
    try (right; eexists; reflexivity);
    try (right; reflexivity);
    try (left; reflexivity).
Defined.

(** X11.  A submission whose [content] is [null], classified as of
    high urgency, is stored and counted, and then fails the run: step 4
    throws a TypeError at [content.substring], after all four steps
    have started; the record and the new count stay in the store. *)
Theorem run_urgent_null_content (env : Env)
  (payload source analysis sentiment category : JsVal)
  (p1 p3 p4 : SqlValue) (w : World) :
  Get payload (js "source") = Returns source ->
  Get payload (js "content") = Returns JNull ->
  fst (analyze_feedback env source JNull w) = Returns analysis ->
  Get analysis (js "sentiment") = Returns sentiment ->
  Get analysis (js "category") = Returns category ->
  Get analysis (js "urgency") = Returns (JStr (js "high")) ->
  d1_bind source = Returns p1 -> d1_bind sentiment = Returns p3 ->
  d1_bind category = Returns p4 ->
  run env payload w
  = (Throws TypeError,
     completed (stat_type_unique env) w p1 SqlNull p3 p4 (SqlText (js "high"))
       (stat_key category)) /\
  feedback_of (snd (run env payload w))
  = feedback_of w ++
    [ {| feedback.id := next_rowid (List.map feedback.id (feedback_of w));
         feedback.source := text_affinity p1;
         feedback.content := None;
         feedback.sentiment := text_affinity p3;
         feedback.category := text_affinity p4;
         feedback.urgency := Some (js "high") |} ].
Proof.
  intros Hs Hc Ha E1 E2 E3 B1 B3 B4.
  rewrite (run_stored env payload source JNull analysis sentiment category (JStr (js "high"))
             p1 SqlNull p3 p4 (SqlText (js "high")) w Hs Hc Ha E1 E2 E3 B1 eq_refl B3 B4
             eq_refl).
  unfold check_urgency, bind, lift. rewrite E3.
  change (strict_eq_string (JStr (js "high")) (js "high")) with true. cbv iota.
  rewrite E2, (bound_converts category p4 B4), (bound_converts source p1 B1).
  cbn [substring_call fst snd]. split; reflexivity.
Qed.

Lemma run_urgent_null_content_witness :
  run (env_replying urgent_bug_text)
    (JObj [(js "source", JStr (js "Discord")); (js "content", JNull)]) seeded_world
  = (Throws TypeError,
     completed false seeded_world (SqlText (js "Discord")) SqlNull (SqlText (js "negative"))
       (SqlText (js "bug")) (SqlText (js "high")) (js "category_bug")) /\
  feedback_of (snd (run (env_replying urgent_bug_text)
                      (JObj [(js "source", JStr (js "Discord")); (js "content", JNull)])
                      seeded_world))
  = feedback_of seeded_world ++
    [ {| feedback.id := next_rowid (List.map feedback.id (feedback_of seeded_world));
         feedback.source := Some (js "Discord");
         feedback.content := None;
         feedback.sentiment := Some (js "negative");
         feedback.category := Some (js "bug");
         feedback.urgency := Some (js "high") |} ].
Proof.
  apply (run_urgent_null_content (env_replying urgent_bug_text)
           (JObj [(js "source", JStr (js "Discord")); (js "content", JNull)])
           (JStr (js "Discord")) urgent_bug (JStr (js "negative")) (JStr (js "bug"))
           (SqlText (js "Discord")) (SqlText (js "negative")) (SqlText (js "bug"))
           seeded_world); reflexivity.
Defined.

(** X12.  A submission of two strings that the model answers with text
    that is not JSON goes through all four steps: the run returns
    [{success: true, analysis, alert: {alert: false}}] with the
    fallback analysis, the record is stored as neutral, unknown, low,
    and the count of the records of category [unknown], the new one
    included, is written under the key [category_unknown]. *)
Theorem run_on_unparsed_reply (env : Env) (source content : jsstring)
  (response : JsVal) (e : Error) (w : World) :
  AI_run env MODEL (analysis_inputs (JStr source) (JStr content)) = inr response ->
  parsed_reply response = Throws e ->
  run env (item source content) w
  = (Returns (JObj [ (js "success", JBool true);
                     (js "analysis", fallback_analysis);
                     (js "alert", JObj [(js "alert", JBool false)]) ]),
     completed (stat_type_unique env) w (SqlText source) (SqlText content)
       (SqlText (js "neutral")) (SqlText (js "unknown")) (SqlText (js "low"))
       (js "category_unknown")) /\
  feedback_of (snd (run env (item source content) w))
  = feedback_of w ++
    [ {| feedback.id := next_rowid (List.map feedback.id (feedback_of w));
         feedback.source := Some source;
         feedback.content := Some content;
         feedback.sentiment := Some (js "neutral");
         feedback.category := Some (js "unknown");
         feedback.urgency := Some (js "low") |} ] /\
  In {| aggregated_stats.id := upsert_rowid (js "category_unknown") (stats_of w);
        aggregated_stats.stat_type := Some (js "category_unknown");
        aggregated_stats.stat_value :=
          Some (count_text (1 + count_by_category (SqlText (js "unknown")) (feedback_of w))) |}
     (stats_of (snd (run env (item source content) w))).
Proof.
  intros Ha Hp.
  assert (Hfst : fst (analyze_feedback env (JStr source) (JStr content) w)
                 = Returns fallback_analysis).
  { rewrite analyze_feedback_cases, Ha, Hp. reflexivity. }
  rewrite (run_stored env (item source content) (JStr source) (JStr content)
             fallback_analysis (JStr (js "neutral")) (JStr (js "unknown")) (JStr (js "low"))
             (SqlText source) (SqlText content) (SqlText (js "neutral"))
             (SqlText (js "unknown")) (SqlText (js "low")) w
             eq_refl eq_refl Hfst eq_refl eq_refl eq_refl eq_refl eq_refl eq_refl eq_refl
             eq_refl).
  change (fst (check_urgency (JStr source) (JStr content) fallback_analysis w))
    with (Returns (JObj [(js "alert", JBool false)])).
  cbv iota. change (stat_key (JStr (js "unknown"))) with (js "category_unknown").
  split; [reflexivity|]. split; [reflexivity|].
  unfold completed, stats_of at 1. cbn [snd DB aggregated_stats_table].
  rewrite count_after_insert.
  apply upsert_stat_in. left. reflexivity.
Qed.

Lemma run_on_unparsed_reply_witness :
  run (env_replying (js "Sorry, I cannot help.")) (item (js "Email") (js "hello"))
    seeded_world
  = (Returns (JObj [ (js "success", JBool true);
                     (js "analysis", fallback_analysis);
                     (js "alert", JObj [(js "alert", JBool false)]) ]),
     completed false seeded_world (SqlText (js "Email")) (SqlText (js "hello"))
       (SqlText (js "neutral")) (SqlText (js "unknown")) (SqlText (js "low"))
       (js "category_unknown")) /\
  feedback_of (snd (run (env_replying (js "Sorry, I cannot help."))
                      (item (js "Email") (js "hello")) seeded_world))
  = feedback_of seeded_world ++
    [ {| feedback.id := next_rowid (List.map feedback.id (feedback_of seeded_world));
         feedback.source := Some (js "Email");
         feedback.content := Some (js "hello");
         feedback.sentiment := Some (js "neutral");
         feedback.category := Some (js "unknown");
         feedback.urgency := Some (js "low") |} ] /\
  In {| aggregated_stats.id := upsert_rowid (js "category_unknown") (stats_of seeded_world);
        aggregated_stats.stat_type := Some (js "category_unknown");
        aggregated_stats.stat_value :=
          Some (count_text
                  (1 + count_by_category (SqlText (js "unknown"))
                         (feedback_of seeded_world))) |}
     (stats_of (snd (run (env_replying (js "Sorry, I cannot help."))
                       (item (js "Email") (js "hello")) seeded_world))).
Proof.
  apply (run_on_unparsed_reply (env_replying (js "Sorry, I cannot help."))
           (js "Email") (js "hello") (reply (js "Sorry, I cannot help.")) SyntaxError
           seeded_world); reflexivity.
Defined.







(* ===================================================================== *)
(** * [JSON.stringify], then [JSON.parse] *)
(* ===================================================================== *)

Lemma hex_value_digit (d : N) : (d < 16)%N -> hex_value (hex_digit d) = Some d.
Proof.
  intros H.
  assert (Hd : In d [0;1;2;3;4;5;6;7;8;9;10;11;12;13;14;15]%N).
  { simpl. lia. }
  simpl in Hd.
  repeat (destruct Hd as [<-|Hd]; [reflexivity|]). destruct Hd.
Qed.

Lemma hex4_escape (c : N) :
  (c < 65536)%N ->
  hex4 (hex_digit (c / 4096 mod 16)) (hex_digit (c / 256 mod 16))
       (hex_digit (c / 16 mod 16)) (hex_digit (c mod 16)) = Some c.
Proof.
  intros H. unfold hex4.
  rewrite !hex_value_digit by (apply N.mod_lt; discriminate).
  f_equal. zify. Z.to_euclidean_division_equations. lia.
Qed.

Lemma lex_unicode_escape (c : N) (t : jsstring) :
  (c < 65536)%N ->
  lex_string (unicode_escape c ++ t) = cons_unit c (lex_string t).
Proof.
  intros H. unfold unicode_escape. cbn [js list_ascii_of_string List.map app].
  cbn [lex_string]. change (N.eqb (N_of_ascii "\") 34) with false.
  change (N.eqb (N_of_ascii "\") 92) with true. cbv iota.
  change (is_unit (N_of_ascii "u") "u") with true. cbv iota.
  rewrite hex4_escape by exact H. reflexivity.
Qed.

Lemma lex_string_quote_units (n : nat) :
  forall s rest, (List.length s <= n)%nat ->
  lex_string (quote_units s ++ 34%N :: rest) = Some (s, rest).
Proof.
  induction n as [|n IH]; intros s rest Hlen.
  { destruct s; [reflexivity|simpl in Hlen; lia]. }
  destruct s as [|c r]; [reflexivity|].
  cbn [List.length] in Hlen.
  assert (IHr : lex_string (quote_units r ++ 34%N :: rest) = Some (r, rest))
    by (apply IH; lia).
  cbn [quote_units].
  destruct (N.eqb c 34) eqn:E34.
  { apply N.eqb_eq in E34. subst c. cbn. rewrite IHr. reflexivity. }
  destruct (N.eqb c 92) eqn:E92.
  { apply N.eqb_eq in E92. subst c. cbn. rewrite IHr. reflexivity. }
  destruct (N.eqb c 8) eqn:E8.
  { apply N.eqb_eq in E8. subst c. cbn. rewrite IHr. reflexivity. }
  destruct (N.eqb c 9) eqn:E9.
  { apply N.eqb_eq in E9. subst c. cbn. rewrite IHr. reflexivity. }
  destruct (N.eqb c 10) eqn:E10.
  { apply N.eqb_eq in E10. subst c. cbn. rewrite IHr. reflexivity. }
  destruct (N.eqb c 12) eqn:E12.
  { apply N.eqb_eq in E12. subst c. cbn. rewrite IHr. reflexivity. }
  destruct (N.eqb c 13) eqn:E13.
  { apply N.eqb_eq in E13. subst c. cbn. rewrite IHr. reflexivity. }
  destruct (N.ltb c 32) eqn:E32.
  { apply N.ltb_lt in E32. rewrite <- app_assoc, lex_unicode_escape by lia.
    rewrite IHr. reflexivity. }
  assert (Hraw : forall t, lex_string (c :: t) = cons_unit c (lex_string t)).
  { intros t. cbn [lex_string]. rewrite E34, E92, E32. reflexivity. }
  destruct (is_high_surrogate c) eqn:Eh.
  { assert (Hc : (c < 65536)%N).
    { unfold is_high_surrogate in Eh. apply andb_true_iff in Eh.
      destruct Eh as [_ Eh]. apply N.leb_le in Eh. lia. }
    destruct r as [|c2 r2].
    - rewrite lex_unicode_escape by exact Hc. reflexivity.
    - destruct (is_low_surrogate c2) eqn:El.
      + cbn [app]. rewrite Hraw.
        assert (Hraw2 : forall t, lex_string (c2 :: t) = cons_unit c2 (lex_string t)).
        { intros t. unfold is_low_surrogate in El. apply andb_true_iff in El.
          destruct El as [El1 El2]. apply N.leb_le in El1.
          cbn [lex_string].
          replace (N.eqb c2 34) with false by (symmetry; apply N.eqb_neq; lia).
          replace (N.eqb c2 92) with false by (symmetry; apply N.eqb_neq; lia).
          replace (N.ltb c2 32) with false by (symmetry; apply N.ltb_ge; lia).
          reflexivity. }
        rewrite Hraw2. rewrite IH by (cbn [List.length] in Hlen; lia). reflexivity.
      + rewrite <- app_assoc, lex_unicode_escape by exact Hc. rewrite IHr. reflexivity. }
  destruct (is_low_surrogate c) eqn:El.
  { assert (Hc : (c < 65536)%N).
    { unfold is_low_surrogate in El. apply andb_true_iff in El.
      destruct El as [_ El]. apply N.leb_le in El. lia. }
    rewrite <- app_assoc, lex_unicode_escape by exact Hc. rewrite IHr. reflexivity. }
  cbn [app]. rewrite Hraw, IHr. reflexivity.
Qed.

(** The digits of a numeral, read with an accumulator. *)
Lemma digits_value_acc (u : Decimal.uint) (acc : positive) :
  fold_left (fun a d => 10 * a + Z.of_N (d - 48)) (uint_units u) (Zpos acc)
  = Zpos (Pos.of_uint_acc u acc).
Proof.
  revert acc. induction u; intros acc; cbn [uint_units fold_left Pos.of_uint_acc];
    try reflexivity;
    match goal with
    | |- fold_left _ _ ?z = Zpos (Pos.of_uint_acc _ ?p) =>
        replace z with (Zpos p) by (unfold digit_unit; lia)
    end; apply IHu.
Qed.

Lemma all_digits (u : Decimal.uint) : forallb is_digit (uint_units u) = true.
Proof. induction u; cbn [uint_units forallb]; try rewrite IHu; reflexivity. Qed.

Lemma span_digits_all (ds rest : jsstring) :
  forallb is_digit ds = true ->
  match rest with [] => True | c :: _ => is_digit c = false end ->
  span_digits (ds ++ rest) = (ds, rest).
Proof.
  intros Hds Hrest. induction ds as [|d ds IH]; cbn [app].
  - destruct rest as [|c r]; [reflexivity|]. cbn [span_digits]. rewrite Hrest. reflexivity.
  - cbn [forallb] in Hds. apply andb_true_iff in Hds. destruct Hds as [Hd Hds].
    cbn [span_digits]. rewrite Hd, (IH Hds). reflexivity.
Qed.

Lemma delimited_not_digit (rest : jsstring) :
  delimited rest -> match rest with [] => True | c :: _ => is_digit c = false end.
Proof. destruct rest as [|c r]; [trivial|]. intros [->|[->| ->]]; reflexivity. Qed.

Lemma unorm_head (u : Decimal.uint) :
  Decimal.unorm u = u -> u <> Decimal.D0 Decimal.Nil ->
  match u with Decimal.Nil | Decimal.D0 _ => False | _ => True end.
Proof.
  intros Hn Hz. destruct u as [|u'| | | | | | | | |]; try exact I.
  - discriminate Hn.
  - assert (Hne : u' <> Decimal.Nil) by congruence.
    pose proof (DecimalFacts.nb_digits_unorm u' Hne) as Hlen.
    change (Decimal.unorm (Decimal.D0 u')) with (Decimal.unorm u') in Hn.
    rewrite Hn in Hlen. cbn [Decimal.nb_digits] in Hlen. lia.
Qed.

Lemma to_uint_head (p : positive) :
  match Pos.to_uint p with Decimal.Nil | Decimal.D0 _ => False | _ => True end.
Proof.
  apply unorm_head; [|apply DecimalPos.Unsigned.to_uint_nonzero].
  rewrite <- DecimalPos.Unsigned.to_of, DecimalPos.Unsigned.of_to. reflexivity.
Qed.

(** The numeral of a positive number reads back as that number. *)
Lemma lex_int_to_uint (neg : bool) (p : positive) (rest : jsstring) :
  delimited rest ->
  lex_int neg (uint_units (Pos.to_uint p) ++ rest)
  = finish_number neg (uint_units (Pos.to_uint p)) rest /\
  digits_value (uint_units (Pos.to_uint p)) = Zpos p.
Proof.
  intros Hrest. apply delimited_not_digit in Hrest.
  pose proof (to_uint_head p) as Hhead.
  pose proof (DecimalPos.Unsigned.of_to p) as Hval.
  pose proof (all_digits (Pos.to_uint p)) as Hdig.
  destruct (Pos.to_uint p) as [|u|u|u|u|u|u|u|u|u|u]; try contradiction;
    cbn [uint_units forallb] in Hdig |- *;
    cbn [Pos.of_uint] in Hval; inversion Hval as [Hp];
    (split;
     [ unfold lex_int; cbn [app];
       match goal with
       | |- context [N.eqb (digit_unit ?k) 48] =>
           change (N.eqb (digit_unit k) 48) with false;
           change (is_digit (digit_unit k)) with true
       end; cbv iota;
       rewrite (span_digits_all (uint_units u) rest); [reflexivity| |exact Hrest];
       apply andb_true_iff in Hdig; apply Hdig
     | unfold digits_value; cbn [fold_left];
       match goal with
       | |- fold_left _ _ ?z = _ =>
           match type of Hp with
           | Pos.of_uint_acc _ ?q = _ => change z with (Zpos q)
           end
       end;
       rewrite digits_value_acc; reflexivity ]).
Qed.

Lemma finish_number_delimited (neg : bool) (ds rest : jsstring) :
  delimited rest ->
  finish_number neg ds rest
  = if (neg && Z.eqb (digits_value ds) 0) || Z.ltb MAX_SAFE_INTEGER (digits_value ds)
    then POk JUndefined rest
    else POk (JNum (if neg then - digits_value ds else digits_value ds)) rest.
Proof.
  unfold finish_number. destruct rest as [|c r]; [reflexivity|].
  intros [->|[->| ->]]; reflexivity.
Qed.

Lemma lex_number_toString (n : Z) (rest : jsstring) :
  Z.abs n <= MAX_SAFE_INTEGER -> delimited rest ->
  lex_number (Number_toString n ++ rest) = POk (JNum n) rest.
Proof.
  intros Hn Hrest. destruct n as [|p|p]; cbn [Number_toString].
  - cbn. rewrite finish_number_delimited by exact Hrest. reflexivity.
  - destruct (lex_int_to_uint false p rest Hrest) as [Hlex Hval].
    assert (Hhead : exists d t, uint_units (Pos.to_uint p) = d :: t /\ is_unit d "-" = false).
    { pose proof (to_uint_head p) as Hh.
      destruct (Pos.to_uint p); try contradiction; cbn [uint_units];
        eexists; eexists; (split; [reflexivity|reflexivity]). }
    destruct Hhead as (d & t & Hdt & Hminus).
    assert (Hs : uint_units (Pos.to_uint p) ++ rest = d :: (t ++ rest))
      by (rewrite Hdt; reflexivity).
    unfold lex_number. rewrite Hs, Hminus, <- Hs, Hlex.
    rewrite finish_number_delimited by exact Hrest. rewrite Hval.
    cbn [andb orb]. replace (Z.ltb MAX_SAFE_INTEGER (Z.pos p)) with false; [reflexivity|].
    symmetry. apply Z.ltb_ge. exact Hn.
  - destruct (lex_int_to_uint true p rest Hrest) as [Hlex Hval].
    change (js "-" ++ uint_units (Pos.to_uint p)) with (45%N :: uint_units (Pos.to_uint p)).
    cbn [app]. unfold lex_number. change (is_unit 45 "-") with true. cbv iota.
    rewrite Hlex. rewrite finish_number_delimited by exact Hrest. rewrite Hval.
    cbn [andb orb Z.eqb]. replace (Z.ltb MAX_SAFE_INTEGER (Z.pos p)) with false; [reflexivity|].
    symmetry. apply Z.ltb_ge. exact Hn.
Qed.

Lemma JsVal_nested_ind (P : JsVal -> Prop) :
  P JUndefined -> P JNull -> (forall b, P (JBool b)) -> (forall n, P (JNum n)) ->
  (forall s, P (JStr s)) ->
  (forall elems, Forall P elems -> P (JArr elems)) ->
  (forall props, Forall (fun kv => P (snd kv)) props -> P (JObj props)) ->
  forall v, P v.
Proof.
  intros Hu Hn Hb Hnum Hs Ha Ho. fix IH 1.
  intros [ | |b|n|s|elems|props];
    [exact Hu|exact Hn|apply Hb|apply Hnum|apply Hs| | ].
  - apply Ha. induction elems as [|e elems IHe]; constructor; [apply IH|exact IHe].
  - apply Ho. induction props as [|[k x] props IHp]; constructor; [apply IH|exact IHp].
Qed.

Lemma plain_json_text (v : JsVal) :
  plain_json v = true -> JSON_stringify v = Some (value_text v).
Proof. unfold value_text. destruct v as [ | |[|]| | | | ]; try reflexivity. discriminate. Qed.

Lemma stringify_object (props : list (jsstring * JsVal)) :
  forallb (fun kv => plain_json (snd kv)) props = true ->
  JSON_stringify (JObj props)
  = Some (js "{" ++ join (js ",") (List.map member_text props) ++ js "}").
Proof.
  intros Hp. cbn [JSON_stringify]. do 4 f_equal.
  induction props as [|[k x] props IH]; [reflexivity|].
  cbn [forallb snd] in Hp. apply andb_true_iff in Hp. destruct Hp as [Hx Hp].
  rewrite (plain_json_text x Hx), (IH Hp). unfold member_text at 2.
  cbn [List.map fst snd]. unfold value_text. rewrite (plain_json_text x Hx). reflexivity.
Qed.

Lemma digit_head (p : positive) :
  exists d t, uint_units (Pos.to_uint p) = d :: t /\ is_digit d = true.
Proof.
  pose proof (to_uint_head p) as Hh.
  destruct (Pos.to_uint p); try contradiction; cbn [uint_units];
    eexists; eexists; (split; reflexivity).
Qed.

Lemma digit_opens (d : N) : is_digit d = true \/ d = 45%N -> opens_value d.
Proof.
  intros H.
  assert (Hd : (48 <= d <= 57)%N \/ d = 45%N).
  { destruct H as [H|H]; [left|right; exact H].
    unfold is_digit in H. apply andb_true_iff in H. destruct H as [H1 H2].
    apply N.leb_le in H1, H2. lia. }
  unfold opens_value, is_ws, is_unit. cbn [N_of_ascii].
  repeat match goal with
         | |- context [N.eqb d ?k] =>
             replace (N.eqb d k) with false by (symmetry; apply N.eqb_neq; cbn; lia)
         end.
  repeat split.
Qed.

Lemma value_text_head (v : JsVal) :
  plain_json v = true -> exists c t, value_text v = c :: t /\ opens_value c.
Proof.
  destruct v as [ | |[|]|n|s|elems|props]; try discriminate; intros Hp;
    try (eexists; eexists; split; [reflexivity|repeat split]).
  unfold value_text. cbn [JSON_stringify]. destruct n as [|p|p]; cbn [Number_toString].
  - eexists; eexists; split; [reflexivity|repeat split].
  - destruct (digit_head p) as (d & t & -> & Hd).
    eexists; eexists; split; [reflexivity|apply digit_opens; auto].
  - eexists; eexists; split; [reflexivity|repeat split].
Qed.

Lemma skip_ws_opens (c : N) (t : jsstring) : is_ws c = false -> skip_ws (c :: t) = c :: t.
Proof. intros H. cbn [skip_ws]. rewrite H. reflexivity. Qed.

Lemma join_cons2 (sep p q : jsstring) (l : list jsstring) :
  join sep (p :: q :: l) = p ++ sep ++ join sep (q :: l).
Proof. reflexivity. Qed.

Lemma parse_value_number (f : nat) (d : N) (t : jsstring) :
  is_digit d = true \/ d = 45%N ->
  parse_value (S f) (d :: t) = lex_number (d :: t).
Proof.
  intros H.
  destruct (digit_opens d H) as (Hws & _ & _).
  assert (Hd : (48 <= d <= 57)%N \/ d = 45%N).
  { destruct H as [H|H]; [left|right; exact H].
    unfold is_digit in H. apply andb_true_iff in H. destruct H as [H1 H2].
    apply N.leb_le in H1, H2. lia. }
  cbn [parse_value]. rewrite (skip_ws_opens d t Hws).
  unfold is_unit. cbn [N_of_ascii].
  repeat match goal with
         | |- context [N.eqb d ?k] =>
             replace (N.eqb d k) with false by (symmetry; apply N.eqb_neq; cbn; lia)
         end.
  reflexivity.
Qed.

Ltac lengths :=
  repeat first [rewrite length_app in * | progress (cbn [List.length] in * )]; lia.

Lemma reads_back_elements (es : list JsVal) :
  Forall reads_back es -> forallb plain_json es = true ->
  forall e acc rest fuel,
    reads_back e -> plain_json e = true -> delimited rest ->
    (2 * List.length (join (js ",") (List.map value_text (e :: es)) ++ 93%N :: rest) + 1
     < fuel)%nat ->
    parse_elements fuel acc (join (js ",") (List.map value_text (e :: es)) ++ 93%N :: rest)
    = POk (JArr (List.rev acc ++ e :: es)) rest.
Proof.
  induction 1 as [|e2 es He2 Hes IH]; intros Hplain e acc rest fuel He Hpe Hrest Hfuel.
  - cbn [List.map join] in *. destruct fuel as [|f]; [lia|]. cbn [parse_elements].
    rewrite (He Hpe (93%N :: rest) f); [|cbn; auto|lia].
    rewrite skip_ws_opens by reflexivity. reflexivity.
  - cbn [forallb] in Hplain. apply andb_true_iff in Hplain. destruct Hplain as [Hp2 Hplain].
    cbn [List.map] in *. rewrite join_cons2 in *. rewrite <- !app_assoc in *.
    destruct fuel as [|f]; [lia|]. cbn [parse_elements].
    change (js "," ++ ?x) with (44%N :: x) in *.
    rewrite (He Hpe _ f); [|cbn; auto|try clear IH; lengths].
    rewrite skip_ws_opens by reflexivity.
    change (is_unit 44 ",") with true. cbv iota.
    rewrite (IH Hplain e2 (e :: acc) rest f He2 Hp2 Hrest).
    + cbn [List.rev]. rewrite <- app_assoc. reflexivity.
    + try clear IH. lengths.
Qed.

Lemma distinct_NoDup (keys : list jsstring) : distinct keys = true <-> NoDup keys.
Proof.
  induction keys as [|k keys IH]; cbn [distinct].
  - split; [constructor|reflexivity].
  - rewrite andb_true_iff, negb_true_iff, IH. split.
    + intros [Hk Hnd]. constructor; [|exact Hnd].
      intros Hin. assert (Hex : existsb (jsstring_eqb k) keys = true).
      { apply existsb_exists. exists k. split; [exact Hin|apply jsstring_eqb_refl]. }
      congruence.
    + intros Hnd. inversion Hnd as [|? ? Hk Hnd']; subst. split; [|exact Hnd'].
      destruct (existsb (jsstring_eqb k) keys) eqn:E; [|reflexivity].
      apply existsb_exists in E. destruct E as (x & Hx & E).
      apply jsstring_eqb_eq in E. subst x. contradiction.
Qed.

Lemma set_prop_fresh (k : jsstring) (v : JsVal) (acc : list (jsstring * JsVal)) :
  ~ In k (List.map fst acc) -> set_prop k v acc = acc ++ [(k, v)].
Proof.
  induction acc as [|[k' v'] acc IH]; intros Hk; [reflexivity|].
  cbn [set_prop]. destruct (jsstring_eqb k k') eqn:E.
  - apply jsstring_eqb_eq in E. subst k'. exfalso. apply Hk. left. reflexivity.
  - rewrite IH; [reflexivity|]. intros Hin. apply Hk. right. exact Hin.
Qed.

Lemma reads_back_members (ps : list (jsstring * JsVal)) :
  Forall (fun kv => reads_back (snd kv)) ps ->
  forallb (fun kv => plain_json (snd kv)) ps = true ->
  forall kv acc rest fuel,
    reads_back (snd kv) -> plain_json (snd kv) = true -> delimited rest ->
    NoDup (List.map fst (acc ++ kv :: ps)) ->
    (2 * List.length (join (js ",") (List.map member_text (kv :: ps)) ++ 125%N :: rest) + 1
     < fuel)%nat ->
    parse_members fuel acc (join (js ",") (List.map member_text (kv :: ps)) ++ 125%N :: rest)
    = POk (JObj (acc ++ kv :: ps)) rest.
Proof.
  induction 1 as [|kv2 ps Hkv2 Hps IH]; intros Hplain [k v] acc rest fuel Hv Hpv Hrest Hnd Hfuel.
  - cbn [List.map join] in *. unfold member_text, QuoteJSONString in *. cbn [fst snd] in *.
    change (js ":" ++ ?x) with (58%N :: x) in *.
    rewrite <- !app_assoc in *. cbn [app] in *.
    destruct fuel as [|f]; [lia|]. cbn [parse_members].
    rewrite skip_ws_opens by reflexivity. change (N.eqb 34 34) with true. cbv iota.
    rewrite (lex_string_quote_units (List.length k) k _ (le_n _)).
    rewrite skip_ws_opens by reflexivity. change (is_unit 58 ":") with true. cbv iota.
    rewrite (Hv Hpv (125%N :: rest) f);
      [|cbn; auto|try clear IH; lengths].
    rewrite skip_ws_opens by reflexivity.
    change (is_unit 125 ",") with false. change (is_unit 125 "}") with true. cbv iota.
    rewrite set_prop_fresh; [reflexivity|].
    rewrite map_app in Hnd. cbn [List.map fst] in Hnd.
    apply NoDup_remove_2 in Hnd. rewrite app_nil_r in Hnd. exact Hnd.
  - cbn [forallb] in Hplain. apply andb_true_iff in Hplain. destruct Hplain as [Hp2 Hplain].
    cbn [List.map] in *. rewrite join_cons2 in *.
    unfold member_text at 1, QuoteJSONString at 1 in Hfuel.
    unfold member_text at 1, QuoteJSONString at 1. cbn [fst snd] in *.
    change (js ":" ++ ?x) with (58%N :: x) in *.
    change (js "," ++ ?x) with (44%N :: x) in *.
    rewrite <- !app_assoc in *. cbn [app] in *.
    destruct fuel as [|f]; [lia|]. cbn [parse_members].
    rewrite skip_ws_opens by reflexivity. change (N.eqb 34 34) with true. cbv iota.
    rewrite (lex_string_quote_units (List.length k) k _ (le_n _)).
    rewrite skip_ws_opens by reflexivity. change (is_unit 58 ":") with true. cbv iota.
    rewrite (Hv Hpv _ f);
      [|cbn; auto|try clear IH; lengths].
    rewrite skip_ws_opens by reflexivity.
    change (is_unit 44 ",") with true. cbv iota.
    assert (Hk : ~ In k (List.map fst acc)).
    { rewrite map_app in Hnd. cbn [List.map fst] in Hnd.
      apply NoDup_remove_2 in Hnd. intros Hin. apply Hnd. apply in_or_app. left. exact Hin. }
    rewrite (set_prop_fresh k v acc Hk).
    rewrite (IH Hplain kv2 (acc ++ [(k, v)]) rest f Hkv2 Hp2 Hrest).
    + rewrite <- app_assoc. reflexivity.
    + rewrite <- app_assoc. exact Hnd.
    + try clear IH. lengths.
Qed.

Lemma reads_back_all (v : JsVal) : reads_back v.
Proof.
  induction v as [ | |b|n|s|elems IH|props IH] using JsVal_nested_ind;
    intros Hp rest fuel Hrest Hfuel; try discriminate.
  - destruct fuel as [|f]; [lia|]. cbn. unfold lex_literal. cbn. reflexivity.
  - destruct fuel as [|f]; [lia|]. destruct b; cbn; unfold lex_literal; cbn; reflexivity.
  - destruct fuel as [|f]; [lia|].
    cbn [plain_json] in Hp. apply Z.leb_le in Hp.
    change (value_text (JNum n)) with (Number_toString n) in *.
    assert (Hhead : exists d t, Number_toString n ++ rest = d :: t /\
                                (is_digit d = true \/ d = 45%N)).
    { destruct n as [|p|p]; cbn [Number_toString].
      - eexists; eexists; split; [reflexivity|left; reflexivity].
      - destruct (digit_head p) as (d & t & -> & Hd).
        eexists; eexists; split; [reflexivity|left; exact Hd].
      - eexists; eexists; split; [reflexivity|right; reflexivity]. }
    destruct Hhead as (d & t & Hdt & Hd).
    rewrite Hdt, (parse_value_number f d t Hd), <- Hdt.
    apply lex_number_toString; assumption.
  - destruct fuel as [|f]; [lia|].
    change (value_text (JStr s)) with (34%N :: quote_units s ++ [34%N]).
    cbn [app]. rewrite <- app_assoc. cbn [app parse_value].
    rewrite skip_ws_opens by reflexivity.
    change (is_unit 34 "{") with false. change (is_unit 34 "[") with false.
    change (N.eqb 34 34) with true. cbv iota.
    rewrite (lex_string_quote_units (List.length s) s rest (le_n _)). reflexivity.
  - destruct fuel as [|f]; [lia|].
    cbn [plain_json] in Hp.
    change (value_text (JArr elems))
      with (91%N :: join (js ",") (List.map value_text elems) ++ [93%N]) in *.
    cbn [app] in *. rewrite <- app_assoc in *. cbn [app parse_value] in *.
    rewrite skip_ws_opens by reflexivity.
    change (is_unit 91 "{") with false. change (is_unit 91 "[") with true. cbv iota.
    destruct elems as [|e es].
    + cbn [List.map join app]. rewrite skip_ws_opens by reflexivity. reflexivity.
    + cbn [forallb] in Hp. apply andb_true_iff in Hp. destruct Hp as [Hpe Hpes].
      inversion IH as [|? ? He Hes]; subst.
      destruct (value_text_head e Hpe) as (c & t & Hct & Hws & Hclose & _).
      assert (Hs : exists t', join (js ",") (List.map value_text (e :: es)) ++ 93%N :: rest
                              = c :: t').
      { cbn [List.map]. destruct es as [|e2 es'].
        - cbn [List.map join]. rewrite Hct. eexists. reflexivity.
        - cbn [List.map]. rewrite join_cons2, Hct. eexists. reflexivity. }
      destruct Hs as (t' & Hs). rewrite Hs, (skip_ws_opens c t' Hws), Hclose, <- Hs.
      apply (reads_back_elements es Hes Hpes e [] rest f He Hpe Hrest).
      cbn [List.length] in Hfuel. lia.
  - destruct fuel as [|f]; [lia|].
    cbn [plain_json] in Hp. apply andb_true_iff in Hp. destruct Hp as [Hd Hp].
    apply distinct_NoDup in Hd.
    unfold value_text in *. rewrite (stringify_object props Hp) in *.
    change (js "{" ++ ?x) with (123%N :: x) in *. change (js "}") with [125%N] in *.
    cbn [app] in *. rewrite <- app_assoc in *. cbn [app parse_value] in *.
    rewrite skip_ws_opens by reflexivity.
    change (is_unit 123 "{") with true. cbv iota.
    destruct props as [|[k x] ps].
    + cbn [List.map join app]. rewrite skip_ws_opens by reflexivity. reflexivity.
    + cbn [forallb snd] in Hp. apply andb_true_iff in Hp. destruct Hp as [Hpx Hps].
      inversion IH as [|? ? Hx Hxs]; subst.
      assert (Hs : exists t', join (js ",") (List.map member_text ((k, x) :: ps))
                              ++ 125%N :: rest = 34%N :: t').
      { cbn [List.map]. destruct ps as [|kv2 ps'].
        - cbn [List.map join]. eexists. reflexivity.
        - cbn [List.map]. rewrite join_cons2. eexists. reflexivity. }
      destruct Hs as (t' & Hs). rewrite Hs, skip_ws_opens by reflexivity.
      change (is_unit 34 "}") with false. cbv iota. rewrite <- Hs.
      apply (reads_back_members ps Hxs Hps (k, x) [] rest f Hx Hpx Hrest Hd).
      cbn [List.length] in Hfuel. lia.
Qed.

Lemma plain_json_represented (v : JsVal) : plain_json v = true -> represented v = true.
Proof.
  induction v as [ | |b|n|s|elems IH|props IH] using JsVal_nested_ind;
    cbn [plain_json represented]; try reflexivity; try discriminate.
  - intros H. rewrite forallb_forall in H |- *. rewrite Forall_forall in IH.
    intros x Hx. apply (IH x Hx), (H x Hx).
  - intros H. apply andb_true_iff in H. destruct H as [_ H].
    rewrite forallb_forall in H |- *. rewrite Forall_forall in IH.
    intros x Hx. apply (IH x Hx), (H x Hx).
Qed.

(** A value that [JSON.stringify] writes in full is the value that
    [JSON.parse] reads from the text. *)
Lemma JSON_round_trip (v : JsVal) (text : jsstring) :
  plain_json v = true -> JSON_stringify v = Some text -> JSON_parse text = Returns v.
Proof.
  intros Hp Hs. unfold JSON_parse.
  pose proof (reads_back_all v Hp [] (S (2 * List.length text)) I) as H.
  unfold value_text in H. rewrite Hs, app_nil_r in H.
  rewrite H by lia. cbn [skip_ws]. rewrite (plain_json_represented v Hp). reflexivity.
Qed.

(* ===================================================================== *)
(** * The dashboard and the Worker that serves it *)
(* ===================================================================== *)

(** What [Response.json] sends, [response.json()] receives. *)
Lemma response_json_Response_json (v : JsVal) (st : Z) (hs : list (jsstring * jsstring)) :
  plain_json v = true -> response_json (Response_json v st hs) = Returns v.
Proof.
  intros Hp. unfold response_json, Response_json. cbn [body].
  rewrite (plain_json_text v Hp). apply (JSON_round_trip v _ Hp), plain_json_text, Hp.
Qed.

Lemma request_json_submission (source content : jsstring) :
  request_json (submission source content) = Returns (item source content).
Proof.
  unfold request_json, submission. cbn [body_text].
  assert (Hp : plain_json (item source content) = true) by reflexivity.
  fold (item source content).
  rewrite (plain_json_text _ Hp). apply (JSON_round_trip _ _ Hp), plain_json_text, Hp.
Qed.

(** X16.  The request that the dashboard sends is a submission, and its
    body, [JSON.stringify({ source, content })], is read by
    [request.json()] on the server as the object [{source, content}]
    with the two strings as they were typed, whatever characters they
    hold: quotes, backslashes, control characters, line breaks, lone
    surrogates.  So the params of the instance that the Worker asks the
    host for are that object. *)
Theorem submission_parses_on_server (env : Env) (created_at : Z -> jsstring)
  (source content : jsstring) (w : World) :
  request_json (submission source content) = Returns (item source content) /\
  Worker.fetch env created_at (submission source content) w
  = match MY_WORKFLOW_create env (instances w)
            (JObj [(js "params", item source content)]) with
    | inr new_id =>
        (Returns (feedback_accepted new_id),
         with_instance w new_id (item source content))
    | inl _ => (Returns invalid_request_body, w)
    end.
Proof.
  split; [apply request_json_submission|].
  assert (Hsub : is_submit (submission source content) = true) by reflexivity.
  rewrite (Worker_fetch_extends_fetch env created_at _ w (or_intror Hsub)).
  rewrite (fetch_submit_cases env _ w Hsub), request_json_submission. reflexivity.
Qed.

Lemma trim_start_nil (s : jsstring) : trim_start s = [] <-> forallb is_space s = true.
Proof.
  induction s as [|c r IH]; cbn [trim_start forallb]; [tauto|].
  destruct (is_space c); cbn [andb]; [exact IH|]. split; discriminate.
Qed.

Lemma trim_start_keeps (s : jsstring) :
  forallb is_space s = false -> forallb is_space (trim_start s) = false.
Proof.
  induction s as [|c r IH]; cbn [trim_start forallb]; [discriminate|].
  destruct (is_space c) eqn:E; cbn [andb]; [exact IH|].
  intros _. cbn [forallb]. rewrite E. reflexivity.
Qed.

Lemma forallb_rev {A} (f : A -> bool) (l : list A) : forallb f (List.rev l) = forallb f l.
Proof.
  induction l as [|a l IH]; [reflexivity|].
  cbn [List.rev forallb]. rewrite forallb_app, IH. cbn [forallb].
  rewrite andb_true_r. apply andb_comm.
Qed.

(** [s.trim()] is empty exactly when [s] holds nothing but white space. *)
Lemma trim_nil (s : jsstring) : trim s = [] <-> forallb is_space s = true.
Proof.
  unfold trim. split.
  - intros H. apply (f_equal (@List.rev N)) in H. rewrite rev_involutive in H.
    cbn [List.rev] in H. apply trim_start_nil in H. rewrite forallb_rev in H.
    destruct (forallb is_space s) eqn:E; [reflexivity|].
    rewrite (trim_start_keeps s E) in H. discriminate.
  - intros H. apply trim_start_nil in H. rewrite H. reflexivity.
Qed.

Lemma ToBoolean_trim (s : jsstring) :
  ToBoolean (JStr (trim s)) = negb (forallb is_space s).
Proof.
  destruct (forallb is_space s) eqn:E.
  - apply trim_nil in E. rewrite E. reflexivity.
  - destruct (trim s) eqn:T; [|reflexivity].
    apply trim_nil in T. congruence.
Qed.

(** X17.  [submitFeedback] on a content that is empty or holds nothing
    but white space shows the alert [Please enter feedback content]
    and does nothing else: no request is sent, the fields and the
    status line stay as they were, no reload is set. *)
Theorem submitFeedback_blank_content (message : Error -> jsstring) (net : Network)
  (page : Page) :
  forallb is_space (content_value page) = true ->
  submitFeedback message net page
  = Returns {| source_value := source_value page;
               content_value := content_value page;
               status_text := status_text page;
               status_class := status_class page;
               alerts := alerts page ++ [js "Please enter feedback content"];
               sent := sent page;
               reloads_due := reloads_due page |}.
Proof.
  intros H. unfold submitFeedback. rewrite ToBoolean_trim, H. reflexivity.
Qed.

Lemma submitFeedback_blank_content_witness :
  submitFeedback (fun _ => js "Failed to fetch") (served env_host_down filed_at seeded_world)
    {| source_value := js "Discord"; content_value := js "  "; status_text := [];
       status_class := []; alerts := []; sent := []; reloads_due := 0 |}
  = Returns {| source_value := js "Discord"; content_value := js "  "; status_text := [];
               status_class := [];
               alerts := [] ++ [js "Please enter feedback content"];
               sent := []; reloads_due := 0 |}.
Proof.
  apply (submitFeedback_blank_content (fun _ => js "Failed to fetch")
           (served env_host_down filed_at seeded_world)
           {| source_value := js "Discord"; content_value := js "  "; status_text := [];
              status_class := []; alerts := []; sent := []; reloads_due := 0 |}).
  reflexivity.
Defined.

(** X18.  Served by the Worker, [submitFeedback] on a content that is
    not blank sends one request and always ends on the success notice,
    with the content field cleared and one reload set: with the id of
    the instance when the host creates one, and with
    [Workflow ID: undefined] when the host refuses and the Worker
    answers 400.  The error notice is never shown. *)
Theorem submitFeedback_served (message : Error -> jsstring) (env : Env)
  (created_at : Z -> jsstring) (w : World) (page : Page) :
  forallb is_space (content_value page) = false ->
  submitFeedback message (served env created_at w) page
  = Returns {| source_value := source_value page;
               content_value := [];
               status_text :=
                 CHECK_MARK ++ js " Submitted! Workflow ID: " ++
                 match MY_WORKFLOW_create env (instances w)
                         (JObj [(js "params",
                                 item (source_value page) (content_value page))]) with
                 | inr new_id => new_id
                 | inl _ => js "undefined"
                 end;
               status_class := js "success";
               alerts := alerts page;
               sent := sent page ++ [submission (source_value page) (content_value page)];
               reloads_due := S (reloads_due page) |}.
Proof.
  intros H. unfold submitFeedback. rewrite ToBoolean_trim, H. cbn [negb].
  pose proof (request_json_submission (source_value page) (content_value page)) as Hjson.
  assert (Hsub : is_submit (submission (source_value page) (content_value page)) = true)
    by reflexivity.
  unfold served.
  rewrite (Worker_fetch_extends_fetch env created_at _ w (or_intror Hsub)).
  rewrite (fetch_submit_cases env _ w Hsub), Hjson.
  destruct (MY_WORKFLOW_create env (instances w) _) as [e|new_id]; cbn [fst and_then].
  - unfold invalid_request_body.
    rewrite response_json_Response_json by reflexivity. reflexivity.
  - unfold feedback_accepted.
    rewrite response_json_Response_json by reflexivity. reflexivity.
Qed.

Lemma submitFeedback_served_witness :
  submitFeedback (fun _ => js "Failed to fetch") (served env_host_down filed_at seeded_world)
    {| source_value := js "Discord"; content_value := js "It is down"; status_text := [];
       status_class := []; alerts := []; sent := []; reloads_due := 0 |}
  = Returns {| source_value := js "Discord";
               content_value := [];
               status_text := CHECK_MARK ++ js " Submitted! Workflow ID: " ++ js "undefined";
               status_class := js "success";
               alerts := [];
               sent := [] ++ [submission (js "Discord") (js "It is down")];
               reloads_due := 1 |}.
Proof.
  apply (submitFeedback_served (fun _ => js "Failed to fetch") env_host_down filed_at
           seeded_world
           {| source_value := js "Discord"; content_value := js "It is down";
              status_text := []; status_class := []; alerts := []; sent := [];
              reloads_due := 0 |}).
  reflexivity.
Defined.


Lemma pieces_throw {A} (piece : JsVal -> Outcome jsstring) (g : A -> JsVal)
  (e : Error) (l : list A) :
  (forall x, In x l -> (exists t, piece (g x) = Returns t) \/ piece (g x) = Throws e) ->
  (exists x, In x l /\ piece (g x) = Throws e) ->
  pieces piece (List.map g l) = Throws e.
Proof.
  induction l as [|a l IH]; intros Hall (x & Hx & Hthrow); [destruct Hx|].
  cbn [List.map pieces].
  destruct (Hall a (or_introl eq_refl)) as [[t Ht]|Ht]; rewrite Ht; [|reflexivity].
  cbn [and_then]. destruct Hx as [->|Hx]; [congruence|].
  rewrite IH; [reflexivity| |exists x; auto].
  intros y Hy. apply Hall. right. exact Hy.
Qed.




(** The label of a column value converts to text. *)
Lemma label_converts (k : option jsstring) (lit : string) :
  ToString_or_throw (or_else (column_value k) lit)
  = Returns (ToString (or_else (column_value k) lit)).
Proof. destruct k as [[|c s]|]; reflexivity. Qed.

Lemma column_converts (k : option jsstring) :
  ToString_or_throw (column_value k) = Returns (ToString (column_value k)).
Proof. destruct k; reflexivity. Qed.




Lemma plain_feedback_object (created_at : Z -> jsstring) (r : feedback.row) :
  Z.abs (feedback.id r) <= MAX_SAFE_INTEGER ->
  plain_json (feedback_object created_at r) = true.
Proof.
  intros Hid. unfold feedback_object.
  cbn [plain_json List.map fst snd forallb].
  replace (Z.leb (Z.abs (feedback.id r)) MAX_SAFE_INTEGER) with true
    by (symmetry; apply Z.leb_le; exact Hid).
  destruct (feedback.source r), (feedback.content r), (feedback.sentiment r),
    (feedback.category r), (feedback.urgency r); reflexivity.
Qed.

Lemma select_recent_feedback_in (created_at : Z -> jsstring) (rows : list feedback.row)
  (r : feedback.row) :
  In r (select_recent_feedback created_at rows) -> In r rows.
Proof.
  unfold select_recent_feedback. intros H.
  apply (Permutation_in _ (order_by_created_at_desc_permutation created_at rows)).
  rewrite <- (firstn_skipn 50). apply in_or_app. left. exact H.
Qed.

(** One item of [loadFeedback], on an object that the Worker sends. *)
Lemma feedback_item_served (toLocaleString : JsVal -> jsstring)
  (created_at : Z -> jsstring) (r : feedback.row) :
  (has_content r = true /\
   exists html, feedback_item toLocaleString (feedback_object created_at r) = Returns html) \/
  (has_content r = false /\
   feedback_item toLocaleString (feedback_object created_at r) = Throws TypeError).
Proof.
  unfold has_content, feedback_item, feedback_object, Get. cbn [lookup_prop].
  repeat match goal with
         | |- context [jsstring_eqb (js ?a) (js ?b)] =>
             let v := eval vm_compute in (jsstring_eqb (js a) (js b)) in
             change (jsstring_eqb (js a) (js b)) with v
         end.
  cbv iota. cbn [and_then]. rewrite column_converts, !label_converts. cbn [and_then].
  destruct (feedback.content r) as [s|]; cbn [column_value].
  - left. split; [reflexivity|]. unfold shortened.
    cbn [substring_call and_then length_of greater_than]. eexists. reflexivity.
  - right. split; reflexivity.
Qed.

(** [loadFeedback] on the answer of the Worker: the items of the
    objects that the Worker built, the wire format losing nothing. *)
Lemma loadFeedback_on_served (toLocaleString : JsVal -> jsstring) (env : Env)
  (created_at : Z -> jsstring) (w : World) :
  Forall (fun r => Z.abs (feedback.id r) <= MAX_SAFE_INTEGER) (feedback_of w) ->
  loadFeedback toLocaleString (served env created_at w)
  = caught
      (match select_recent_feedback created_at (feedback_of w) with
       | [] => Returns NO_FEEDBACK
       | _ :: _ =>
           pieces (feedback_item toLocaleString)
             (List.map (feedback_object created_at)
                (select_recent_feedback created_at (feedback_of w)))
       end)
      (fun _ => ERROR_LOADING_FEEDBACK).
Proof.
  intros Hids. unfold loadFeedback, served.
  rewrite (fetch_get_feedback env created_at (get_request "/api/feedback") w
             eq_refl eq_refl).
  cbn [fst and_then].
  rewrite response_json_Response_json.
  - cbn [and_then ToBoolean negb length_of strict_eq_number]. rewrite length_map.
    destruct (select_recent_feedback created_at (feedback_of w)) as [|r l]; reflexivity.
  - cbn [plain_json]. rewrite forallb_forall. intros v Hv.
    apply in_map_iff in Hv. destruct Hv as (r & <- & Hr).
    apply plain_feedback_object.
    rewrite Forall_forall in Hids. apply Hids.
    apply (select_recent_feedback_in created_at). exact Hr.
Qed.

(** The items of records that all have a content. *)
Lemma pieces_with_content (toLocaleString : JsVal -> jsstring) (created_at : Z -> jsstring)
  (listed : list feedback.row) :
  forallb has_content listed = true ->
  exists html,
    pieces (feedback_item toLocaleString) (List.map (feedback_object created_at) listed)
    = Returns html.
Proof.
  induction listed as [|r l IH]; intros Hall; [eexists; reflexivity|].
  cbn [forallb] in Hall. apply andb_true_iff in Hall. destruct Hall as [Hr Hl].
  destruct (IH Hl) as [t Ht].
  destruct (feedback_item_served toLocaleString created_at r)
    as [[_ [h Hh]]|[Hno _]]; [|congruence].
  cbn [List.map pieces]. rewrite Hh, Ht. eexists. reflexivity.
Qed.

(** X20.  Served by the Worker, with record ids below [2^53],
    [loadFeedback] shows [No feedback yet ...] when the store is empty;
    when every one of the newest fifty records has a content, it shows
    one item for each of them, in the order of the answer; and when
    one of them has a NULL content (a submission with [content: null]
    leaves such a record), it shows [Error loading feedback] in place
    of the whole list. *)
Theorem loadFeedback_served (toLocaleString : JsVal -> jsstring) (env : Env)
  (created_at : Z -> jsstring) (w : World) :
  Forall (fun r => Z.abs (feedback.id r) <= MAX_SAFE_INTEGER) (feedback_of w) ->
  let listed := select_recent_feedback created_at (feedback_of w) in
  (feedback_of w = [] ->
   loadFeedback toLocaleString (served env created_at w) = Returns NO_FEEDBACK) /\
  (feedback_of w <> [] -> forallb has_content listed = true ->
   exists html,
     pieces (feedback_item toLocaleString) (List.map (feedback_object created_at) listed)
     = Returns html /\
     loadFeedback toLocaleString (served env created_at w) = Returns html) /\
  (forallb has_content listed = false ->
   loadFeedback toLocaleString (served env created_at w) = Returns ERROR_LOADING_FEEDBACK).
Proof.
  intros Hids listed.
  pose proof (loadFeedback_on_served toLocaleString env created_at w Hids) as Hload.
  fold listed in Hload.
  rewrite Hload. split; [|split].
  - intros Hempty. unfold listed. rewrite Hempty. reflexivity.
  - intros Hne Hall.
    assert (Hlisted : listed <> []).
    { intros E. apply Hne. apply length_zero_iff_nil.
      apply (f_equal (@List.length feedback.row)) in E. unfold listed in E.
      unfold select_recent_feedback in E.
      rewrite length_firstn, (Permutation_length
                                (order_by_created_at_desc_permutation created_at _)) in E.
      cbn [List.length] in E. lia. }
    pose proof (pieces_with_content toLocaleString created_at listed Hall) as Hpieces.
    destruct Hpieces as [html Hhtml]. exists html. split; [exact Hhtml|].
    destruct listed as [|r l]; [congruence|]. rewrite Hhtml. reflexivity.
  - intros Hsome.
    destruct listed as [|r0 l0] eqn:El; [discriminate|]. rewrite <- El in *.
    rewrite (pieces_throw (feedback_item toLocaleString) (feedback_object created_at)
               TypeError listed); [reflexivity| |].
    + intros x _. destruct (feedback_item_served toLocaleString created_at x)
        as [[_ [h Hh]]|[_ Hthrow]]; [left; exists h; exact Hh|right; exact Hthrow].
    + clear Hload El. induction listed as [|r l IH]; [discriminate|].
      cbn [forallb] in Hsome. apply andb_false_iff in Hsome.
      destruct Hsome as [Hr|Hl].
      * exists r. split; [left; reflexivity|].
        destruct (feedback_item_served toLocaleString created_at r)
          as [[Hyes _]|[_ Hthrow]]; [congruence|exact Hthrow].
      * destruct (IH Hl) as (x & Hx & Hthrow). exists x. split; [right; exact Hx|exact Hthrow].
Qed.

Lemma loadFeedback_served_witness :
  loadFeedback ToString (served env_host_down filed_at null_content_world)
  = Returns ERROR_LOADING_FEEDBACK.
Proof.
  apply (proj2 (proj2 (loadFeedback_served ToString env_host_down filed_at
                         null_content_world
                         ltac:(repeat constructor; vm_compute; discriminate)))).
  reflexivity.
Defined.

Lemma strip_prefix_app (part text rest : jsstring) :
  strip_prefix part text = Some rest -> text = part ++ rest.
Proof.
  revert text. induction part as [|c part IH]; intros text H; cbn [strip_prefix] in H.
  - inversion H. reflexivity.
  - destruct text as [|d text]; [discriminate|].
    destruct (N.eqb c d) eqn:E; [|discriminate].
    apply N.eqb_eq in E. subst d. cbn [app]. f_equal. apply IH. exact H.
Qed.

Lemma occurs_names (part text : jsstring) : occurs part text = true -> names text part.
Proof.
  induction text as [|c text IH]; cbn [occurs]; unfold starts_with.
  - destruct (strip_prefix part []) as [rest|] eqn:E; [|discriminate].
    intros _. exists [], rest. exact (strip_prefix_app part _ rest E).
  - destruct (strip_prefix part (c :: text)) as [rest|] eqn:E.
    + intros _. exists [], rest. exact (strip_prefix_app part _ rest E).
    + cbn [orb]. intros H. destruct (IH H) as (a & b & ->).
      exists (c :: a), b. reflexivity.
Qed.

(** The page that [GET /] serves holds the script as this development
    reads it: the texts that [submitFeedback], [loadStats] and
    [loadFeedback] write are in it, letter for letter. *)
Lemma dashboard_script_texts :
  Forall (names getDashboardHTML)
    [ js "Please enter feedback content"; CHECK_MARK ++ js " Submitted! Workflow ID: ";
      CROSS_MARK ++ js " Error: "; NO_STATISTICS; ERROR_LOADING_STATS;
      NO_FEEDBACK; ERROR_LOADING_FEEDBACK;
      html_text "<div class=^stat^><span>"; js "</span><strong>"; js "</strong></div>";
      js "<h3>By Category</h3>"; js "<h3>By Sentiment</h3>"; js "<h3>By Urgency</h3>";
      ITEM_1; ITEM_2; ITEM_3; ITEM_4; ITEM_5; ITEM_6; ITEM_7; ITEM_8 ].
Proof.
  repeat (constructor; [apply occurs_names; vm_compute; reflexivity|]). constructor.
Qed.








(* ===================================================================== *)
(** * The aggregate, read back *)
(* ===================================================================== *)

(** X22.  The value that step 3 stores can be read back: with fewer
    than [2^53] records in the store, the row the step writes under
    the key of the category holds a text that [JSON.parse] reads as
    the object [{count: n}], [n] being the number of records of that
    category. *)
Theorem stat_value_reads_back (env : Env) (analysis cat : JsVal) (p : SqlValue)
  (w : World) :
  Get analysis (js "category") = Returns cat ->
  d1_bind cat = Returns p ->
  Z.of_nat (List.length (feedback_of w)) <= MAX_SAFE_INTEGER ->
  exists row text,
    In row (stats_of (snd (update_stats env analysis w))) /\
    aggregated_stats.stat_type row = Some (stat_key cat) /\
    aggregated_stats.stat_value row = Some text /\
    JSON_parse text
    = Returns (JObj [(js "count", JNum (count_by_category p (feedback_of w)))]).
Proof.
  intros Hc Hp Hlen.
  rewrite (update_stats_returns env analysis cat p w Hc Hp).
  unfold stats_of at 1. cbn [snd with_DB DB aggregated_stats_table].
  eexists. eexists. split; [apply upsert_stat_in; left; reflexivity|].
  split; [reflexivity|]. split; [reflexivity|].
  apply (JSON_round_trip (count_by_category_first p (feedback_table (DB w))));
    [|apply json_stringify_count].
  unfold count_by_category_first.
  cbn [plain_json List.map fst distinct forallb snd existsb negb andb].
  rewrite andb_true_r. apply Z.leb_le.
  unfold count_by_category.
  pose proof (filter_length_le
                (fun r => sql_text_eq (feedback.category r) (text_affinity p))
                (feedback_table (DB w))) as Hle.
  unfold feedback_of in Hlen. lia.
Qed.

Lemma stat_value_reads_back_witness :
  exists row text,
    In row (stats_of (snd (update_stats env_host_down urgent_bug seeded_world))) /\
    aggregated_stats.stat_type row = Some (stat_key (JStr (js "bug"))) /\
    aggregated_stats.stat_value row = Some text /\
    JSON_parse text
    = Returns (JObj [(js "count",
                      JNum (count_by_category (SqlText (js "bug"))
                              (feedback_of seeded_world)))]).
Proof.
  apply (stat_value_reads_back env_host_down urgent_bug (JStr (js "bug"))
           (SqlText (js "bug")) seeded_world); try reflexivity.
  vm_compute. discriminate.
Defined.
